(** * Ocea Collector: reconciliation engine and authentication client

    A shallow embedding of [custom_components/ocea_collector/coordinator.py]
    and [custom_components/ocea_collector/ocea_client.py], with the properties
    stated in the specification of the integration.

    Modelling conventions.
    - A Python [float] is an exact rational ([Q]); the only roundings that
      appear are the explicit [round(x, 3)] calls of the source.  NaN and the
      infinities are outside the model.
    - A [datetime.date] is its proleptic Gregorian ordinal ([date.toordinal()]),
      an integer; [year], [month] and [day] are recovered with the standard
      library's [_ord2ymd].  Subtracting dates and adding a [timedelta] of
      whole days are then integer arithmetic.
    - A Python [dict] used as a map is a [gmap]; a dict with a fixed set of
      keys is a record of options ([None] standing for an absent key as well
      as for a null value).
    - The recorder stores each statistics row under the calendar date of its
      [start]; the conversion between a local midnight timestamp and its date
      is taken to be exact.
    - HTTP exchanges are answered by an environment function; every request
      yields a response (transport failures are not modelled). *)

From Stdlib Require Import ZArith QArith Qround Lia Lqa String Ascii List Bool.
From Stdlib Require OrderedTypeEx Sorted.
From stdpp Require Import base option list gmap strings.
Import ListNotations.

Local Open Scope string_scope.
Local Open Scope Z_scope.

(* ===================================================================== *)
(** ** Dates: the part of [datetime.date] the coordinator uses *)
(* ===================================================================== *)

Module PyDate.

(** [date.toordinal()]: day 1 is 0001-01-01. *)
Definition date := Z.

Definition _DAYS_IN_MONTH : list Z :=
  [-1; 31; 28; 31; 30; 31; 30; 31; 31; 30; 31; 30; 31].

Definition _DAYS_BEFORE_MONTH : list Z :=
  [-1; 0; 31; 59; 90; 120; 151; 181; 212; 243; 273; 304; 334].

Definition index (l : list Z) (i : Z) : Z := nth (Z.to_nat i) l (-1).

Definition _is_leap (year : Z) : bool :=
  (year mod 4 =? 0) && (negb (year mod 100 =? 0) || (year mod 400 =? 0)).

Definition _days_before_year (year : Z) : Z :=
  let y := year - 1 in
  y * 365 + y / 4 - y / 100 + y / 400.

Definition _days_in_month (year month : Z) : Z :=
  if (month =? 2) && _is_leap year then 29 else index _DAYS_IN_MONTH month.

Definition _days_before_month (year month : Z) : Z :=
  index _DAYS_BEFORE_MONTH month
  + (if (month >? 2) && _is_leap year then 1 else 0).

Definition _ymd2ord (year month day : Z) : date :=
  _days_before_year year + _days_before_month year month + day.

Definition _DI400Y : Z := Eval cbv in _days_before_year 401.
Definition _DI100Y : Z := Eval cbv in _days_before_year 101.
Definition _DI4Y : Z := Eval cbv in _days_before_year 5.

Definition _ord2ymd (n : date) : Z * Z * Z :=
  let n := n - 1 in
  let n400 := n / _DI400Y in
  let n := n mod _DI400Y in
  let year := n400 * 400 + 1 in
  let n100 := n / _DI100Y in
  let n := n mod _DI100Y in
  let n4 := n / _DI4Y in
  let n := n mod _DI4Y in
  let n1 := n / 365 in
  let n := n mod 365 in
  let year := year + n100 * 100 + n4 * 4 + n1 in
  if (n1 =? 4) || (n100 =? 4) then (year - 1, 12, 31)
  else
    let leapyear := (n1 =? 3) && (negb (n4 =? 24) || (n100 =? 3)) in
    let month := Z.shiftr (n + 50) 5 in
    let preceding :=
      index _DAYS_BEFORE_MONTH month
      + (if (month >? 2) && leapyear then 1 else 0) in
    if preceding >? n then
      let month := month - 1 in
      let preceding :=
        preceding
        - (index _DAYS_IN_MONTH month
           + (if (month =? 2) && leapyear then 1 else 0)) in
      (year, month, n - preceding + 1)
    else (year, month, n - preceding + 1).

Definition year (d : date) : Z := fst (fst (_ord2ymd d)).
Definition month (d : date) : Z := snd (fst (_ord2ymd d)).
Definition day (d : date) : Z := snd (_ord2ymd d).

(** [date(y, m, d)]. *)
Definition mk (y m d : Z) : date := _ymd2ord y m d.

(** [d.replace(day=1)]. *)
Definition replace_day1 (d : date) : date := mk (year d) (month d) 1.

(** [d + timedelta(days=k)] and [d - timedelta(days=k)]. *)
Definition add_days (d : date) (k : Z) : date := d + k.
Definition sub_days (d : date) (k : Z) : date := d - k.

(** [(a - b).days]. *)
Definition days_between (a b : date) : Z := a - b.


End PyDate.

(* ===================================================================== *)
(** ** Numbers *)
(* ===================================================================== *)

Module Num.

Local Open Scope Q_scope.

Definition Qltb (x y : Q) : bool := negb (Qle_bool y x).

(** The literal [1e-6]. *)
Definition eps : Q := 1 # 1000000.

(** Nearest integer, ties to the even one. *)
Definition round_half_even (x : Q) : Z :=
  let f := Qfloor x in
  match Qcompare (x - inject_Z f) (1 # 2) with
  | Lt => f
  | Gt => (f + 1)%Z
  | Eq => if Z.even f then f else (f + 1)%Z
  end.

(** [round(x, 3)]. *)
Definition round3 (x : Q) : Q := inject_Z (round_half_even (x * 1000)) / 1000.

(** Truth value of an optional number, as in [x or 0.0]. *)
Definition or_zero (x : option Q) : Q :=
  match x with
  | Some v => if Qeq_bool v 0 then 0 else v
  | None => 0
  end.

End Num.


(* ===================================================================== *)
(** ** coordinator.py: data model *)
(* ===================================================================== *)

Module Coordinator.
Import PyDate Num.

(** The strings carried by [value_status]. *)
Inductive ValueStatus :=
| v_unknown | v_missing | v_invalid | v_ok | v_stale.

(** The strings carried by [daily_status]. *)
Inductive DailyStatus :=
| d_unknown | d_stale | d_missing | d_invalid | d_corrected | d_ok | d_estimated.

(** The strings carried by [daily_source] and [estimated_today_source]. *)
Inductive Source :=
| stale_total | invalid_total | negative_delta | same_day_correction
| month_reset | no_change | delta_src | multi_day_estimate | monthly_average.

Definition ValueStatus_eqb (a b : ValueStatus) : bool :=
  match a, b with
  | v_unknown, v_unknown | v_missing, v_missing | v_invalid, v_invalid
  | v_ok, v_ok | v_stale, v_stale => true
  | _, _ => false
  end.

(** One value of [FLUIDS] in ocea_client.py. *)
Record FluidMeta := {
  api_name : string;
  unit : option string;
  label : string;
}.

(** [FLUIDS], in insertion order. *)
Definition FLUIDS : list (string * FluidMeta) :=
  [ ("eau_froide", {| api_name := "EauFroide"; unit := Some "L"; label := "Eau froide" |});
    ("eau_chaude", {| api_name := "EauChaude"; unit := Some "L"; label := "Eau chaude" |});
    ("cetc", {| api_name := "Cetc"; unit := Some "kWh"; label := "CETC" |}) ].

(** One value of the mapping returned by [OceaClient.fetch]; [latest_date]
    is held as the date [_parse_date] reads from it ([None] when it is
    absent or unreadable). *)
Record RawEntry := {
  latest_value : option Q;
  latest_date : option date;
  leak_estimate : option string;
}.

(** [raw.get(key, {})] on a missing key. *)
Definition empty_entry : RawEntry :=
  {| latest_value := None; latest_date := None; leak_estimate := None |}.

(** One value of [store_data["fluids"]]: the persisted baseline.  The date
    is written with [isoformat] and read back with [_parse_date]. *)
Record FluidStore := {
  st_last_total : option Q;
  st_last_total_at : option date;
}.

(** [store_fluids.get(key, {})] on a missing key. *)
Definition empty_store : FluidStore :=
  {| st_last_total := None; st_last_total_at := None |}.

Record FluidData := {
  fd_total : option Q;
  fd_unit : option string;
  fd_leak_estimate : string;
  fd_daily : option Q;
  fd_daily_status : DailyStatus;
  fd_daily_source : option Source;
  fd_estimated_today : option Q;
  fd_estimated_today_source : option Source;
  fd_latest_date : option date;
  fd_api_latest_date : option date;
  fd_value_status : ValueStatus;
  fd_last_total : option Q;
  fd_last_total_at : option date;
}.

(** A row read back from the recorder ([StatisticsRow]); the columns may be
    null. *)
Record StatisticsRow := {
  row_state : option Q;
  row_sum : option Q;
}.

(** A point handed to the recorder ([StatisticData]). *)
Record StatisticData := {
  sd_start : date;
  sd_state : Q;
  sd_sum : Q;
}.

Inductive UnitClass := volume | energy.

Record StatisticMetaData := {
  has_sum : bool;
  name : string;
  source : string;
  statistic_id : string;
  unit_class : UnitClass;
  unit_of_measurement : string;
}.

(** The recorder: for each statistic id, the stored rows by day. *)
Abbreviation Recorder := (gmap string (gmap Z StatisticsRow)).

(** What the coordinator object holds that the statistics code reads:
    [DOMAIN] (from const.py) and [self._entry.entry_id]. *)
Record Entry := {
  DOMAIN : string;
  entry_id : string;
}.

(* ===================================================================== *)
(** ** coordinator.py: statistics *)
(* ===================================================================== *)

(** [f"{DOMAIN}:{self._entry.entry_id}_{fluid_key}"] *)
Definition stat_id_of (self : Entry) (fluid_key : string) : string :=
  String.append (DOMAIN self)
    (String.append ":" (String.append (entry_id self) (String.append "_" fluid_key))).

(** The row with the greatest start among the rows of one series. *)
Definition last_row (rows : gmap Z StatisticsRow) : option (date * StatisticsRow) :=
  map_fold
    (fun d r acc =>
       match acc with
       | Some (d', _) => if d' <? d then Some (d, r) else acc
       | None => Some (d, r)
       end)
    None rows.

(** [_get_last_stat]: [get_last_statistics(hass, 1, stat_id, ...)] returns
    the most recent row of the series, or nothing when the series is
    unknown or empty. *)
Definition _get_last_stat (rec : Recorder) (stat_id : string)
  : option (date * StatisticsRow) :=
  match rec !! stat_id with
  | Some rows => last_row rows
  | None => None
  end.

Definition _get_statistics_metadata (self : Entry) (stat_id name : string)
    (unit : option string) : option StatisticMetaData :=
  let mk_meta uc un :=
    Some {| has_sum := true; name := String.append "Ocea " name;
            source := DOMAIN self; statistic_id := stat_id;
            unit_class := uc; unit_of_measurement := un |} in
  match unit with
  | Some u =>
      if String.eqb u "m3" || String.eqb u "L" then
        mk_meta volume (if String.eqb u "L" then "L" else "m3")
      else if String.eqb u "kWh" then mk_meta energy "kWh"
      else None
  | None => None
  end.

(** [async_add_external_statistics]: each point is stored under its start,
    replacing a row already stored there. *)
Definition async_add_external_statistics (rec : Recorder)
    (metadata : StatisticMetaData) (stats : list StatisticData) : Recorder :=
  let rows := default ∅ (rec !! statistic_id metadata) in
  <[ statistic_id metadata :=
       foldl (fun m p =>
                <[ sd_start p := {| row_state := Some (sd_state p);
                                    row_sum := Some (sd_sum p) |} ]> m)
             rows stats ]> rec.

(** The loop [for offset in range(first, first + n)] of
    [_update_statistics_range], with the running [sum_value]. *)
Fixpoint range_stats (stats_start : date) (per_day : Q) (offset : Z) (n : nat)
    (sum_value : Q) : list StatisticData :=
  match n with
  | O => []
  | S n' =>
      let day := add_days stats_start offset in
      let sum_value := (sum_value + per_day)%Q in
      {| sd_start := day; sd_state := per_day; sd_sum := sum_value |}
        :: range_stats stats_start per_day (offset + 1) n' sum_value
  end.

(** [_update_statistics_range].  The result is the batch handed to the
    recorder (empty when the function returns before pushing) and the
    recorder afterwards. *)
Definition _update_statistics_range (self : Entry) (rec : Recorder)
    (fluid_key : string) (unit : option string) (start_date end_date : date)
    (per_day : Q) : list StatisticData * Recorder :=
  let stat_id := stat_id_of self fluid_key in
  let last_stat := _get_last_stat rec stat_id in
  let sum_value :=
    match last_stat with
    | Some (_, row) => or_zero (row_sum row)
    | None => 0%Q
    end in
  let last_stat_date := fst <$> last_stat in
  if Qltb per_day 0 then ([], rec)
  else
    let stats_start :=
      match last_stat_date with
      | Some d => if d >? start_date then d else start_date
      | None => start_date
      end in
    let days_between := days_between end_date stats_start in
    if days_between <=? 0 then ([], rec)
    else
      let stats :=
        range_stats stats_start per_day 1 (Z.to_nat days_between) sum_value in
      match stats with
      | [] => ([], rec)
      | _ =>
          match _get_statistics_metadata self stat_id
                  (String.append fluid_key " consumption") unit with
          | None => ([], rec)
          | Some metadata =>
              (stats, async_add_external_statistics rec metadata stats)
          end
      end.

(** [_update_statistics_correction].  The result is the returned value, the
    batch handed to the recorder and the recorder afterwards. *)
Definition _update_statistics_correction (self : Entry) (rec : Recorder)
    (fluid_key : string) (unit : option string) (day : date) (delta : Q)
  : option Q * list StatisticData * Recorder :=
  if Qle_bool delta 0 then (None, [], rec)
  else
    let stat_id := stat_id_of self fluid_key in
    match _get_last_stat rec stat_id with
    | None => (None, [], rec)
    | Some (last_stat_date, last_stat) =>
        if negb (last_stat_date =? day) then (None, [], rec)
        else
          let last_state := or_zero (row_state last_stat) in
          let last_sum := or_zero (row_sum last_stat) in
          let new_state := round3 (last_state + delta) in
          if Qltb new_state 0 then (None, [], rec)
          else
            let new_sum := (last_sum - last_state + new_state)%Q in
            match _get_statistics_metadata self stat_id
                    (String.append fluid_key " consumption") unit with
            | None => (None, [], rec)
            | Some metadata =>
                let stats :=
                  [ {| sd_start := day; sd_state := new_state;
                       sd_sum := new_sum |} ] in
                (Some new_state, stats,
                 async_add_external_statistics rec metadata stats)
            end
    end.

(** The day the backfill counts from: the later of the requested start and
    the day of the last stored row. *)
Definition backfill_base (last : option (date * StatisticsRow))
    (start_date : date) : date :=
  match last with
  | Some (d, _) => Z.max start_date d
  | None => start_date
  end.

(** The running sum the backfill starts from. *)
Definition backfill_seed (last : option (date * StatisticsRow)) : Q :=
  match last with
  | Some (_, row) => or_zero (row_sum row)
  | None => 0%Q
  end.


(* ===================================================================== *)
(** ** coordinator.py: one fluid of [_async_update_data] *)
(* ===================================================================== *)

(** Lines 164-169: the date the reading is taken to be for.  [api_date] is
    [_parse_date(raw_entry.get("latest_date"))] and [now_date] is
    [now.date()].  The result is never [None], so the later tests
    [current_date is None] of the source are constantly false. *)
Definition effective_date (api_date : option date) (now_date : date) : date :=
  match api_date with
  | None => sub_days now_date 1
  | Some current_date =>
      if (day current_date =? 1) && (day now_date >? 1)
      then sub_days now_date 1
      else current_date
  end.

(** Lines 182-197: the first classification of the reading. *)
Definition classify_value (current_total : option Q) (current_date : date)
    (last_total : option Q) (last_total_at : option date) : ValueStatus :=
  let value_status :=
    match current_total with
    | None => v_missing
    | Some ct =>
        if Qltb ct 0 then v_invalid
        else
          match last_total, last_total_at with
          | Some lt, Some lat =>
              if current_date <? lat then v_invalid
              else if month current_date =? month lat then
                if Qeq_bool ct 0 && Qltb 0 lt then v_invalid
                else if Qltb (ct + eps) lt then v_invalid
                else v_unknown
              else v_unknown
          | _, _ => v_unknown
          end
    end in
  if ValueStatus_eqb value_status v_unknown then v_ok else value_status.

(** Lines 199-208: an unchanged total on a later date is stale. *)
Definition downgrade_stale (value_status : ValueStatus)
    (current_total : option Q) (current_date : date)
    (last_total : option Q) (last_total_at : option date) : ValueStatus :=
  match current_total, last_total, last_total_at with
  | Some ct, Some lt, Some lat =>
      if ValueStatus_eqb value_status v_ok && Qeq_bool ct lt
         && (current_date >? lat)
      then v_stale else value_status
  | _, _, _ => value_status
  end.

(** Lines 210-215: fall back on the last trusted total.  The result is
    [(value_used, value_status)]. *)
Definition fallback (value_status : ValueStatus) (current_total : option Q)
    (last_total : option Q) : option Q * ValueStatus :=
  if ValueStatus_eqb value_status v_missing
     || ValueStatus_eqb value_status v_invalid
  then
    match last_total with
    | Some lt => (Some lt, v_stale)
    | None => (None, value_status)
    end
  else (current_total, value_status).

(** Lines 254-260: the delta since the baseline, the source it may already
    fix and the start of the backfill window. *)
Definition reset_window (ct lt : Q) (current_date last_total_at : date)
  : Q * option Source * date :=
  let stats_start := last_total_at in
  let delta := (ct - lt)%Q in
  if Qltb delta 0 && negb (month last_total_at =? month current_date) then
    let month_start := replace_day1 current_date in
    (ct, Some month_reset, sub_days month_start 1)
  else (delta, None, stats_start).

(** What lines 217-285 leave behind. *)
Record Daily := {
  dl_value : option Q;
  dl_status : DailyStatus;
  dl_source : option Source;
  dl_pushed : list StatisticData;
  dl_rec : Recorder;
}.

(** Lines 217-285.  [current_total] is set whenever [value_status] is
    [v_ok], so the first three arms of the inner match are the only ones
    taken with a baseline. *)
Definition derive_daily (self : Entry) (rec : Recorder) (key : string)
    (unit : option string) (value_status : ValueStatus)
    (value_used current_total : option Q) (current_date : date)
    (last_total : option Q) (last_total_at : option date) : Daily :=
  let none st src :=
    {| dl_value := None; dl_status := st; dl_source := src;
       dl_pushed := []; dl_rec := rec |} in
  if ValueStatus_eqb value_status v_stale then none d_stale (Some stale_total)
  else if negb (ValueStatus_eqb value_status v_ok) then
    match value_used with
    | None => none d_missing None
    | Some _ => none d_invalid (Some invalid_total)
    end
  else
    match last_total, last_total_at, current_total with
    | Some lt, Some lat, Some ct =>
        if current_date =? lat then
          let delta := (ct - lt)%Q in
          if Qltb delta 0 then none d_invalid (Some negative_delta)
          else if Qeq_bool delta 0 then none d_stale None
          else
            let '(corrected, pushed, rec') :=
              _update_statistics_correction self rec key unit current_date delta in
            {| dl_value := corrected; dl_status := d_corrected;
               dl_source := Some same_day_correction;
               dl_pushed := pushed; dl_rec := rec' |}
        else
          let '(delta, daily_source, stats_start) :=
            reset_window ct lt current_date lat in
          let days_between := days_between current_date stats_start in
          if (days_between >=? 1) && Qeq_bool delta 0 then
            none d_stale (Some no_change)
          else if (days_between >=? 1) && Qle_bool 0 delta then
            let daily_value := round3 (delta / inject_Z days_between) in
            let daily_status := if days_between =? 1 then d_ok else d_estimated in
            let daily_source :=
              match daily_source with
              | Some s => s
              | None => if days_between =? 1 then delta_src else multi_day_estimate
              end in
            let '(pushed, rec') :=
              _update_statistics_range self rec key unit stats_start
                current_date daily_value in
            {| dl_value := Some daily_value; dl_status := daily_status;
               dl_source := Some daily_source;
               dl_pushed := pushed; dl_rec := rec' |}
          else if (days_between >=? 1) && Qltb delta 0 then
            none d_invalid (Some negative_delta)
          else none d_unknown daily_source
    | _, _, _ => none d_missing None
    end.

(** Lines 287-293: [(estimated_today, estimated_source)]. *)
Definition estimate_today (daily_value : option Q) (daily_source : option Source)
    (value_used : option Q) (current_date : date) : option Q * option Source :=
  match daily_value with
  | Some v => (Some v, daily_source)
  | None =>
      match value_used with
      | Some vu =>
          let average_date := current_date in
          (Some (round3 (vu / inject_Z (Z.max (day average_date) 1))),
           Some monthly_average)
      | None => (None, None)
      end
  end.

(** Lines 295-303: the baseline kept in the store. *)
Definition update_baseline (value_status : ValueStatus)
    (current_total : option Q) (current_date : date)
    (fluid_store : FluidStore) : FluidStore :=
  let last_total := st_last_total fluid_store in
  let last_total_at := st_last_total_at fluid_store in
  let new_baseline ct :=
    {| st_last_total := Some ct; st_last_total_at := Some current_date |} in
  match ValueStatus_eqb value_status v_ok, current_total with
  | true, Some ct =>
      match last_total, last_total_at with
      | Some lt, Some _ =>
          if negb (Qeq_bool ct lt) then new_baseline ct else fluid_store
      | _, _ => new_baseline ct
      end
  | _, _ =>
      match last_total_at, last_total with
      | Some lat, Some lt =>
          {| st_last_total := Some lt; st_last_total_at := Some lat |}
      | _, _ => fluid_store
      end
  end.

(** The value status after lines 182-215, with [value_used]. *)
Definition value_status_of (raw_entry : RawEntry) (now_date : date)
    (fluid_store : FluidStore) : option Q * ValueStatus :=
  let current_total := latest_value raw_entry in
  let current_date := effective_date (latest_date raw_entry) now_date in
  let last_total := st_last_total fluid_store in
  let last_total_at := st_last_total_at fluid_store in
  let value_status :=
    classify_value current_total current_date last_total last_total_at in
  let value_status :=
    downgrade_stale value_status current_total current_date
      last_total last_total_at in
  fallback value_status current_total last_total.

(** The body of the loop of [_async_update_data] for one fluid: the
    [FluidData] of the poll, the store entry, the points pushed to the
    recorder and the recorder afterwards. *)
Definition update_fluid (self : Entry) (key : string) (meta : FluidMeta)
    (raw_entry : RawEntry) (now_date : date) (fluid_store : FluidStore)
    (rec : Recorder)
  : FluidData * FluidStore * list StatisticData * Recorder :=
  let unit := unit meta in
  let current_total := latest_value raw_entry in
  let leak_estimate := default "unknown" (leak_estimate raw_entry) in
  let api_date := latest_date raw_entry in
  let current_date := effective_date api_date now_date in
  let last_total := st_last_total fluid_store in
  let last_total_at := st_last_total_at fluid_store in
  let '(value_used, value_status) :=
    value_status_of raw_entry now_date fluid_store in
  let dl :=
    derive_daily self rec key unit value_status value_used current_total
      current_date last_total last_total_at in
  let '(estimated_today, estimated_source) :=
    estimate_today (dl_value dl) (dl_source dl) value_used current_date in
  let fluid_store' :=
    update_baseline value_status current_total current_date fluid_store in
  ({| fd_total := value_used;
      fd_unit := unit;
      fd_leak_estimate := leak_estimate;
      fd_daily := dl_value dl;
      fd_daily_status := dl_status dl;
      fd_daily_source := dl_source dl;
      fd_estimated_today := estimated_today;
      fd_estimated_today_source := estimated_source;
      fd_latest_date := Some current_date;
      fd_api_latest_date := api_date;
      fd_value_status := value_status;
      fd_last_total := st_last_total fluid_store';
      fd_last_total_at := st_last_total_at fluid_store' |},
   fluid_store', dl_pushed dl, dl_rec dl).

(** "The total actually changed, or no baseline existed": what makes an ok
    reading replace the baseline. *)
Definition baseline_changes (ct : Q) (fluid_store : FluidStore) : Prop :=
  match st_last_total fluid_store, st_last_total_at fluid_store with
  | Some lt, Some _ => ~ (ct == lt)%Q
  | _, _ => True
  end.

(** A store entry as the coordinator writes it: the total and its date are
    both there or both missing. *)
Definition paired (fluid_store : FluidStore) : Prop :=
  match st_last_total fluid_store, st_last_total_at fluid_store with
  | Some _, Some _ | None, None => True
  | _, _ => False
  end.

(** A store entry whose total, if there is one, is not negative. *)
Definition store_nonneg (fluid_store : FluidStore) : Prop :=
  match st_last_total fluid_store with
  | Some lt => (0 <= lt)%Q
  | None => True
  end.

(** [_async_update_data] once [fetch] has returned [raw] (lines 149-339):
    the fluids of [FLUIDS] are reconciled in order against the store and the
    recorder.  The result also lists the points pushed during the poll. *)
Definition _async_update_data (self : Entry) (raw : gmap string RawEntry)
    (now_date : date) (store_fluids : gmap string FluidStore) (rec : Recorder)
  : gmap string FluidData * gmap string FluidStore
    * list StatisticData * Recorder :=
  foldl
    (fun (acc : gmap string FluidData * gmap string FluidStore
                 * list StatisticData * Recorder) km =>
       let '(fluids, store_fluids, pushed, rec) := acc in
       let key := fst km in
       let meta := snd km in
       let raw_entry := default empty_entry (raw !! key) in
       let fluid_store := default empty_store (store_fluids !! key) in
       let '(data, fluid_store', batch, rec') :=
         update_fluid self key meta raw_entry now_date fluid_store rec in
       (<[ key := data ]> fluids, <[ key := fluid_store' ]> store_fluids,
        (pushed ++ batch)%list, rec'))
    (∅, store_fluids, [], rec) FLUIDS.

(** A fluid polled several times: the store entry after each poll is the
    entry the next poll reads.  A poll is what [fetch] returned for the
    fluid and the date of [now]. *)
Fixpoint run_polls (self : Entry) (key : string) (meta : FluidMeta)
    (polls : list (RawEntry * date)) (fluid_store : FluidStore)
    (rec : Recorder) : FluidStore * Recorder :=
  match polls with
  | [] => (fluid_store, rec)
  | (raw_entry, now_date) :: polls' =>
      let '(_, fluid_store', _, rec') :=
        update_fluid self key meta raw_entry now_date fluid_store rec in
      run_polls self key meta polls' fluid_store' rec'
  end.

End Coordinator.


(* ===================================================================== *)
(** ** ocea_client.py: normalising a consumption payload *)
(* ===================================================================== *)

Module Client.
Import Num.

(** The JSON values a payload field may hold, as Python sees them.
    [PNum] stands for an [int] or a [float]; [POther] for a list or a dict. *)
Inductive pyval :=
| PNone
| PBool (b : bool)
| PNum (q : Q)
| PStr (s : string)
| POther.

(** ASCII white space, as [str.strip()] removes it. *)
Definition is_space (c : ascii) : bool :=
  let n := nat_of_ascii c in
  ((9 <=? n) && (n <=? 13) || (28 <=? n) && (n <=? 32))%nat.

Fixpoint lstrip (s : string) : string :=
  match s with
  | String c s' => if is_space c then lstrip s' else s
  | EmptyString => EmptyString
  end.

(** [s.strip()] *)
Definition strip (s : string) : string :=
  String.rev (lstrip (String.rev (lstrip s))).

Definition lower_ascii (c : ascii) : ascii :=
  let n := nat_of_ascii c in
  if ((65 <=? n) && (n <=? 90))%nat then ascii_of_nat (n + 32) else c.

(** [s.lower()], on ASCII letters. *)
Fixpoint lower (s : string) : string :=
  match s with
  | String c s' => String (lower_ascii c) (lower s')
  | EmptyString => EmptyString
  end.

(** [s.replace(",", ".")] *)
Fixpoint replace_comma (s : string) : string :=
  match s with
  | String c s' =>
      String (if Ascii.eqb c "," then "."%char else c) (replace_comma s')
  | EmptyString => EmptyString
  end.

(** [x in (s1, s2, ...)] for strings. *)
Definition str_in (x : string) (l : list string) : bool :=
  existsb (String.eqb x) l.

(** [sub in s] for strings. *)
Definition contains (sub s : string) : bool :=
  match String.index 0 sub s with
  | Some _ => true
  | None => false
  end.

(** Truth value of an optional string: neither [None] nor empty. *)
Definition truthy (o : option string) : bool :=
  match o with
  | Some s => negb (String.eqb s "")
  | None => false
  end.

Section Builtins.

(** [float(s)] on a string: the number read, or [None] where Python raises
    [ValueError]. *)
Variable float_of_str : string -> option Q.

(** [str(v)] on a value that is not a string. *)
Variable repr : pyval -> string.

(** [_to_float]; [None] also stands for the caught [TypeError] and
    [ValueError]. *)
Definition _to_float (value : pyval) : option Q :=
  match value with
  | PNone => None
  | PBool b => Some (if b then 1 else 0)%Q
  | PStr s =>
      let lowered := lower (strip s) in
      if str_in lowered ["oui"; "yes"; "true"] then Some 1%Q
      else if str_in lowered
                ["non"; "no"; "false"; "pas de fuite"; "aucune fuite"]
      then Some 0%Q
      else float_of_str (replace_comma s)
  | PNum q => Some q
  | POther => None
  end.

(** [str(v)] *)
Definition py_str (v : pyval) : string :=
  match v with
  | PStr s => s
  | _ => repr v
  end.

(** One element of [payload["consommations"]]; [c_date] is the string
    under ["date"], [None] when the key is absent. *)
Record Conso := {
  c_date : option string;
  valeur : pyval;
  fuiteEstimee : pyval;
}.

(** [latest = {}]: every [get] answers [None]. *)
Definition empty_conso : Conso :=
  {| c_date := None; valeur := PNone; fuiteEstimee := PNone |}.

(** [x.get("date", "")] *)
Definition date_key (x : Conso) : string := default "" (c_date x).

Record Payload := {
  consommations : list Conso;
  unite : option string;
}.

(** The dict returned by [_parse_conso]. *)
Record Snapshot := {
  sn_latest_value : option Q;
  sn_latest_date : option string;
  sn_leak_estimate : option string;
  sn_unit : option string;
  sn_daily : option Q;
}.

(** Stable insertion by [date_key]: [x] goes before the first element whose
    key is not smaller. *)
Fixpoint insert_by_date (x : Conso) (l : list Conso) : list Conso :=
  match l with
  | [] => [x]
  | y :: l' =>
      if String.ltb (date_key y) (date_key x) then y :: insert_by_date x l'
      else x :: y :: l'
  end.

(** [sorted(consos, key=lambda x: x.get("date", ""))] *)
Definition sorted_by_date (consos : list Conso) : list Conso :=
  foldr insert_by_date [] consos.

Definition _parse_conso (payload : Payload) : Snapshot :=
  let consos := consommations payload in
  let consos_sorted := sorted_by_date consos in
  let latest := List.last consos_sorted empty_conso in
  let unit := unite payload in
  let is_m3 := match unit with Some u => String.eqb u "m3" | None => false end in
  let factor := if is_m3 then 1000%Q else 1%Q in
  let latest_value := _to_float (valeur latest) in
  let latest_value := (fun v => v * factor)%Q <$> latest_value in
  let leak_raw := fuiteEstimee latest in
  let leak_estimate :=
    match leak_raw with
    | PNone => None
    | _ => Some (py_str leak_raw)
    end in
  let latest_date := c_date latest in
  let daily :=
    match rev consos_sorted with
    | last :: prev :: _ =>
        match _to_float (valeur last), _to_float (valeur prev) with
        | Some last_val, Some prev_val =>
            let daily := round3 ((last_val - prev_val) * factor) in
            if Qltb daily 0 then None else Some daily
        | _, _ => None
        end
    | _ => None
    end in
  {| sn_latest_value := latest_value;
     sn_latest_date := latest_date;
     sn_leak_estimate := leak_estimate;
     sn_unit := if is_m3 then Some "L" else unit;
     sn_daily := daily |}.

End Builtins.

(* ===================================================================== *)
(** ** ocea_client.py: the authentication client *)
(* ===================================================================== *)

(** The requests the client sends.  Only the parameters that vary with the
    state of the client are kept; the PKCE pair, [state] and [nonce] are
    not represented. *)
Inductive Request :=
| TokenRefresh (refresh_token : string)
| TokenPassword (username password : string)
| TokenCode (code : string)
| Authorize
| SelfAsserted (tenant tx policy : string) (csrf : option string)
| Confirm (tenant tx policy : string) (csrf : option string)
    (allow_redirects : bool)
| ApiGet (url : string) (bearer : option string)
| ApiPost (url : string) (bearer : option string).

(** [var SETTINGS = {...};] once decoded. *)
Record Settings := {
  transId : option string;
  csrf : option string;
  hosts_tenant : option string;
  hosts_policy : option string;
}.

(** What the client reads from a response. *)
Record Response := {
  status_code : Z;
  text : string;
  url : string;
  content_type : string;          (* headers.get("content-type", "") *)
  location : string;              (* headers.get("location", "") *)
  page_settings : option Settings; (* the SETTINGS blob of [text], if any *)
  json_access_token : option string;
  json_refresh_token : option (option string); (* [None]: key absent *)
  json_status : string;           (* str(data.get("status")) *)
  json_message : option string;
  json_redirectUrl : option string;
  json_redirect_uri : option string;
}.

(** The message of an [OceaAuthError]. *)
Inductive AuthMsg :=
| AuthStartFailed (status : Z)
| UnableToParseSettings
| MissingSettingsFields
| SelfAssertedFailed (status : Z)
| ProviderMessage (message : string)
| CodeNotFound
| TokenExchangeFailed
| HttpStatus (status : Z) (url : string).

Inductive exn := OceaAuthError (msg : AuthMsg).

Inductive Level := DEBUG | WARNING | ERROR.

(** What the client does that can be observed: a request, with the tokens
    held when it is sent, or a line of the log. *)
Inductive Event :=
| Sent (r : Request) (held_access held_refresh : option string)
| Logged (level : Level) (msg : string).

(** The client object.  [answers n r] is the response of the outside world
    to [r] sent as the [n]-th request of the session. *)
Record OceaClient := {
  _username : string;
  _password : string;
  _access_token : option string;
  _refresh_token : option string;
  answers : nat -> Request -> Response;
  n_sent : nat;
  trace : list Event;
}.

Inductive result (A : Type) :=
| Ok (a : A)
| Raise (e : exn).
Arguments Ok {A} a.
Arguments Raise {A} e.

(** A method of the client: it returns or raises, and leaves the object in
    a new state either way. *)
Definition M (A : Type) : Type := OceaClient -> result A * OceaClient.

Definition ret {A} (a : A) : M A := fun c => (Ok a, c).

Definition raise {A} (e : exn) : M A := fun c => (Raise e, c).

Definition bind {A B} (m : M A) (k : A -> M B) : M B :=
  fun c =>
    match m c with
    | (Ok a, c') => k a c'
    | (Raise e, c') => (Raise e, c')
    end.

(** [try: m except OceaAuthError as err: h err] *)
Definition try_except {A} (m : M A) (h : exn -> M A) : M A :=
  fun c =>
    match m c with
    | (Ok a, c') => (Ok a, c')
    | (Raise e, c') => h e c'
    end.

Declare Scope client_scope.
Delimit Scope client_scope with client.
Notation "'let*' x ':=' m 'in' k" := (bind m (fun x => k))
  (at level 10, x name, m at level 100, k at level 200) : client_scope.
Notation "m1 '>>' m2" := (bind m1 (fun _ => m2))
  (at level 100, m2 at level 200, right associativity) : client_scope.
Local Open Scope client_scope.

Definition get_access : M (option string) := fun c => (Ok (_access_token c), c).

Definition get_refresh : M (option string) := fun c => (Ok (_refresh_token c), c).

Definition get_credentials : M (string * string) :=
  fun c => (Ok (_username c, _password c), c).

Definition set_access (t : option string) : M unit :=
  fun c =>
    (Ok tt,
     {| _username := _username c; _password := _password c;
        _access_token := t; _refresh_token := _refresh_token c;
        answers := answers c; n_sent := n_sent c; trace := trace c |}).

Definition set_refresh (t : option string) : M unit :=
  fun c =>
    (Ok tt,
     {| _username := _username c; _password := _password c;
        _access_token := _access_token c; _refresh_token := t;
        answers := answers c; n_sent := n_sent c; trace := trace c |}).

(** [LOGGER.<level>(msg, ...)] *)
Definition log (level : Level) (msg : string) : M unit :=
  fun c =>
    (Ok tt,
     {| _username := _username c; _password := _password c;
        _access_token := _access_token c; _refresh_token := _refresh_token c;
        answers := answers c; n_sent := n_sent c;
        trace := (trace c ++ [Logged level msg])%list |}).

(** [self._session.get(...)] and [self._session.post(...)] *)
Definition send (r : Request) : M Response :=
  fun c =>
    (Ok (answers c (n_sent c) r),
     {| _username := _username c; _password := _password c;
        _access_token := _access_token c; _refresh_token := _refresh_token c;
        answers := answers c; n_sent := S (n_sent c);
        trace :=
          (trace c ++ [Sent r (_access_token c) (_refresh_token c)])%list |}).

Definition API_BASE : string := "https://espace-resident-api.ocea-sb.com/api/v1".

Definition _try_refresh : M bool :=
  let* refresh_token := get_refresh in
  if negb (truthy refresh_token) then ret false
  else
    let* resp := send (TokenRefresh (default "" refresh_token)) in
    if negb (status_code resp =? 200) then
      log WARNING "Token refresh failed" >> ret false
    else
      set_access (json_access_token resp) >>
      set_refresh (default refresh_token (json_refresh_token resp)) >>
      log DEBUG "Refreshed access token." >>
      let* access_token := get_access in
      ret (truthy access_token).

Definition _try_ropc : M bool :=
  let* cred := get_credentials in
  let* resp := send (TokenPassword (fst cred) (snd cred)) in
  if negb (status_code resp =? 200) then
    log WARNING "ROPC auth failed" >> ret false
  else
    set_access (json_access_token resp) >>
    set_refresh (mjoin (json_refresh_token resp)) >>
    log DEBUG "Authenticated with ROPC flow." >>
    let* access_token := get_access in
    ret (truthy access_token).

Section Urllib.

(** [parse_qs(urlparse(location).query).get("code", [None])[0]] *)
Variable query_code : string -> option string.

Definition _extract_code (location : string) : option string :=
  query_code location.

Definition _parse_settings (resp : Response) : M Settings :=
  match page_settings resp with
  | None => raise (OceaAuthError UnableToParseSettings)
  | Some settings => ret settings
  end.

Definition _auth_pkce : M unit :=
  let* auth_resp := send Authorize in
  if status_code auth_resp >=? 400 then
    raise (OceaAuthError (AuthStartFailed (status_code auth_resp)))
  else
    let* settings := _parse_settings auth_resp in
    let trans_id := transId settings in
    let csrf := csrf settings in
    let tenant := hosts_tenant settings in
    let policy := hosts_policy settings in
    if negb (truthy trans_id) || negb (truthy tenant) || negb (truthy policy)
    then raise (OceaAuthError MissingSettingsFields)
    else
      let trans_id := default "" trans_id in
      let tenant := default "" tenant in
      let policy := default "" policy in
      let csrf := if truthy csrf then csrf else None in
      let* sa_resp := send (SelfAsserted tenant trans_id policy csrf) in
      if status_code sa_resp >=? 400 then
        log WARNING "SelfAsserted failed" >>
        raise (OceaAuthError (SelfAssertedFailed (status_code sa_resp)))
      else
        (if contains "json" (content_type sa_resp)
            && negb (str_in (json_status sa_resp) ["200"; "ok"; "OK"])
         then
           raise (OceaAuthError
                    (ProviderMessage
                       (if truthy (json_message sa_resp)
                        then default "" (json_message sa_resp)
                        else "B2C SelfAsserted returned an error.")))
         else ret tt) >>
        let* confirm_resp := send (Confirm tenant trans_id policy csrf false) in
        let code :=
          if (status_code confirm_resp =? 302) || (status_code confirm_resp =? 303)
          then _extract_code (location confirm_resp)
          else if status_code confirm_resp =? 200 then
            let code :=
              if contains "application/json" (content_type confirm_resp) then
                let redirect_url :=
                  if truthy (json_redirectUrl confirm_resp)
                  then json_redirectUrl confirm_resp
                  else json_redirect_uri confirm_resp in
                if truthy redirect_url
                then _extract_code (default "" redirect_url)
                else None
              else None in
            if negb (truthy code) then _extract_code (text confirm_resp)
            else code
          else None in
        let* code :=
          (if negb (truthy code) then
             let* follow_resp :=
               send (Confirm tenant trans_id policy csrf true) in
             ret (_extract_code (url follow_resp))
           else ret code) in
        if negb (truthy code) then raise (OceaAuthError CodeNotFound)
        else
          let* token_resp := send (TokenCode (default "" code)) in
          if negb (status_code token_resp =? 200) then
            log WARNING "Token exchange failed" >>
            raise (OceaAuthError TokenExchangeFailed)
          else
            set_access (json_access_token token_resp) >>
            set_refresh (mjoin (json_refresh_token token_resp)) >>
            log DEBUG "Authenticated with PKCE flow.".

Definition _handle_unauthorized : M bool :=
  log WARNING "HTTP 401 received; attempting token refresh." >>
  let* refreshed := _try_refresh in
  if refreshed then ret true
  else
    log WARNING "Token refresh failed; retrying full authentication." >>
    set_access None >>
    set_refresh None >>
    try_except
      (_auth_pkce >>
       let* access_token := get_access in
       ret (truthy access_token))
      (fun err =>
         log ERROR "Full authentication failed after 401" >> ret false).

Definition _ensure_token : M unit :=
  let* access_token := get_access in
  if truthy access_token then ret tt
  else
    let* refreshed := _try_refresh in
    if refreshed then ret tt
    else
      let* granted := _try_ropc in
      if granted then ret tt
      else
        log DEBUG "ROPC failed or not supported, trying PKCE flow." >>
        _auth_pkce.

Definition _get (path : string) : M Response :=
  _ensure_token >>
  let url := String.append API_BASE path in
  let* bearer := get_access in
  let* resp := send (ApiGet url bearer) in
  let* resp :=
    (if status_code resp =? 401 then
       let* recovered := _handle_unauthorized in
       if recovered then
         let* bearer := get_access in
         send (ApiGet url bearer)
       else ret resp
     else ret resp) in
  if status_code resp >=? 400 then
    raise (OceaAuthError (HttpStatus (status_code resp) url))
  else ret resp.

Definition _post (path : string) : M Response :=
  _ensure_token >>
  let url := String.append API_BASE path in
  let* bearer := get_access in
  let* resp := send (ApiPost url bearer) in
  let* resp :=
    (if status_code resp =? 401 then
       let* recovered := _handle_unauthorized in
       if recovered then
         let* bearer := get_access in
         send (ApiPost url bearer)
       else ret resp
     else ret resp) in
  if status_code resp >=? 400 then
    raise (OceaAuthError (HttpStatus (status_code resp) url))
  else ret resp.

End Urllib.

(** *** Reading a trace *)

(** A call of the provider's API. *)
Definition is_api (r : Request) : bool :=
  match r with
  | ApiGet _ _ | ApiPost _ _ => true
  | _ => false
  end.

(** A request of the interactive (PKCE) flow. *)
Definition is_pkce (r : Request) : bool :=
  match r with
  | Authorize | SelfAsserted _ _ _ _ | Confirm _ _ _ _ _ | TokenCode _ => true
  | _ => false
  end.

Definition is_api_event (e : Event) : bool :=
  match e with
  | Sent r _ _ => is_api r
  | Logged _ _ => false
  end.

(** How many API calls a run of events holds. *)
Definition api_calls (evs : list Event) : nat :=
  length (List.filter is_api_event evs).

(** An event of [_try_refresh] or [_try_ropc]: a grant at the token
    endpoint, or a line of the log below ERROR. *)
Definition grant_event (e : Event) : Prop :=
  match e with
  | Sent r _ _ => is_api r = false /\ is_pkce r = false
  | Logged l _ => l <> ERROR
  end.

(** An event of the interactive flow started while holding the tokens
    [a] and [f]: a request of the flow sent with these tokens, or a line of
    the log below ERROR. *)
Definition pkce_event (a f : option string) (e : Event) : Prop :=
  match e with
  | Sent r a' f' => is_pkce r = true /\ a' = a /\ f' = f
  | Logged l _ => l <> ERROR
  end.

(** A request of the interactive flow, if [e] is one, was sent with both
    tokens cleared. *)
Definition pkce_cleared (e : Event) : Prop :=
  match e with
  | Sent r a f => is_pkce r = true -> a = None /\ f = None
  | Logged _ _ => True
  end.

(** An API call, if [e] is one, is the call [call] carrying the access
    token held, which is not empty. *)
Definition retry_of (call : option string -> Request) (e : Event) : Prop :=
  match e with
  | Sent r a _ => is_api r = true -> r = call a /\ truthy a = true
  | Logged _ _ => True
  end.

(** Every API request in a run of events is the call [call], carrying the
    access token held when it is sent. *)
Definition calls_only (call : option string -> Request) (evs : list Event)
  : Prop :=
  forall r a f, In (Sent r a f) evs -> is_api r = true -> r = call a.

(** How an API call from the state [c] ended, [call] being [ApiGet url] or
    [ApiPost url]: what it added to the trace holds at most two API
    requests, all of them this call; a response is returned only below
    status 400 and the error of a status only from 400 on, both after an
    API request; without any API request, the call raised the error of
    [_ensure_token]. *)
Definition api_outcome (query_code : string -> option string) (url : string)
    (call : option string -> Request) (c : OceaClient)
    (out : result Response * OceaClient) : Prop :=
  exists evs,
    trace (snd out) = (trace c ++ evs)%list
    /\ (api_calls evs <= 2)%nat
    /\ calls_only call evs
    /\ (forall resp, fst out = Ok resp ->
          status_code resp < 400 /\ (1 <= api_calls evs)%nat)
    /\ (forall s u, fst out = Raise (OceaAuthError (HttpStatus s u)) ->
          400 <= s /\ u = url /\ (1 <= api_calls evs)%nat)
    /\ (api_calls evs = 0%nat ->
        exists e,
          fst out = Raise e
          /\ fst (_ensure_token query_code c) = Raise e).

End Client.


(* ===================================================================== *)
(** ** ocea_client.py: [fetch] *)
(* ===================================================================== *)

Module Fetch.
Import Num Coordinator Client.

(** How [fetch] ends.  The three failures are all [OceaAuthError]s in the
    source: one raised by [_get] or [_post], "No occupations found for this
    account." and "Unable to determine local ID.". *)
Inductive FetchResult :=
| Returned (results : gmap string Snapshot)
| Raised (e : exn)
| NoOccupations
| NoLocalId.

Section Json.

Variable query_code : string -> option string.
Variable float_of_str : string -> option Q.
Variable repr : pyval -> string.

(** The values found under ["logementId"], with Python's truth value and
    the text an f-string gives them. *)
Variable json : Type.
Variable is_true : json -> bool.
Variable format : json -> string.

(** [occupations resident] is the list
    [resident.get("occupations", [])], each occupation being kept as its
    [.get("logementId")]; [conso_json resp] is the payload [resp.json()]
    of a consumption query. *)
Variable occupations : Response -> list json.
Variable conso_json : Response -> Payload.

(** The path of the consumption query of one fluid. *)
Definition conso_path (local_id api_name : string) : string :=
  String.append "/local/"
    (String.append local_id (String.append "/conso/" api_name)).

(** The loop of [fetch] over the fluids still to query. *)
Fixpoint fetch_fluids (local_id : string) (fluids : list (string * FluidMeta))
    (results : gmap string Snapshot) (c : OceaClient)
  : FetchResult * OceaClient :=
  match fluids with
  | [] => (Returned results, c)
  | (key, meta) :: fluids' =>
      match _post query_code (conso_path local_id (api_name meta)) c with
      | (Raise e, c') => (Raised e, c')
      | (Ok conso, c') =>
          fetch_fluids local_id fluids'
            (<[ key := _parse_conso float_of_str repr (conso_json conso) ]>
               results) c'
      end
  end.

Definition fetch (c : OceaClient) : FetchResult * OceaClient :=
  match _get query_code "/resident" c with
  | (Raise e, c') => (Raised e, c')
  | (Ok resident, c') =>
      match occupations resident with
      | [] => (NoOccupations, c')
      | occupation :: _ =>
          let local_id := occupation in
          if negb (is_true local_id) then (NoLocalId, c')
          else fetch_fluids (format local_id) FLUIDS ∅ c'
      end
  end.

End Json.

(** The API requests [fetch] may send for the local [local_id]: the GET of
    the resident and the consumption query of a fluid of [FLUIDS]. *)
Definition fetch_request (local_id : string) (r : Request) : Prop :=
  (exists a, r = ApiGet (String.append API_BASE "/resident") a)
  \/ exists key meta a,
       In (key, meta) FLUIDS
       /\ r = ApiPost
                (String.append API_BASE (conso_path local_id (api_name meta)))
                a.

End Fetch.


(* ===================================================================== *)
(** ** coordinator.py: [_async_update_data] with the fetch and its errors *)
(* ===================================================================== *)

Module Update.
Import PyDate Coordinator.

(** How [self._client.fetch] ended: with the mapping it returned, with an
    [OceaAuthError] whose [str(err)] is [message], or with any other
    exception. *)
Inductive FetchOutcome :=
| Fetched (raw : gmap string RawEntry)
| AuthError (message : string)
| OtherError.

(** [UpdateFailed(message, retry_after=...)]; [retry_after] is [None] when
    the exception is raised without it. *)
Record UpdateFailed := {
  uf_message : string;
  retry_after : option Z;
}.

(** What the coordinator keeps between two polls, with the recorder. *)
Record CoordinatorState := {
  _auth_retry_count : Z;
  _store_data : gmap string FluidStore;
  recorder : Recorder;
}.

Section Const.

(** The constants of const.py that lines 115-147 read. *)
Variables AUTH_RETRY_MAX AUTH_RETRY_DELAY_SECONDS : Z.

(** [_async_update_data] (lines 115-339), given how the fetch ended and
    the date of [now]: the data of the poll or the [UpdateFailed] raised,
    the state afterwards and the points pushed to the recorder. *)
Definition _async_update_data (self : Entry) (st : CoordinatorState)
    (fetched : FetchOutcome) (now_date : date)
  : (UpdateFailed + gmap string FluidData) * CoordinatorState
    * list StatisticData :=
  let with_count n :=
    {| _auth_retry_count := n; _store_data := _store_data st;
       recorder := recorder st |} in
  match fetched with
  | AuthError message =>
      if Client.contains "HTTP 401" message then
        if _auth_retry_count st <? AUTH_RETRY_MAX then
          (inl {| uf_message := message;
                  retry_after := Some AUTH_RETRY_DELAY_SECONDS |},
           with_count (_auth_retry_count st + 1), [])
        else
          (inl {| uf_message := message; retry_after := None |}, st, [])
      else
        (inl {| uf_message := message; retry_after := None |}, with_count 0, [])
  | OtherError =>
      (inl {| uf_message := "Ocea coordinator error communicating with API";
              retry_after := None |}, st, [])
  | Fetched raw =>
      let '(fluids, store_fluids, pushed, rec) :=
        Coordinator._async_update_data self raw now_date (_store_data st)
          (recorder st) in
      (inr fluids,
       {| _auth_retry_count := 0; _store_data := store_fluids;
          recorder := rec |},
       pushed)
  end.

(** The coordinator polled again and again: how each fetch ended and the
    date of its [now], the outcome of each poll and the state at the end. *)
Fixpoint run_updates (self : Entry) (st : CoordinatorState)
    (fetches : list (FetchOutcome * date))
  : list (UpdateFailed + gmap string FluidData) * CoordinatorState :=
  match fetches with
  | [] => ([], st)
  | (fetched, now_date) :: fetches' =>
      let '(outcome, st', _) := _async_update_data self st fetched now_date in
      let '(outcomes, st'') := run_updates self st' fetches' in
      (outcome :: outcomes, st'')
  end.

End Const.

(** The polls that failed with a retry scheduled. *)
Definition is_retry (outcome : UpdateFailed + gmap string FluidData) : bool :=
  match outcome with
  | inl failure =>
      match retry_after failure with Some _ => true | None => false end
  | inr _ => false
  end.

(** A fetch that ended on an [OceaAuthError] mentioning HTTP 401. *)
Definition is_401 (fetched : FetchOutcome) : bool :=
  match fetched with
  | AuthError message => Client.contains "HTTP 401" message
  | _ => false
  end.

End Update.


(* ===================================================================== *)
(** ** The specification's wording, where it is compared with the code *)
(* ===================================================================== *)

Module Spec.
Import PyDate Num Coordinator Client.

(** "now" is later than [d] and in a different month. *)
Definition later_in_different_month (now_date d : date) : bool :=
  (d <? now_date)
  && negb ((year now_date =? year d) && (month now_date =? month d)).

(** The effective date as the specification words it: the reported date,
    replaced by yesterday when it is absent, or when it falls on the 1st of
    a month while "now" is later in a different month. *)
Definition effective_date_spec (api_date : option date) (now_date : date)
  : date :=
  match api_date with
  | None => sub_days now_date 1
  | Some d =>
      if (day d =? 1) && later_in_different_month now_date d
      then sub_days now_date 1
      else d
  end.




End Spec.

(* ===================================================================== *)
(** ** Concrete inputs used below *)
(* ===================================================================== *)

Module Examples.
Import PyDate Num Coordinator Client.

Definition self0 : Entry := {| DOMAIN := "ocea_collector"; entry_id := "e1" |}.

Definition eau_froide : FluidMeta :=
  {| api_name := "EauFroide"; unit := Some "L"; label := "Eau froide" |}.

Definition reading (total : Q) (d : date) : RawEntry :=
  {| latest_value := Some total; latest_date := Some d; leak_estimate := None |}.

Definition baseline (total : Q) (d : date) : FluidStore :=
  {| st_last_total := Some total; st_last_total_at := Some d |}.

(** A recorder whose only series is that of cold water, with one row. *)
Definition one_row (d : date) (state sum : Q) : Recorder :=
  {[ stat_id_of self0 "eau_froide" :=
       {[ d := {| row_state := Some state; row_sum := Some sum |} ]} ]}.

(** A response that carries nothing but its status. *)
Definition bare (status : Z) : Response :=
  {| status_code := status; text := ""; url := ""; content_type := "";
     location := ""; page_settings := None; json_access_token := None;
     json_refresh_token := None; json_status := ""; json_message := None;
     json_redirectUrl := None; json_redirect_uri := None |}.


(** A payload whose latest record reports a leak as text. *)
Definition leaking : Payload :=
  {| consommations :=
       [ {| c_date := Some "2024-02-01"; valeur := PNum 10;
            fuiteEstimee := PStr "non" |};
         {| c_date := Some "2024-03-01"; valeur := PNum 12;
            fuiteEstimee := PStr "oui" |} ];
     unite := Some "m3" |}.

End Examples.

(* ===================================================================== *)
(** ** Exhaustive checks over an initial segment of the integers *)
(* ===================================================================== *)

(** [f] holds of the [n] integers from [start] on. *)
Fixpoint all_from (f : Z -> bool) (start : Z) (n : nat) : bool :=
  match n with
  | O => true
  | S k => f start && all_from f (start + 1) k
  end.

(** What is checked of an ordinal: [_ord2ymd] is inverted by [_ymd2ord] and
    yields a month and a day in range. *)
Definition ymd_ok (n : Z) : bool :=
  let '(y, m, d) := PyDate._ord2ymd n in
  (PyDate._ymd2ord y m d =? n)
  && (1 <=? m) && (m <=? 12) && (1 <=? d) && (d <=? 31).
(* ===================================================================== *)
(** * Properties *)
(* ===================================================================== *)

(** ** The calendar *)

Section Calendar.
Import PyDate.

Lemma all_from_spec (f : Z -> bool) (n : nat) :
  forall start, all_from f start n = true ->
  forall r, start <= r < start + Z.of_nat n -> f r = true.
Proof.
  induction n as [|k IH]; intros start Hall r Hr; [lia|].
  cbn [all_from] in Hall.
  apply andb_prop in Hall as [Hk Hrest].
  destruct (Z.eq_dec r start) as [->|Hne]; [exact Hk|].
  apply (IH (start + 1)); [exact Hrest | lia].
Qed.

(** Every day of one 400-year cycle passes the check. *)
Lemma ymd_ok_cycle : all_from ymd_ok 1 (Z.to_nat _DI400Y) = true.
Proof. vm_compute. reflexivity. Qed.

Lemma _is_leap_shift (y q : Z) : _is_leap (y + 400 * q) = _is_leap y.
Proof.
  unfold _is_leap.
  replace (y + 400 * q) with (y + (100 * q) * 4) at 1 by lia.
  replace (y + 400 * q) with (y + (4 * q) * 100) at 1 by lia.
  replace (y + 400 * q) with (y + q * 400) by lia.
  now rewrite !Z_mod_plus_full.
Qed.

Lemma _days_before_year_shift (y q : Z) :
  _days_before_year (y + 400 * q) = _days_before_year y + _DI400Y * q.
Proof.
  unfold _days_before_year, _DI400Y. cbv zeta.
  replace (y + 400 * q - 1) with (y - 1 + (100 * q) * 4) at 2 by lia.
  replace (y + 400 * q - 1) with (y - 1 + (4 * q) * 100) at 2 by lia.
  replace (y + 400 * q - 1) with (y - 1 + q * 400) at 2 by lia.
  rewrite !Z.div_add by lia. lia.
Qed.

Lemma _ymd2ord_shift (y m d q : Z) :
  _ymd2ord (y + 400 * q) m d = _ymd2ord y m d + _DI400Y * q.
Proof.
  unfold _ymd2ord, _days_before_month.
  rewrite _days_before_year_shift, _is_leap_shift. lia.
Qed.

Lemma _ord2ymd_shift (q r : Z) :
  0 <= r < _DI400Y ->
  _ord2ymd (_DI400Y * q + r + 1)
  = let '(y, m, d) := _ord2ymd (r + 1) in (y + 400 * q, m, d).
Proof.
  intros Hr. unfold _ord2ymd. cbv zeta.
  replace (_DI400Y * q + r + 1 - 1) with (r + q * _DI400Y) by lia.
  replace (r + 1 - 1) with r by lia.
  rewrite Z.div_add, Z_mod_plus_full by (unfold _DI400Y; lia).
  rewrite (Z.div_small r _DI400Y), (Z.mod_small r _DI400Y) by lia.
  repeat match goal with
         | |- context [if ?b then _ else _] => destruct b
         end; f_equal; try f_equal; lia.
Qed.

(** [_ymd2ord] inverts [_ord2ymd], whose month and day are in range. *)
Lemma ymd_ok_all (n : Z) : ymd_ok n = true.
Proof.
  pose proof (Z.div_mod (n - 1) _DI400Y ltac:(unfold _DI400Y; lia)) as Hdm.
  pose proof (Z.mod_pos_bound (n - 1) _DI400Y ltac:(unfold _DI400Y; lia)) as Hb.
  set (q := (n - 1) / _DI400Y) in *. set (r := (n - 1) mod _DI400Y) in *.
  replace n with (_DI400Y * q + r + 1) by lia.
  pose proof (all_from_spec _ _ _ ymd_ok_cycle (r + 1)) as Hc.
  rewrite Z2Nat.id in Hc by (unfold _DI400Y; lia).
  specialize (Hc ltac:(lia)). clear Hdm.
  unfold ymd_ok in *. rewrite _ord2ymd_shift by exact Hb.
  destruct (_ord2ymd (r + 1)) as [[y m] d].
  rewrite _ymd2ord_shift.
  repeat (apply andb_prop in Hc as [Hc ?]).
  apply Z.eqb_eq in Hc.
  repeat (apply andb_true_intro; split); try assumption.
  apply Z.eqb_eq. lia.
Qed.

Lemma day_ge_1 (d : date) : 1 <= day d.
Proof.
  pose proof (ymd_ok_all d) as H. unfold ymd_ok, day in *.
  destruct (_ord2ymd d) as [[y m] dd]. cbn.
  repeat (apply andb_prop in H as [H ?]). lia.
Qed.

(** The first day of the month of [d] is [day d - 1] days before [d]. *)
Lemma replace_day1_eq (d : date) : replace_day1 d = d - (day d - 1).
Proof.
  pose proof (ymd_ok_all d) as H.
  unfold ymd_ok, replace_day1, mk, year, month, day in *.
  destruct (_ord2ymd d) as [[y m] dd]. cbn.
  repeat (apply andb_prop in H as [H ?]).
  apply Z.eqb_eq in H. unfold _ymd2ord in *. lia.
Qed.

End Calendar.

(** ** Numbers *)

Section Numbers.
Import Num.
Local Open Scope Q_scope.

Lemma Qltb_lt (x y : Q) : Qltb x y = true <-> x < y.
Proof.
  unfold Qltb. rewrite negb_true_iff, <- not_true_iff_false, Qle_bool_iff.
  split; [apply Qnot_le_lt | apply Qlt_not_le].
Qed.

Lemma Qltb_ge (x y : Q) : Qltb x y = false <-> y <= x.
Proof.
  unfold Qltb. rewrite negb_false_iff. apply Qle_bool_iff.
Qed.

Lemma Qeq_bool_false (x y : Q) : Qeq_bool x y = false <-> ~ x == y.
Proof.
  rewrite <- not_true_iff_false, Qeq_bool_iff. reflexivity.
Qed.


Lemma round_half_even_nonneg (x : Q) : 0 <= x -> (0 <= round_half_even x)%Z.
Proof.
  intros Hx. unfold round_half_even.
  assert (0 <= Qfloor x)%Z as Hf.
  { change 0%Z with (Qfloor 0). now apply Qfloor_resp_le. }
  destruct (_ ?= _); [destruct (Z.even _)| |]; lia.
Qed.


(** [round(x, 3)] of a non-negative number is non-negative. *)
Lemma round3_nonneg (x : Q) : 0 <= x -> 0 <= round3 x.
Proof.
  intros Hx. unfold round3.
  assert (0 <= x * 1000) as Hm by lra.
  apply round_half_even_nonneg in Hm.
  apply Qle_shift_div_l; [reflexivity|].
  rewrite Qmult_0_l. change 0 with (inject_Z 0).
  now rewrite <- Zle_Qle.
Qed.


End Numbers.

(** ** The reconciliation of one fluid *)

Section Reconciliation.
Import PyDate Num Coordinator.

(** [update_fluid] with its stages named. *)
Lemma update_fluid_unfold (self : Entry) (key : string) (meta : FluidMeta)
    (raw_entry : RawEntry) (now_date : date) (fluid_store : FluidStore)
    (rec : Recorder) :
  let current_date := effective_date (latest_date raw_entry) now_date in
  let vs := value_status_of raw_entry now_date fluid_store in
  let dl :=
    derive_daily self rec key (unit meta) (snd vs) (fst vs)
      (latest_value raw_entry) current_date
      (st_last_total fluid_store) (st_last_total_at fluid_store) in
  let out := update_fluid self key meta raw_entry now_date fluid_store rec in
  fd_value_status (fst (fst (fst out))) = snd vs
  /\ fd_daily (fst (fst (fst out))) = dl_value dl
  /\ fd_daily_status (fst (fst (fst out))) = dl_status dl
  /\ fd_daily_source (fst (fst (fst out))) = dl_source dl
  /\ snd (fst (fst out))
     = update_baseline (snd vs) (latest_value raw_entry) current_date fluid_store
  /\ snd (fst out) = dl_pushed dl
  /\ snd out = dl_rec dl.
Proof.
  cbv zeta. unfold update_fluid.
  destruct (value_status_of raw_entry now_date fluid_store) as [vu vs].
  destruct (estimate_today _ _ _ _) as [et es].
  cbn. repeat split.
Qed.

Lemma ValueStatus_eqb_eq (a b : ValueStatus) :
  ValueStatus_eqb a b = true <-> a = b.
Proof. destruct a, b; cbn; split; congruence. Qed.




(** C2, as the specification words it, fails: a date reported on the 1st is
    replaced by yesterday as soon as "now" is past the 1st, also within the
    same month. *)
Lemma C2_effective_date_counterexample :
  effective_date (Some (mk 2024 3 1)) (mk 2024 3 5) = mk 2024 3 4
  /\ Spec.effective_date_spec (Some (mk 2024 3 1)) (mk 2024 3 5) = mk 2024 3 1
  /\ effective_date (Some (mk 2024 3 1)) (mk 2024 3 5)
     <> Spec.effective_date_spec (Some (mk 2024 3 1)) (mk 2024 3 5).
Proof. vm_compute. repeat split; discriminate. Qed.

(** C2, amended. The effective date is the reported date, except that
    yesterday (relative to now) is substituted exactly when the reported
    date is absent, or when it falls on the 1st of a month while the day of
    the month of "now" is later than the 1st. *)
Theorem C2_effective_date (api_date : option date) (now_date : date) :
  (effective_date api_date now_date = sub_days now_date 1
   /\ (api_date = None
       \/ exists d, api_date = Some d /\ day d = 1 /\ 1 < day now_date))
  \/ (exists d, api_date = Some d
      /\ effective_date api_date now_date = d
      /\ ~ (day d = 1 /\ 1 < day now_date)).
Proof.
  destruct api_date as [d|]; cbn [effective_date]; [|left; auto].
  destruct (Z.eqb_spec (day d) 1) as [Hd|Hd]; cbn [andb].
  - destruct (Z.gtb_spec (day now_date) 1) as [Hn|Hn].
    + left. split; [reflexivity|]. right. exists d. auto.
    + right. exists d. repeat split. lia.
  - right. exists d. repeat split. tauto.
Qed.

End Reconciliation.

(** ** The recorder *)

Section Statistics.
Import PyDate Num Coordinator.

(** The last row is a stored row, and no stored row starts later. *)
Lemma last_row_spec (rows : gmap Z StatisticsRow) :
  match last_row rows with
  | Some (d, r) =>
      rows !! d = Some r /\ forall d' r', rows !! d' = Some r' -> d' <= d
  | None => rows = ∅
  end.
Proof.
  unfold last_row.
  apply (map_fold_weak_ind
           (fun acc (m : gmap Z StatisticsRow) =>
              match acc with
              | Some (d, r) =>
                  m !! d = Some r /\ forall d' r', m !! d' = Some r' -> d' <= d
              | None => m = ∅
              end)).
  - reflexivity.
  - intros i x m acc Hi IH.
    destruct acc as [[d r]|].
    + destruct IH as [Hd Hmax].
      destruct (Z.ltb_spec d i) as [Hlt|Hge].
      * split; [apply lookup_insert_eq|].
        intros d' r' H'. destruct (decide (i = d')) as [->|Hne]; [lia|].
        rewrite lookup_insert_ne in H' by exact Hne.
        specialize (Hmax _ _ H'). lia.
      * assert (i <> d) as Hne by congruence.
        split; [now rewrite lookup_insert_ne|].
        intros d' r' H'. destruct (decide (i = d')) as [->|Hne']; [lia|].
        rewrite lookup_insert_ne in H' by exact Hne'. eauto.
    + subst m. split; [apply lookup_insert_eq|].
      intros d' r' H'. destruct (decide (i = d')) as [->|Hne]; [lia|].
      rewrite lookup_insert_ne, lookup_empty in H' by exact Hne. discriminate.
Qed.

(** No row of a series starts after the one [_get_last_stat] returns. *)
Lemma _get_last_stat_latest (rec : Recorder) (stat_id : string)
    (rows : gmap Z StatisticsRow) (d : date) (row : StatisticsRow) :
  rec !! stat_id = Some rows -> rows !! d = Some row ->
  exists d' row', _get_last_stat rec stat_id = Some (d', row') /\ d <= d'.
Proof.
  intros Hrows Hd. unfold _get_last_stat. rewrite Hrows.
  pose proof (last_row_spec rows) as H.
  destruct (last_row rows) as [[d' row']|].
  - exists d', row'. split; [reflexivity|]. destruct H as [_ H]. eauto.
  - subst rows. rewrite lookup_empty in Hd. discriminate.
Qed.


(** The points of the backfill loop, one by one. *)
Lemma range_stats_lookup (stats_start : date) (per_day : Q) (n : nat) :
  forall (offset : Z) (sum_value : Q) (i : nat) (p : StatisticData),
  range_stats stats_start per_day offset n sum_value !! i = Some p ->
  (i < n)%nat
  /\ sd_start p = stats_start + offset + Z.of_nat i
  /\ sd_state p = per_day
  /\ (sd_sum p == sum_value + inject_Z (Z.of_nat i + 1) * per_day)%Q.
Proof.
  induction n as [|n IH]; intros offset sum_value i p Hi; [discriminate|].
  cbn [range_stats] in Hi. destruct i as [|i].
  - injection Hi as <-. cbn [sd_start sd_state sd_sum].
    repeat split; [lia | unfold add_days; lia |].
    change (inject_Z (Z.of_nat 0 + 1)) with 1%Q. ring.
  - cbn in Hi. apply IH in Hi as (Hlt & Hs & Hst & Hsum).
    repeat split; [lia | lia | exact Hst |].
    rewrite Hsum.
    replace (Z.of_nat (S i) + 1) with ((Z.of_nat i + 1) + 1) by lia.
    rewrite (inject_Z_plus (Z.of_nat i + 1) 1). change (inject_Z 1) with 1%Q.
    ring.
Qed.

Lemma range_stats_length (stats_start : date) (per_day : Q) (n : nat) :
  forall (offset : Z) (sum_value : Q),
  length (range_stats stats_start per_day offset n sum_value) = n.
Proof.
  induction n as [|n IH]; intros offset sum_value; [reflexivity|].
  cbn [range_stats length]. now rewrite IH.
Qed.


Lemma metadata_statistic_id (self : Entry) (stat_id name : string)
    (unit : option string) (metadata : StatisticMetaData) :
  _get_statistics_metadata self stat_id name unit = Some metadata ->
  statistic_id metadata = stat_id.
Proof.
  unfold _get_statistics_metadata. destruct unit as [u|]; [|discriminate].
  destruct (_ || _); [intros [= <-]; reflexivity|].
  destruct (String.eqb u "kWh"); [intros [= <-]; reflexivity | discriminate].
Qed.

(** [_update_statistics_range] either pushes nothing and leaves the recorder
    as it is, or hands the run of the loop from [backfill_base] to the
    recorder. *)
Lemma _update_statistics_range_cases (self : Entry) (rec : Recorder)
    (fluid_key : string) (unit : option string) (start_date end_date : date)
    (per_day : Q) :
  let last := _get_last_stat rec (stat_id_of self fluid_key) in
  let base := backfill_base last start_date in
  let batch :=
    range_stats base per_day 1 (Z.to_nat (end_date - base))
      (backfill_seed last) in
  _update_statistics_range self rec fluid_key unit start_date end_date per_day
  = ([], rec)
  \/ ((0 <= per_day)%Q /\ 0 < end_date - base
      /\ exists metadata,
           statistic_id metadata = stat_id_of self fluid_key
           /\ _update_statistics_range self rec fluid_key unit start_date
                end_date per_day
              = (batch, async_add_external_statistics rec metadata batch)).
Proof.
  cbv zeta. unfold _update_statistics_range.
  set (last := _get_last_stat rec (stat_id_of self fluid_key)).
  destruct (Qltb per_day 0) eqn:Hneg; [left; reflexivity|].
  apply Qltb_ge in Hneg.
  assert (forall d, (if d >? start_date then d else start_date)
                    = Z.max start_date d) as Hmax
    by (intros d; destruct (Z.gtb_spec d start_date); lia).
  destruct (_get_statistics_metadata self (stat_id_of self fluid_key)
              (String.append fluid_key " consumption") unit)
    as [metadata|] eqn:Hmeta.
  - apply metadata_statistic_id in Hmeta.
    destruct last as [[d row]|];
      [change (fst <$> Some (d, row)) with (Some d); cbv iota beta; rewrite Hmax
      |change (fst <$> @None (date * StatisticsRow)) with (@None date);
       cbv iota beta];
      cbn [backfill_base backfill_seed]; unfold days_between;
      (match goal with
       | |- context [?a <=? 0] =>
           destruct (Z.leb_spec a 0); [left; reflexivity|]
       end);
      (destruct (range_stats _ _ _ _ _) eqn:Hst; [left; reflexivity|]);
      right; repeat split; try assumption; exists metadata; split;
      try assumption; reflexivity.
  - left.
    repeat match goal with
           | |- context [if ?b then _ else _] => destruct b
           | |- context [match ?l with [] => _ | _ :: _ => _ end] => destruct l
           end; reflexivity.
Qed.

End Statistics.

(** ** The multi-day backfill *)

Section Backfill.
Import PyDate Num Coordinator.






End Backfill.

(** ** What a backfill batch looks like, and what it leaves alone *)

Section BackfillBatch.
Import PyDate Num Coordinator.



End BackfillBatch.

(** ** What is pushed to the recorder, and when *)

Section Pushed.
Import PyDate Num Coordinator.

(** [_update_statistics_correction] either declines, leaving the recorder
    as it is, or rewrites the last stored point, dated [day]. *)
Lemma _update_statistics_correction_cases (self : Entry) (rec : Recorder)
    (key : string) (unit : option string) (day : date) (delta : Q) :
  _update_statistics_correction self rec key unit day delta = (None, [], rec)
  \/ exists row metadata,
       (0 < delta)%Q
       /\ _get_last_stat rec (stat_id_of self key) = Some (day, row)
       /\ statistic_id metadata = stat_id_of self key
       /\ let new_state := round3 (or_zero (row_state row) + delta) in
          let point :=
            {| sd_start := day; sd_state := new_state;
               sd_sum := (or_zero (row_sum row) - or_zero (row_state row)
                          + new_state)%Q |} in
          (0 <= new_state)%Q
          /\ _update_statistics_correction self rec key unit day delta
             = (Some new_state, [point],
                async_add_external_statistics rec metadata [point]).
Proof.
  unfold _update_statistics_correction.
  destruct (Qle_bool delta 0) eqn:Hd; [left; reflexivity|].
  assert (0 < delta)%Q as Hpos.
  { apply Qnot_le_lt. intros H. apply Qle_bool_iff in H. congruence. }
  destruct (_get_last_stat rec (stat_id_of self key)) as [[d row]|];
    [|left; reflexivity].
  destruct (Z.eqb_spec d day) as [->|Hne]; [|left; reflexivity].
  cbn [negb].
  destruct (Qltb (round3 (or_zero (row_state row) + delta)) 0) eqn:Hneg;
    [left; reflexivity|].
  apply Qltb_ge in Hneg.
  destruct (_get_statistics_metadata _ _ _ _) as [metadata|] eqn:Hmeta;
    [|left; reflexivity].
  apply metadata_statistic_id in Hmeta.
  right. exists row, metadata. cbv zeta. repeat split; assumption.
Qed.

(** Whatever [derive_daily] pushes has a state that is not negative, and it
    pushes only with a daily status of ok, corrected or estimated. *)
Lemma derive_daily_pushed (self : Entry) (rec : Recorder) (key : string)
    (unit : option string) (value_status : ValueStatus)
    (value_used current_total : option Q) (current_date : date)
    (last_total : option Q) (last_total_at : option date) :
  let dl :=
    derive_daily self rec key unit value_status value_used current_total
      current_date last_total last_total_at in
  Forall (fun p => (0 <= sd_state p)%Q) (dl_pushed dl)
  /\ (dl_pushed dl = []
      \/ dl_status dl = d_ok
      \/ dl_status dl = d_corrected
      \/ dl_status dl = d_estimated).
Proof.
  cbv zeta. unfold derive_daily.
  destruct (ValueStatus_eqb value_status v_stale); [cbn; auto|].
  destruct (negb (ValueStatus_eqb value_status v_ok));
    [destruct value_used; cbn; auto|].
  destruct last_total as [lt|]; [|cbn; auto].
  destruct last_total_at as [lat|]; [|cbn; auto].
  destruct current_total as [ct|]; [|cbn; auto].
  destruct (current_date =? lat).
  - destruct (Qltb (ct - lt) 0); [cbn; auto|].
    destruct (Qeq_bool (ct - lt) 0); [cbn; auto|].
    destruct (_update_statistics_correction_cases self rec key unit
                current_date (ct - lt)%Q)
      as [->|(row & metadata & _ & _ & _ & Hns & ->)]; cbn; auto.
  - destruct (reset_window ct lt current_date lat) as [[delta src] stats_start].
    destruct (_ && Qeq_bool delta 0); [cbn; auto|].
    destruct (_ && Qle_bool 0 delta).
    + set (per_day := round3 _).
      destruct (_update_statistics_range_cases self rec key unit stats_start
                  current_date per_day)
        as [->|(Hpos & _ & metadata & _ & ->)]; cbn [dl_pushed dl_status].
      * auto.
      * split.
        -- apply Forall_lookup. intros i p Hp.
           apply range_stats_lookup in Hp as (_ & _ & -> & _). exact Hpos.
        -- destruct (_ =? 1); auto.
    + destruct (_ && Qltb delta 0); cbn; auto.
Qed.

(** C7. The points a poll pushes to the recorder all carry a per-day state
    that is not negative, and a poll that pushes anything reports a daily
    status of ok, corrected or estimated (so none is pushed with stale,
    missing or invalid). *)
Theorem C7_pushed_points (self : Entry) (key : string) (meta : FluidMeta)
    (raw_entry : RawEntry) (now_date : date) (fluid_store : FluidStore)
    (rec : Recorder) :
  let out := update_fluid self key meta raw_entry now_date fluid_store rec in
  let data := fst (fst (fst out)) in
  let pushed := snd (fst out) in
  Forall (fun p => (0 <= sd_state p)%Q) pushed
  /\ (pushed = []
      \/ fd_daily_status data = d_ok
      \/ fd_daily_status data = d_corrected
      \/ fd_daily_status data = d_estimated).
Proof.
  cbv zeta.
  destruct (update_fluid_unfold self key meta raw_entry now_date fluid_store rec)
    as (_ & _ & -> & _ & _ & -> & _).
  apply derive_daily_pushed.
Qed.

End Pushed.

(** ** The persisted baseline *)

Section Baseline.
Import PyDate Num Coordinator.

(** A reading classified ok has a total, and is not dated before a
    baseline that is there. *)
Lemma value_status_ok_inv (raw_entry : RawEntry) (now_date : date)
    (fluid_store : FluidStore) :
  snd (value_status_of raw_entry now_date fluid_store) = v_ok ->
  exists ct,
    latest_value raw_entry = Some ct
    /\ forall lt lat,
         st_last_total fluid_store = Some lt ->
         st_last_total_at fluid_store = Some lat ->
         lat <= effective_date (latest_date raw_entry) now_date.
Proof.
  unfold value_status_of, fallback, downgrade_stale, classify_value.
  set (cd := effective_date (latest_date raw_entry) now_date).
  destruct (latest_value raw_entry) as [ct|];
    [|destruct (st_last_total fluid_store); cbn; discriminate].
  intros H. exists ct. split; [reflexivity|].
  intros lt lat Hlt Hlat. rewrite Hlt, Hlat in H.
  destruct (Z.ltb_spec cd lat) as [Hbefore|Hge]; [|exact Hge].
  destruct (Qltb ct 0); cbn in H; discriminate.
Qed.

(** The three ways [update_baseline] can go. *)
Lemma update_baseline_cases (value_status : ValueStatus)
    (current_total : option Q) (current_date : date)
    (fluid_store : FluidStore) :
  (exists ct,
     value_status = v_ok /\ current_total = Some ct
     /\ baseline_changes ct fluid_store
     /\ update_baseline value_status current_total current_date fluid_store
        = {| st_last_total := Some ct; st_last_total_at := Some current_date |})
  \/ ((value_status <> v_ok
       \/ current_total = None
       \/ exists ct, current_total = Some ct /\ ~ baseline_changes ct fluid_store)
      /\ update_baseline value_status current_total current_date fluid_store
         = fluid_store).
Proof.
  unfold update_baseline, baseline_changes.
  destruct fluid_store as [[lt|] [lat|]]; cbn [st_last_total st_last_total_at];
    destruct (ValueStatus_eqb value_status v_ok) eqn:Hok;
    try (apply ValueStatus_eqb_eq in Hok);
    try (right; split; [left; intros ->; discriminate | reflexivity]);
    destruct current_total as [ct|];
    try (right; split; [right; left; reflexivity | reflexivity]);
    try (left; exists ct; repeat split; assumption).
  destruct (Qeq_bool ct lt) eqn:Heq; cbn [negb].
  - apply Qeq_bool_iff in Heq. right. split; [|reflexivity].
    right. right. exists ct. split; [reflexivity | tauto].
  - apply Qeq_bool_false in Heq. left. exists ct. repeat split; assumption.
Qed.

(** One poll keeps a store entry paired and never moves its date back. *)
Lemma update_fluid_baseline_step (self : Entry) (key : string)
    (meta : FluidMeta) (raw_entry : RawEntry) (now_date : date)
    (fluid_store : FluidStore) (rec : Recorder) :
  let store' :=
    snd (fst (fst (update_fluid self key meta raw_entry now_date
                     fluid_store rec))) in
  paired fluid_store ->
  paired store'
  /\ forall d, st_last_total_at fluid_store = Some d ->
       exists d', st_last_total_at store' = Some d' /\ d <= d'.
Proof.
  cbv zeta. intros Hp.
  destruct (update_fluid_unfold self key meta raw_entry now_date fluid_store rec)
    as (_ & _ & _ & _ & -> & _).
  destruct (update_baseline_cases
              (snd (value_status_of raw_entry now_date fluid_store))
              (latest_value raw_entry)
              (effective_date (latest_date raw_entry) now_date) fluid_store)
    as [(ct & Hok & Hct & _ & ->)|[_ ->]].
  - split; [exact I|]. intros d Hd. cbn [st_last_total_at].
    eexists. split; [reflexivity|].
    destruct (value_status_ok_inv _ _ _ Hok) as (ct' & _ & Hle).
    unfold paired in Hp. rewrite Hd in Hp.
    destruct (st_last_total fluid_store) as [lt|] eqn:Hlt; [|contradiction].
    exact (Hle lt d eq_refl Hd).
  - split; [exact Hp|]. intros d Hd. exists d. split; [exact Hd | lia].
Qed.

(** Over any run of polls from a paired store entry, the entry stays paired
    and its date does not move back. *)
Lemma run_polls_monotone (self : Entry) (key : string) (meta : FluidMeta)
    (polls : list (RawEntry * date)) :
  forall (fluid_store : FluidStore) (rec : Recorder),
  paired fluid_store ->
  paired (fst (run_polls self key meta polls fluid_store rec))
  /\ forall d, st_last_total_at fluid_store = Some d ->
       exists d',
         st_last_total_at (fst (run_polls self key meta polls fluid_store rec))
         = Some d' /\ d <= d'.
Proof.
  induction polls as [|[raw_entry now_date] polls IH]; intros fluid_store rec Hp.
  - cbn. split; [exact Hp|]. intros d Hd. exists d. split; [exact Hd | lia].
  - cbn [run_polls].
    pose proof (update_fluid_baseline_step self key meta raw_entry now_date
                  fluid_store rec Hp) as [Hp' Hstep].
    destruct (update_fluid self key meta raw_entry now_date fluid_store rec)
      as [[[data store'] pushed] rec'].
    cbn [fst snd] in Hp', Hstep.
    destruct (IH store' rec' Hp') as [Hp'' Hrest].
    split; [exact Hp''|]. intros d Hd.
    destruct (Hstep d Hd) as (d1 & Hd1 & Hle1).
    destruct (Hrest d1 Hd1) as (d2 & Hd2 & Hle2).
    exists d2. split; [exact Hd2 | lia].
Qed.

(** C8. A poll replaces the persisted baseline by (current total, effective
    date) exactly when its value status is ok and the total changed or no
    baseline existed; otherwise the store entry is what it was.  Hence,
    over any sequence of polls of a fluid starting from the empty store,
    the date of the baseline, once present, stays present and never moves
    back. *)
Theorem C8_baseline_update (self : Entry) (key : string) (meta : FluidMeta)
    (raw_entry : RawEntry) (now_date : date) (fluid_store : FluidStore)
    (rec : Recorder) :
  let out := update_fluid self key meta raw_entry now_date fluid_store rec in
  let data := fst (fst (fst out)) in
  let store' := snd (fst (fst out)) in
  let current_date := effective_date (latest_date raw_entry) now_date in
  ((exists ct,
      fd_value_status data = v_ok /\ latest_value raw_entry = Some ct
      /\ baseline_changes ct fluid_store
      /\ store' = {| st_last_total := Some ct;
                     st_last_total_at := Some current_date |})
   \/ ((fd_value_status data <> v_ok
        \/ exists ct, latest_value raw_entry = Some ct
                      /\ ~ baseline_changes ct fluid_store)
       /\ store' = fluid_store))
  /\ (forall (before after : list (RawEntry * date)) (rec0 : Recorder) (d : date),
        let reached := run_polls self key meta before empty_store rec0 in
        st_last_total_at (fst reached) = Some d ->
        exists d',
          st_last_total_at
            (fst (run_polls self key meta after (fst reached) (snd reached)))
          = Some d'
          /\ d <= d').
Proof.
  cbv zeta. split.
  - destruct (update_fluid_unfold self key meta raw_entry now_date fluid_store
                rec) as (-> & _ & _ & _ & -> & _).
    destruct (update_baseline_cases
                (snd (value_status_of raw_entry now_date fluid_store))
                (latest_value raw_entry)
                (effective_date (latest_date raw_entry) now_date) fluid_store)
      as [(ct & Hok & Hct & Hch & ->)|[[Hno|[Hno|Hno]] ->]].
    + left. exists ct. auto.
    + right. auto.
    + right. split; [left|reflexivity]. intros Hok.
      apply value_status_ok_inv in Hok as (ct & Hct & _). congruence.
    + right. auto.
  - intros before after rec0 d Hd.
    destruct (run_polls_monotone self key meta before empty_store rec0 I)
      as [Hp _].
    destruct (run_polls_monotone self key meta after _
                (snd (run_polls self key meta before empty_store rec0)) Hp)
      as [_ Hmono].
    exact (Hmono d Hd).
Qed.

End Baseline.

(** ** The same-day correction *)

Section Correction.
Import PyDate Num Coordinator.






End Correction.

(** ** The month reset *)

Section MonthReset.
Import PyDate Num Coordinator.


(** From the day before the first of the month of [d] to [d] there are
    [day d] days. *)
Lemma days_since_month_start (d : date) :
  days_between d (sub_days (replace_day1 d) 1) = day d.
Proof.
  unfold days_between, sub_days. rewrite replace_day1_eq. lia.
Qed.




End MonthReset.

(** ** The consumption payload *)

Section Payload.
Import Num Client.

(** Sorting by date neither loses nor invents a record. *)
Lemma insert_by_date_In (x y : Conso) (l : list Conso) :
  In y (insert_by_date x l) <-> y = x \/ In y l.
Proof.
  induction l as [|z l IH]; cbn [insert_by_date].
  - cbn. intuition.
  - destruct (String.ltb (date_key z) (date_key x)); cbn [In]; [rewrite IH|];
      intuition.
Qed.

Lemma sorted_by_date_In (y : Conso) (consos : list Conso) :
  In y (sorted_by_date consos) <-> In y consos.
Proof.
  unfold sorted_by_date. induction consos as [|x l IH]; cbn [foldr].
  - reflexivity.
  - rewrite insert_by_date_In, IH. cbn. intuition.
Qed.

(** The latest record of a payload that has records is one of them. *)
Lemma latest_In (consos : list Conso) :
  consos <> [] ->
  In (List.last (sorted_by_date consos) empty_conso) consos.
Proof.
  intros Hne. apply sorted_by_date_In.
  destruct (sorted_by_date consos) as [|x l] eqn:E.
  - destruct consos as [|c l']; [contradiction|].
    assert (In c (sorted_by_date (c :: l'))) as H
      by (apply sorted_by_date_In; left; reflexivity).
    rewrite E in H. destruct H.
  - clear E. revert x. induction l as [|z l IH]; intros x.
    + left. reflexivity.
    + right. change (List.last (x :: z :: l) empty_conso)
        with (List.last (z :: l) empty_conso). apply IH.
Qed.

End Payload.

Section LeakIndicator.
Import Num Client.



End LeakIndicator.

(** ** The authentication client *)

Section Unauthorized.
Import Client.

Variable query_code : string -> option string.

(** Runs a method on a state, one primitive at a time. *)
Ltac step_client :=
  cbv beta iota zeta
      delta [bind ret raise send log set_access set_refresh get_access
             get_refresh get_credentials try_except _parse_settings];
  cbn [_access_token _refresh_token answers n_sent trace _username
       _password fst snd negb].

Ltac run_client :=
  step_client;
  repeat
    (match goal with
     | |- context [match page_settings ?r with _ => _ end] =>
         destruct (page_settings r)
     | |- context [if ?b then _ else _] => destruct b
     end; step_client).

Ltac close_trace :=
  rewrite <- ?app_assoc; cbn [app];
  eexists; split; [reflexivity|];
  repeat constructor; cbn; auto; try discriminate.

(** The interactive flow sends only its own requests, all with the tokens
    it started with, and logs no error. *)
Lemma _auth_pkce_trace (c : OceaClient) :
  exists evs,
    trace (snd (_auth_pkce query_code c)) = (trace c ++ evs)%list
    /\ Forall (pkce_event (_access_token c) (_refresh_token c)) evs.
Proof.
  unfold _auth_pkce. run_client; close_trace.
Qed.


(** [_try_refresh] never raises; it sends at most the refresh grant, first
    of all when a refresh token is held, and answers [true] only with an
    access token in hand. *)
Lemma _try_refresh_trace (c : OceaClient) :
  exists b c' evs,
    _try_refresh c = (Ok b, c')
    /\ trace c' = (trace c ++ evs)%list
    /\ Forall grant_event evs
    /\ (truthy (_refresh_token c) = true ->
        exists rest,
          evs = Sent (TokenRefresh (default "" (_refresh_token c)))
                  (_access_token c) (_refresh_token c) :: rest)
    /\ (b = true -> truthy (_access_token c') = true).
Proof.
  unfold _try_refresh. step_client.
  destruct (truthy (_refresh_token c)) eqn:Hrt; step_client.
  - match goal with
    | |- context [if negb ?b then _ else _] => destruct b
    end; step_client;
      do 3 eexists; (split; [reflexivity|]);
      rewrite <- ?app_assoc; cbn [app _access_token trace];
      (split; [reflexivity|]);
      (split; [repeat constructor; cbn; auto; discriminate|]);
      (split; [intros _; eexists; reflexivity|]);
      intros H; first [discriminate H | exact H].
  - exists false, c, []. rewrite app_nil_r. repeat split; try discriminate.
    constructor.
Qed.

Lemma api_calls_app (l1 l2 : list Event) :
  api_calls (l1 ++ l2) = (api_calls l1 + api_calls l2)%nat.
Proof.
  unfold api_calls. now rewrite List.filter_app, length_app.
Qed.

Lemma api_calls_none (l : list Event) :
  Forall (fun e => is_api_event e = false) l -> api_calls l = 0%nat.
Proof.
  unfold api_calls. induction 1 as [|e l He _ IH]; [reflexivity|].
  cbn [List.filter]. now rewrite He.
Qed.

(** What [_handle_unauthorized] leaves in the trace after its first line:
    no API call; the refresh grant first when a refresh token is held;
    requests of the interactive flow only with both tokens cleared; and the
    error line exactly when it answers [false] after the interactive flow
    raised. *)
Lemma _handle_unauthorized_trace (c : OceaClient) :
  exists b c' evs,
    _handle_unauthorized query_code c = (Ok b, c')
    /\ trace c'
       = (trace c
          ++ Logged WARNING "HTTP 401 received; attempting token refresh."
             :: evs)%list
    /\ (truthy (_refresh_token c) = true ->
        exists rest,
          evs = Sent (TokenRefresh (default "" (_refresh_token c)))
                  (_access_token c) (_refresh_token c) :: rest)
    /\ Forall pkce_cleared evs
    /\ Forall (fun e => is_api_event e = false) evs
    /\ (b = true ->
        truthy (_access_token c') = true
        /\ ~ In (Logged ERROR "Full authentication failed after 401") evs).
Proof.
  unfold _handle_unauthorized. step_client.
  match goal with
  | |- context [_try_refresh ?st] =>
      destruct (_try_refresh_trace st) as (b & c1 & evs1 & -> & Ht1 & Hg & Hfirst & Hb)
  end.
  cbn [_access_token _refresh_token trace] in Ht1, Hfirst.
  assert (Forall pkce_cleared evs1) as Hclr1.
  { eapply Forall_impl; [exact Hg|]. intros [r a f|l m]; cbn; [|auto].
    intros [_ Hp] Hq. congruence. }
  assert (Forall (fun e => is_api_event e = false) evs1) as Hapi1.
  { eapply Forall_impl; [exact Hg|]. intros [r a f|l m]; cbn; tauto. }
  assert (~ In (Logged ERROR "Full authentication failed after 401") evs1)
    as Herr1.
  { intros Hin. apply (proj1 (List.Forall_forall _ _) Hg) in Hin. cbn in Hin.
    congruence. }
  step_client. destruct b; step_client.
  { exists true, c1, evs1. rewrite Ht1, <- app_assoc. cbn [app].
    repeat split; auto. }
  match goal with
  | |- context [_auth_pkce query_code ?st] =>
      destruct (_auth_pkce_trace st) as (evs2 & Ht2 & Hp);
      destruct (_auth_pkce query_code st) as [r c2]
  end.
  cbn [_access_token _refresh_token trace snd] in Ht2, Hp.
  assert (Forall pkce_cleared evs2) as Hclr2.
  { eapply Forall_impl; [exact Hp|]. intros [r' a f|l m]; cbn; [|auto].
    intros (_ & -> & ->) _. auto. }
  assert (Forall (fun e => is_api_event e = false) evs2) as Hapi2.
  { eapply Forall_impl; [exact Hp|]. intros [r' a f|l m]; cbn; [|auto].
    intros (Hq & _). destruct r'; cbn in *; congruence. }
  assert (~ In (Logged ERROR "Full authentication failed after 401") evs2)
    as Herr2.
  { intros Hin. apply (proj1 (List.Forall_forall _ _) Hp) in Hin. cbn in Hin.
    congruence. }
  destruct r as [[]|e]; step_client.
  - exists (truthy (_access_token c2)), c2,
      (evs1 ++ Logged WARNING
                 "Token refresh failed; retrying full authentication."
               :: evs2)%list.
    rewrite Ht2, Ht1, <- !app_assoc. cbn [app].
    split; [reflexivity|]. split; [reflexivity|].
    split; [intros H; destruct (Hfirst H) as (rest & ->); eexists; reflexivity|].
    split; [apply Forall_app; split; [|constructor]; cbn; auto|].
    split; [apply Forall_app; split; [|constructor]; cbn; auto|].
    intros H. split; [exact H|].
    rewrite in_app_iff. cbn [In]. intros [Hin|[Hin|Hin]];
      [auto | discriminate | auto].
  - exists false.
    eexists.
    exists (evs1 ++ Logged WARNING
                      "Token refresh failed; retrying full authentication."
                    :: evs2
                    ++ [Logged ERROR "Full authentication failed after 401"])%list.
    cbn [trace]. rewrite Ht2, Ht1.
    repeat (rewrite <- ?app_assoc; cbn [app]).
    split; [reflexivity|]. split; [reflexivity|].
    split; [intros H; destruct (Hfirst H) as (rest & ->); eexists; reflexivity|].
    split; [apply Forall_app; split; [|constructor; [|apply Forall_app; split]];
            cbn; auto; repeat constructor|].
    split; [apply Forall_app; split; [|constructor; [|apply Forall_app; split]];
            cbn; auto; repeat constructor|].
    discriminate.
Qed.

(** The steps common to [_get] and [_post] once the first answer is 401. *)
Ltac recover_after Hens H401 url :=
  cbv beta delta [bind]; rewrite Hens; cbv beta iota;
  fold url in H401 |- *; step_client; rewrite H401;
  change (401 =? 401) with true; cbv beta iota;
  match goal with
  | |- context [_handle_unauthorized query_code ?st] =>
      let b := fresh "b" in
      let c2 := fresh "c2" in
      let evs := fresh "evs" in
      let Ht := fresh "Ht" in
      let Hfirst := fresh "Hfirst" in
      let Hclr := fresh "Hclr" in
      let Hapi := fresh "Hapi" in
      let Hb := fresh "Hb" in
      destruct (_handle_unauthorized_trace st)
        as (b & c2 & evs & -> & Ht & Hfirst & Hclr & Hapi & Hb);
      cbn [_access_token _refresh_token trace] in Ht, Hfirst;
      rewrite <- app_assoc in Ht; cbn [app] in Ht;
      destruct b; step_client;
      [ destruct (Hb eq_refl) as [? ?];
        match goal with
        | |- context [Sent ?r (_access_token c2) (_refresh_token c2)] =>
            let Hcalls := fresh "Hcalls" in
            assert (api_calls
                      (evs ++ [Sent r (_access_token c2) (_refresh_token c2)])
                    = 1%nat) as Hcalls
              by (rewrite api_calls_app, (api_calls_none _ Hapi); reflexivity);
            match goal with
            | |- context [if ?b then _ else _] => destruct b
            end; step_client;
            exists (evs ++ [Sent r (_access_token c2) (_refresh_token c2)])%list;
            rewrite Hcalls, Ht, <- app_assoc; cbn [app];
            (split; [reflexivity|]);
            (split; [let H := fresh in
                     let rest := fresh in
                     intros H; destruct (Hfirst H) as (rest & ->); eexists;
                     reflexivity|]);
            (split; [apply Forall_app; split; [exact Hclr|];
                     repeat constructor; cbn; discriminate|]);
            (split; [apply Forall_app; split;
                     [eapply Forall_impl; [exact Hapi|];
                      intros [? ? ?|? ?]; cbn; [congruence | auto]
                     |repeat constructor; cbn; auto]|]);
            (split; [lia|]);
            (split; [|discriminate]);
            rewrite in_app_iff; cbn [In];
            let Hin := fresh in
            intros [Hin|[Hin|[]]]; [contradiction | discriminate]
        end
      | rewrite H401; change (401 >=? 400) with true; step_client;
        exists evs; rewrite (api_calls_none _ Hapi);
        (split; [exact Ht|]);
        (split; [exact Hfirst|]);
        (split; [exact Hclr|]);
        (split; [eapply Forall_impl; [exact Hapi|];
                 intros [? ? ?|? ?]; cbn; [congruence | auto]|]);
        repeat split; auto ]
  end.


(** The same holds of an authorized POST. *)
Lemma _post_unauthorized_recovery (path : string) (c c1 : OceaClient) :
  let url := String.append API_BASE path in
  let tok := _access_token c1 in
  let rt := _refresh_token c1 in
  _ensure_token query_code c = (Ok tt, c1) ->
  status_code (answers c1 (n_sent c1) (ApiPost url tok)) = 401 ->
  let out := _post query_code path c in
  exists evs,
    trace (snd out)
    = (trace c1
       ++ Sent (ApiPost url tok) tok rt
          :: Logged WARNING "HTTP 401 received; attempting token refresh."
          :: evs)%list
    /\ (truthy rt = true ->
        exists rest,
          evs = Sent (TokenRefresh (default "" rt)) tok rt :: rest)
    /\ Forall pkce_cleared evs
    /\ Forall (retry_of (ApiPost url)) evs
    /\ (api_calls evs <= 1)%nat
    /\ (In (Logged ERROR "Full authentication failed after 401") evs ->
        fst out = Raise (OceaAuthError (HttpStatus 401 url))
        /\ api_calls evs = 0%nat)
    /\ (api_calls evs = 0%nat ->
        fst out = Raise (OceaAuthError (HttpStatus 401 url))).
Proof.
  intros url tok rt Hens H401 out. subst tok rt out. unfold _post.
  recover_after Hens H401 url.
Qed.

End Unauthorized.


(** ** The whole poll *)

Section WholePoll.
Import PyDate Num Coordinator.

Lemma update_fluid_pushed_nonneg (self : Entry) (key : string)
    (meta : FluidMeta) (raw_entry : RawEntry) (now_date : date)
    (fluid_store : FluidStore) (rec : Recorder) :
  Forall (fun p => (0 <= sd_state p)%Q)
    (snd (fst (update_fluid self key meta raw_entry now_date fluid_store rec))).
Proof.
  destruct (update_fluid_unfold self key meta raw_entry now_date fluid_store rec)
    as (_ & _ & _ & _ & _ & -> & _).
  apply derive_daily_pushed.
Qed.

(** Over the fluids of a poll, in order, every point pushed carries a state
    that is not negative. *)
Lemma _async_update_data_pushed (self : Entry) (raw : gmap string RawEntry)
    (now_date : date) (store_fluids : gmap string FluidStore) (rec : Recorder) :
  Forall (fun p => (0 <= sd_state p)%Q)
    (snd (fst (_async_update_data self raw now_date store_fluids rec))).
Proof.
  unfold _async_update_data.
  assert (Forall (fun p => (0 <= sd_state p)%Q) []) as Hacc by constructor.
  revert Hacc.
  generalize (@nil StatisticData) as pushed.
  generalize (∅ : gmap string FluidData) as fluids.
  revert store_fluids rec.
  induction FLUIDS as [|[key meta] l IH]; intros store_fluids rec fluids pushed Hacc.
  - exact Hacc.
  - cbn [foldl fst snd].
    pose proof (update_fluid_pushed_nonneg self key meta
                  (default empty_entry (raw !! key)) now_date
                  (default empty_store (store_fluids !! key)) rec) as Hstep.
    destruct (update_fluid self key meta (default empty_entry (raw !! key))
                now_date (default empty_store (store_fluids !! key)) rec)
      as [[[data store'] batch] rec'].
    apply IH. apply Forall_app. split; [exact Hacc | exact Hstep].
Qed.

End WholePoll.

(** ** More on the reconciliation of one fluid *)

Section PollOutcome.
Import PyDate Num Coordinator.

(** The remaining fields of the [FluidData] of a poll. *)
Lemma update_fluid_fields (self : Entry) (key : string) (meta : FluidMeta)
    (raw_entry : RawEntry) (now_date : date) (fluid_store : FluidStore)
    (rec : Recorder) :
  let current_date := effective_date (latest_date raw_entry) now_date in
  let vs := value_status_of raw_entry now_date fluid_store in
  let dl :=
    derive_daily self rec key (unit meta) (snd vs) (fst vs)
      (latest_value raw_entry) current_date
      (st_last_total fluid_store) (st_last_total_at fluid_store) in
  let et := estimate_today (dl_value dl) (dl_source dl) (fst vs) current_date in
  let data :=
    fst (fst (fst (update_fluid self key meta raw_entry now_date fluid_store
                     rec))) in
  fd_total data = fst vs
  /\ fd_estimated_today data = fst et
  /\ fd_estimated_today_source data = snd et
  /\ fd_latest_date data = Some current_date
  /\ fd_api_latest_date data = latest_date raw_entry
  /\ fd_unit data = unit meta
  /\ fd_leak_estimate data = default "unknown" (leak_estimate raw_entry).
Proof.
  cbv zeta. unfold update_fluid.
  destruct (value_status_of raw_entry now_date fluid_store) as [vu vs].
  cbn [fst snd].
  destruct (estimate_today _ _ _ _) as [et es].
  cbn. repeat split.
Qed.

(** The four ways the value status of a poll comes out. *)
Lemma value_status_of_cases (raw_entry : RawEntry) (now_date : date)
    (fluid_store : FluidStore) :
  let vs := value_status_of raw_entry now_date fluid_store in
  (snd vs = v_ok
   /\ exists ct, latest_value raw_entry = Some ct /\ fst vs = Some ct
                 /\ (0 <= ct)%Q)
  \/ (snd vs = v_stale
      /\ exists lt t, st_last_total fluid_store = Some lt
                      /\ fst vs = Some t /\ (t == lt)%Q)
  \/ (snd vs = v_missing /\ fst vs = None
      /\ st_last_total fluid_store = None /\ latest_value raw_entry = None)
  \/ (snd vs = v_invalid /\ fst vs = None
      /\ st_last_total fluid_store = None
      /\ exists ct, latest_value raw_entry = Some ct /\ (ct < 0)%Q).
Proof.
  cbv zeta. unfold value_status_of, fallback, downgrade_stale, classify_value.
  set (cd := effective_date (latest_date raw_entry) now_date).
  destruct (latest_value raw_entry) as [ct|];
    destruct (st_last_total fluid_store) as [lt|];
    destruct (st_last_total_at fluid_store) as [lat|];
    try (destruct (Qltb ct 0) eqn:Hneg;
         [apply Qltb_lt in Hneg | apply Qltb_ge in Hneg]);
    try (destruct (Qeq_bool ct lt) eqn:Heq; [apply Qeq_bool_iff in Heq|]);
    repeat (cbn [ValueStatus_eqb andb orb fst snd];
            match goal with
            | |- context [if ?b then _ else _] =>
                lazymatch b with
                | context [if _ then _ else _] => fail
                | _ => destruct b
                end
            end);
    cbn [ValueStatus_eqb andb orb fst snd];
    first
      [ left; split; [reflexivity|]; eexists; repeat split;
        solve [reflexivity | assumption]
      | right; left; split; [reflexivity|]; do 2 eexists; repeat split;
        solve [reflexivity | assumption]
      | right; right; left; repeat split; reflexivity
      | right; right; right; repeat split; eexists; split;
        solve [reflexivity | assumption] ].
Qed.

Ltac no_daily :=
  cbn [dl_status dl_value dl_pushed fst snd];
  split; [auto 7|];
  split; [intros ? ?; discriminate|];
  split; [intros [?|?]; discriminate|];
  left; reflexivity.

Ltac some_daily :=
  cbn [dl_status dl_value dl_pushed fst snd];
  split; [auto 7|];
  split; [intros ? [= <-]; auto 7|];
  split; [intros _; eauto|];
  right; eauto.

(** What the daily derivation yields on the status a poll computed: a
    daily status that is never left unknown, a daily value only on an ok
    reading and never negative, and points pushed only with a daily
    value. *)
Lemma derive_daily_of_poll (self : Entry) (rec : Recorder) (key : string)
    (unit : option string) (raw_entry : RawEntry) (now_date : date)
    (fluid_store : FluidStore) :
  let current_date := effective_date (latest_date raw_entry) now_date in
  let vs := value_status_of raw_entry now_date fluid_store in
  let dl :=
    derive_daily self rec key unit (snd vs) (fst vs) (latest_value raw_entry)
      current_date (st_last_total fluid_store) (st_last_total_at fluid_store) in
  (dl_status dl = d_stale \/ dl_status dl = d_missing
   \/ dl_status dl = d_invalid \/ dl_status dl = d_corrected
   \/ dl_status dl = d_ok \/ dl_status dl = d_estimated)
  /\ (forall v, dl_value dl = Some v ->
        (0 <= v)%Q /\ snd vs = v_ok
        /\ (dl_status dl = d_corrected \/ dl_status dl = d_ok
            \/ dl_status dl = d_estimated))
  /\ (dl_status dl = d_ok \/ dl_status dl = d_estimated ->
      exists v, dl_value dl = Some v)
  /\ (dl_pushed dl = [] \/ exists v, dl_value dl = Some v).
Proof.
  cbv zeta.
  pose proof (value_status_ok_inv raw_entry now_date fluid_store) as Hinv.
  destruct (value_status_of_cases raw_entry now_date fluid_store)
    as [(Hs & ct & Hct & Hu & Hpos)
       |[(Hs & lt & t & Hlt & Hu & _)
        |[(Hs & Hu & _)|(Hs & Hu & _)]]];
    rewrite Hs, Hu; unfold derive_daily; cbn [ValueStatus_eqb negb];
    try no_daily.
  specialize (Hinv Hs). destruct Hinv as (ct' & Hct' & Hle).
  rewrite Hct.
  destruct (st_last_total fluid_store) as [lt|]; [|no_daily].
  destruct (st_last_total_at fluid_store) as [lat|]; [|no_daily].
  specialize (Hle lt lat eq_refl eq_refl).
  set (cd := effective_date (latest_date raw_entry) now_date) in *.
  destruct (Z.eqb_spec cd lat) as [Heq|Hne].
  - destruct (Qltb (ct - lt) 0); [no_daily|].
    destruct (Qeq_bool (ct - lt) 0); [no_daily|].
    destruct (_update_statistics_correction_cases self rec key unit cd
                (ct - lt)%Q)
      as [->|(row & metadata & _ & _ & _ & Hns & ->)]; [no_daily|some_daily].
  - assert (exists delta src start,
              reset_window ct lt cd lat = (delta, src, start)
              /\ 1 <= days_between cd start) as (delta & src & start & -> & Hd).
    { unfold reset_window. destruct (_ && _).
      - do 3 eexists. split; [reflexivity|].
        rewrite days_since_month_start. apply day_ge_1.
      - do 3 eexists. split; [reflexivity|]. unfold days_between. lia. }
    assert ((days_between cd start >=? 1) = true) as ->
      by (apply Z.geb_le; lia).
    cbn [andb].
    destruct (Qeq_bool delta 0); [no_daily|].
    destruct (Qle_bool 0 delta) eqn:Hdelta.
    + apply Qle_bool_iff in Hdelta.
      assert (0 <= round3 (delta / inject_Z (days_between cd start)))%Q as Hv.
      { apply round3_nonneg. apply Qle_shift_div_l.
        - change 0%Q with (inject_Z 0). rewrite <- Zlt_Qlt. lia.
        - rewrite Qmult_0_l. exact Hdelta. }
      destruct (_update_statistics_range self rec key unit start cd _)
        as [pushed rec'].
      destruct (_ =? 1); some_daily.
    + unfold Qltb. rewrite Hdelta. cbn [negb]. no_daily.
Qed.

(** One poll keeps a store whose total is not negative that way, and then
    reports no negative total. *)
Lemma update_fluid_nonneg_step (self : Entry) (key : string) (meta : FluidMeta)
    (raw_entry : RawEntry) (now_date : date) (fluid_store : FluidStore)
    (rec : Recorder) :
  let out := update_fluid self key meta raw_entry now_date fluid_store rec in
  store_nonneg fluid_store ->
  store_nonneg (snd (fst (fst out)))
  /\ forall t, fd_total (fst (fst (fst out))) = Some t -> (0 <= t)%Q.
Proof.
  cbv zeta. intros Hnn.
  destruct (update_fluid_unfold self key meta raw_entry now_date fluid_store rec)
    as (_ & _ & _ & _ & -> & _).
  destruct (update_fluid_fields self key meta raw_entry now_date fluid_store rec)
    as (-> & _).
  split.
  - destruct (update_baseline_cases
                (snd (value_status_of raw_entry now_date fluid_store))
                (latest_value raw_entry)
                (effective_date (latest_date raw_entry) now_date) fluid_store)
      as [(ct & Hok & Hct & _ & ->)|[_ ->]]; [|exact Hnn].
    unfold store_nonneg. cbn [st_last_total].
    destruct (value_status_of_cases raw_entry now_date fluid_store)
      as [(_ & ct' & Hct' & _ & Hpos)|[(Hs & _)|[(Hs & _)|(Hs & _)]]];
      congruence.
  - intros t Ht.
    destruct (value_status_of_cases raw_entry now_date fluid_store)
      as [(_ & ct & _ & Hu & Hpos)
         |[(_ & lt & t' & Hlt & Hu & Heq)|[(_ & Hu & _)|(_ & Hu & _)]]];
      try congruence.
    rewrite Hu in Ht. injection Ht as <-.
    unfold store_nonneg in Hnn. rewrite Hlt in Hnn. now rewrite Heq.
Qed.

(** X1. After a poll the value status of a fluid is ok, stale, missing or
    invalid.  An ok status reports the fetched total, which is not
    negative; a stale one reports a total equal to the stored baseline;
    missing and invalid report no total, and occur only without a stored
    baseline total, on an absent and on a negative reading. *)
Theorem poll_value_status (self : Entry) (key : string) (meta : FluidMeta)
    (raw_entry : RawEntry) (now_date : date) (fluid_store : FluidStore)
    (rec : Recorder) :
  let data :=
    fst (fst (fst (update_fluid self key meta raw_entry now_date fluid_store
                     rec))) in
  (fd_value_status data = v_ok
   /\ exists ct, latest_value raw_entry = Some ct /\ fd_total data = Some ct
                 /\ (0 <= ct)%Q)
  \/ (fd_value_status data = v_stale
      /\ exists lt t, st_last_total fluid_store = Some lt
                      /\ fd_total data = Some t /\ (t == lt)%Q)
  \/ (fd_value_status data = v_missing /\ fd_total data = None
      /\ st_last_total fluid_store = None /\ latest_value raw_entry = None)
  \/ (fd_value_status data = v_invalid /\ fd_total data = None
      /\ st_last_total fluid_store = None
      /\ exists ct, latest_value raw_entry = Some ct /\ (ct < 0)%Q).
Proof.
  cbv zeta.
  destruct (update_fluid_unfold self key meta raw_entry now_date fluid_store rec)
    as (-> & _).
  destruct (update_fluid_fields self key meta raw_entry now_date fluid_store rec)
    as (-> & _).
  exact (value_status_of_cases raw_entry now_date fluid_store).
Qed.

(** X2. A total equal to the stored baseline, read for a date after the
    date of the baseline, is stale: the stored total is still reported,
    there is no daily value, nothing is pushed to the recorder and the
    store entry stays as it is. *)
Theorem poll_unchanged_total_stale (self : Entry) (key : string)
    (meta : FluidMeta) (raw_entry : RawEntry) (now_date : date)
    (fluid_store : FluidStore) (rec : Recorder) (ct lt : Q) (lat : date) :
  let out := update_fluid self key meta raw_entry now_date fluid_store rec in
  let data := fst (fst (fst out)) in
  latest_value raw_entry = Some ct ->
  st_last_total fluid_store = Some lt ->
  st_last_total_at fluid_store = Some lat ->
  (ct == lt)%Q ->
  lat < effective_date (latest_date raw_entry) now_date ->
  fd_value_status data = v_stale
  /\ (exists t, fd_total data = Some t /\ (t == lt)%Q)
  /\ fd_daily data = None
  /\ fd_daily_status data = d_stale
  /\ fd_daily_source data = Some stale_total
  /\ snd (fst out) = []
  /\ snd out = rec
  /\ snd (fst (fst out)) = fluid_store.
Proof.
  cbv zeta. intros Hct Hlt Hlat Heq Hlater.
  destruct (update_fluid_unfold self key meta raw_entry now_date fluid_store rec)
    as (-> & -> & -> & -> & -> & -> & ->).
  destruct (update_fluid_fields self key meta raw_entry now_date fluid_store rec)
    as (-> & _).
  assert (snd (value_status_of raw_entry now_date fluid_store) = v_stale
          /\ exists t, fst (value_status_of raw_entry now_date fluid_store)
                       = Some t /\ (t == lt)%Q) as [Hs Ht].
  { unfold value_status_of, fallback, downgrade_stale, classify_value.
    rewrite Hct, Hlt, Hlat.
    set (cd := effective_date (latest_date raw_entry) now_date) in *.
    apply Qeq_bool_iff in Heq as Heqb. rewrite Heqb.
    assert ((cd >? lat) = true) as -> by (apply Z.gtb_lt; lia).
    assert ((cd <? lat) = false) as -> by (apply Z.ltb_ge; lia).
    destruct (Qltb ct 0) eqn:Hneg; cbn [ValueStatus_eqb andb orb];
      [split; [reflexivity|]; exists lt; split; [reflexivity|]; reflexivity|].
    assert (Qltb (ct + eps) lt = false) as Hl.
    { unfold Qltb. apply negb_false_iff. apply Qle_bool_iff.
      rewrite Heq. unfold eps. rewrite <- (Qplus_0_r lt) at 1.
      apply Qplus_le_r. discriminate. }
    assert (Qeq_bool ct 0 && Qltb 0 lt = false) as Hz.
    { destruct (Qeq_bool ct 0) eqn:H0; [|reflexivity]. cbn [andb].
      apply Qeq_bool_iff in H0. unfold Qltb. apply negb_false_iff.
      apply Qle_bool_iff. rewrite <- Heq, H0. apply Qle_refl. }
    rewrite Hl, Hz.
    destruct (month cd =? month lat); cbn [ValueStatus_eqb andb orb];
      (split; [reflexivity|]; exists ct; split; [reflexivity | exact Heq]). }
  rewrite Hs. split; [reflexivity|]. split; [exact Ht|].
  unfold derive_daily. cbn [ValueStatus_eqb dl_value dl_status dl_source
                              dl_pushed dl_rec].
  repeat split.
  destruct (update_baseline_cases v_stale (latest_value raw_entry)
              (effective_date (latest_date raw_entry) now_date) fluid_store)
    as [(c & Hok & _)|[_ ->]]; [discriminate | reflexivity].
Qed.

Lemma poll_unchanged_total_stale_witness :
  fd_value_status
    (fst (fst (fst (update_fluid Examples.self0 "eau_froide" Examples.eau_froide
                      (Examples.reading 5 (mk 2024 3 10)) (mk 2024 3 11)
                      (Examples.baseline 5 (mk 2024 3 8)) ∅)))) = v_stale.
Proof.
  refine (proj1 (poll_unchanged_total_stale Examples.self0 "eau_froide"
                   Examples.eau_froide (Examples.reading 5 (mk 2024 3 10))
                   (mk 2024 3 11) (Examples.baseline 5 (mk 2024 3 8)) ∅
                   5 5 (mk 2024 3 8) _ _ _ _ _)).
  - reflexivity.
  - reflexivity.
  - reflexivity.
  - reflexivity.
  - vm_compute. reflexivity.
Defined.

(** X3. The first poll of a fluid, with no stored baseline total, pushes
    nothing to the recorder and has no daily value.  A total that is not
    negative is reported as ok and becomes the baseline, dated with the
    effective date; an absent or negative reading reports no total, no
    estimate for today, and leaves the store entry as it is. *)
Theorem poll_without_baseline (self : Entry) (key : string) (meta : FluidMeta)
    (raw_entry : RawEntry) (now_date : date) (fluid_store : FluidStore)
    (rec : Recorder) :
  let out := update_fluid self key meta raw_entry now_date fluid_store rec in
  let data := fst (fst (fst out)) in
  let current_date := effective_date (latest_date raw_entry) now_date in
  st_last_total fluid_store = None ->
  snd (fst out) = [] /\ snd out = rec
  /\ fd_daily data = None /\ fd_daily_status data = d_missing
  /\ (forall ct, latest_value raw_entry = Some ct -> (0 <= ct)%Q ->
        fd_value_status data = v_ok /\ fd_total data = Some ct
        /\ snd (fst (fst out))
           = {| st_last_total := Some ct;
                st_last_total_at := Some current_date |})
  /\ (latest_value raw_entry = None
      \/ (exists ct, latest_value raw_entry = Some ct /\ (ct < 0)%Q) ->
      (fd_value_status data = v_missing \/ fd_value_status data = v_invalid)
      /\ fd_total data = None /\ fd_estimated_today data = None
      /\ snd (fst (fst out)) = fluid_store).
Proof.
  cbv zeta. intros Hlt.
  destruct (update_fluid_unfold self key meta raw_entry now_date fluid_store rec)
    as (-> & -> & -> & _ & -> & -> & ->).
  destruct (update_fluid_fields self key meta raw_entry now_date fluid_store rec)
    as (-> & -> & _).
  assert (value_status_of raw_entry now_date fluid_store
          = match latest_value raw_entry with
            | Some ct => if Qltb ct 0 then (None, v_invalid) else (Some ct, v_ok)
            | None => (None, v_missing)
            end) as Hvs.
  { unfold value_status_of, fallback, downgrade_stale, classify_value.
    rewrite Hlt. destruct (latest_value raw_entry) as [ct|]; [|reflexivity].
    destruct (Qltb ct 0); reflexivity. }
  rewrite Hvs. unfold derive_daily, estimate_today, update_baseline. rewrite Hlt.
  destruct (latest_value raw_entry) as [ct|];
    [destruct (Qltb ct 0) eqn:Hneg;
       [apply Qltb_lt in Hneg | apply Qltb_ge in Hneg]|];
    cbn [fst snd ValueStatus_eqb negb dl_value dl_status dl_source dl_pushed
           dl_rec];
    (do 4 (split; [reflexivity|]); split; [intros c Hc Hpos | intros Hbad]).
  - injection Hc as <-. exfalso. apply (Qlt_not_le _ _ Hneg Hpos).
  - split; [right; reflexivity|]. split; [reflexivity|].
    split; [reflexivity|]. now destruct (st_last_total_at fluid_store).
  - injection Hc as <-. repeat split.
  - exfalso. destruct Hbad as [?|(c & Hc & Hlow)]; [discriminate|].
    injection Hc as <-. apply (Qlt_not_le _ _ Hlow Hneg).
  - discriminate.
  - split; [left; reflexivity|]. split; [reflexivity|].
    split; [reflexivity|]. now destruct (st_last_total_at fluid_store).
Qed.

Lemma poll_without_baseline_witness :
  fd_daily_status
    (fst (fst (fst (update_fluid Examples.self0 "eau_froide" Examples.eau_froide
                      (Examples.reading 5 (mk 2024 3 10)) (mk 2024 3 11)
                      empty_store ∅)))) = d_missing.
Proof.
  refine (proj1 (proj2 (proj2 (proj2
            (poll_without_baseline Examples.self0 "eau_froide"
               Examples.eau_froide (Examples.reading 5 (mk 2024 3 10))
               (mk 2024 3 11) empty_store ∅ _))))).
  reflexivity.
Defined.

(** X4. The daily status of a poll is never left unknown.  A daily value
    is reported only on an ok reading, with the status corrected, ok or
    estimated, and is never negative; the statuses ok and estimated always
    come with a daily value; and points are pushed to the recorder only
    together with a daily value. *)
Theorem poll_daily_value (self : Entry) (key : string) (meta : FluidMeta)
    (raw_entry : RawEntry) (now_date : date) (fluid_store : FluidStore)
    (rec : Recorder) :
  let out := update_fluid self key meta raw_entry now_date fluid_store rec in
  let data := fst (fst (fst out)) in
  (fd_daily_status data = d_stale \/ fd_daily_status data = d_missing
   \/ fd_daily_status data = d_invalid \/ fd_daily_status data = d_corrected
   \/ fd_daily_status data = d_ok \/ fd_daily_status data = d_estimated)
  /\ (forall v, fd_daily data = Some v ->
        (0 <= v)%Q /\ fd_value_status data = v_ok
        /\ (fd_daily_status data = d_corrected \/ fd_daily_status data = d_ok
            \/ fd_daily_status data = d_estimated))
  /\ (fd_daily_status data = d_ok \/ fd_daily_status data = d_estimated ->
      exists v, fd_daily data = Some v)
  /\ (snd (fst out) = [] \/ exists v, fd_daily data = Some v).
Proof.
  cbv zeta.
  destruct (update_fluid_unfold self key meta raw_entry now_date fluid_store rec)
    as (-> & -> & -> & _ & _ & -> & _).
  exact (derive_daily_of_poll self rec key (unit meta) raw_entry now_date
           fluid_store).
Qed.

(** The estimate for today of a poll: the daily value when there is one,
    otherwise the total used spread over the days of the month so far. *)
Lemma update_fluid_estimate (self : Entry) (key : string) (meta : FluidMeta)
    (raw_entry : RawEntry) (now_date : date) (fluid_store : FluidStore)
    (rec : Recorder) :
  let data :=
    fst (fst (fst (update_fluid self key meta raw_entry now_date fluid_store
                     rec))) in
  let current_date := effective_date (latest_date raw_entry) now_date in
  (fd_estimated_today data = None <-> fd_total data = None)
  /\ (forall v, fd_daily data = Some v ->
        fd_estimated_today data = Some v
        /\ fd_estimated_today_source data = fd_daily_source data)
  /\ (forall t, fd_daily data = None -> fd_total data = Some t ->
        fd_estimated_today data
        = Some (round3 (t / inject_Z (day current_date)))
        /\ fd_estimated_today_source data = Some monthly_average).
Proof.
  cbv zeta.
  pose proof (derive_daily_of_poll self rec key (unit meta) raw_entry now_date
                fluid_store) as (_ & Hval & _).
  cbv zeta in Hval.
  destruct (update_fluid_unfold self key meta raw_entry now_date fluid_store rec)
    as (_ & -> & _ & -> & _).
  destruct (update_fluid_fields self key meta raw_entry now_date fluid_store rec)
    as (-> & -> & -> & _).
  unfold estimate_today.
  rewrite (Z.max_l (day (effective_date (latest_date raw_entry) now_date)) 1)
    by (pose proof (day_ge_1 (effective_date (latest_date raw_entry) now_date));
        lia).
  destruct (dl_value _) as [v|] eqn:Hv.
  - destruct (Hval v eq_refl) as (_ & Hok & _).
    destruct (value_status_of_cases raw_entry now_date fluid_store)
      as [(_ & ct & _ & Hu & _)|[(Hs & _)|[(Hs & _)|(Hs & _)]]];
      try congruence.
    rewrite Hu. cbn [fst snd].
    split; [split; discriminate|]. split; [|discriminate].
    intros ? [= <-]. split; reflexivity.
  - destruct (fst (value_status_of raw_entry now_date fluid_store)) as [t|];
      cbn [fst snd].
    + split; [split; discriminate|]. split; [discriminate|].
      intros ? _ [= <-]. split; reflexivity.
    + split; [split; reflexivity|]. split; discriminate.
Qed.


(** A store entry whose total is not negative stays so over any polls. *)
Lemma run_polls_nonneg (self : Entry) (key : string) (meta : FluidMeta)
    (polls : list (RawEntry * date)) :
  forall (fluid_store : FluidStore) (rec : Recorder),
  store_nonneg fluid_store ->
  store_nonneg (fst (run_polls self key meta polls fluid_store rec)).
Proof.
  induction polls as [|[raw_entry now_date] polls IH]; intros fluid_store rec Hn.
  - exact Hn.
  - cbn [run_polls].
    pose proof (update_fluid_nonneg_step self key meta raw_entry now_date
                  fluid_store rec Hn) as [Hn' _].
    destruct (update_fluid self key meta raw_entry now_date fluid_store rec)
      as [[[data store'] pushed] rec'].
    apply IH. exact Hn'.
Qed.

(** X6. Starting from the empty store, whatever a fluid's polls return,
    the baseline total kept in the store is never negative, and neither
    are the total, the daily value and the estimate for today that the
    next poll reports. *)
Theorem polls_never_negative (self : Entry) (key : string) (meta : FluidMeta)
    (before : list (RawEntry * date)) (raw_entry : RawEntry) (now_date : date)
    (rec0 : Recorder) :
  let reached := run_polls self key meta before empty_store rec0 in
  let data :=
    fst (fst (fst (update_fluid self key meta raw_entry now_date (fst reached)
                     (snd reached)))) in
  store_nonneg (fst reached)
  /\ (forall t, fd_last_total data = Some t -> (0 <= t)%Q)
  /\ (forall t, fd_total data = Some t -> (0 <= t)%Q)
  /\ (forall v, fd_daily data = Some v -> (0 <= v)%Q)
  /\ (forall e, fd_estimated_today data = Some e -> (0 <= e)%Q).
Proof.
  cbv zeta.
  pose proof (run_polls_nonneg self key meta before empty_store rec0 I) as Hn.
  set (reached := run_polls self key meta before empty_store rec0) in *.
  pose proof (update_fluid_nonneg_step self key meta raw_entry now_date
                (fst reached) (snd reached) Hn) as [Hn' Htot].
  pose proof (update_fluid_estimate self key meta raw_entry now_date
                (fst reached) (snd reached)) as (Hnone & Hd & Havg).
  pose proof (derive_daily_of_poll self (snd reached) key (unit meta) raw_entry
                now_date (fst reached)) as (_ & Hval & _).
  cbv zeta in Hn', Htot, Hnone, Hd, Havg, Hval.
  destruct (update_fluid_unfold self key meta raw_entry now_date (fst reached)
              (snd reached)) as (_ & Hdaily & _).
  cbv zeta in Hdaily. rewrite <- Hdaily in Hval.
  assert (forall v, fd_daily (fst (fst (fst (update_fluid self key meta
            raw_entry now_date (fst reached) (snd reached))))) = Some v ->
          (0 <= v)%Q) as Hdv by (intros v Hv; apply (Hval v Hv)).
  split; [exact Hn|]. split; [|split; [exact Htot|split; [exact Hdv|]]].
  - intros t Ht. unfold store_nonneg in Hn'.
    assert (fd_last_total (fst (fst (fst (update_fluid self key meta raw_entry
              now_date (fst reached) (snd reached)))))
            = st_last_total (snd (fst (fst (update_fluid self key meta
                raw_entry now_date (fst reached) (snd reached)))))) as Hl.
    { unfold update_fluid.
      destruct (value_status_of raw_entry now_date (fst reached)).
      destruct (estimate_today _ _ _ _). reflexivity. }
    rewrite <- Hl, Ht in Hn'. exact Hn'.
  - intros e He.
    destruct (fd_daily _) as [v|] eqn:Hv.
    + destruct (Hd v eq_refl) as [Hev _]. rewrite Hev in He.
      injection He as <-. apply Hdv. reflexivity.
    + destruct (fd_total _) as [t|] eqn:Ht.
      * destruct (Havg t eq_refl eq_refl) as [Hev _]. rewrite Hev in He.
        injection He as <-. apply round3_nonneg. apply Qle_shift_div_l.
        -- change 0%Q with (inject_Z 0). rewrite <- Zlt_Qlt.
           pose proof (day_ge_1 (effective_date (latest_date raw_entry)
                                   now_date)). lia.
        -- rewrite Qmult_0_l. apply Htot. reflexivity.
      * rewrite (proj2 Hnone eq_refl) in He. discriminate.
Qed.

End PollOutcome.
(** ** The recorder after a backfill or a correction *)

Section RecorderAfter.
Import PyDate Num Coordinator.

(** A row found after storing points was there before or is the row of
    one of the points. *)
Lemma store_points_inv (stats : list StatisticData) :
  forall (rows : gmap Z StatisticsRow) (d : date) (r : StatisticsRow),
  foldl (fun m p =>
           <[ sd_start p := {| row_state := Some (sd_state p);
                               row_sum := Some (sd_sum p) |} ]> m)
        rows stats !! d = Some r ->
  rows !! d = Some r \/ exists p, In p stats /\ sd_start p = d /\ r = {| row_state := Some (sd_state p);
                 row_sum := Some (sd_sum p) |}.
Proof.
  induction stats as [|p stats IH]; intros rows d r H; [left; exact H|].
  cbn [foldl] in H. apply IH in H as [H|(q & Hq & Hd & Hr)].
  - destruct (decide (sd_start p = d)) as [Heq|Hne].
    + rewrite Heq, lookup_insert_eq in H. injection H as <-.
      right. exists p. split; [left; reflexivity|]. split; [exact Heq|reflexivity].
    + rewrite lookup_insert_ne in H by exact Hne. left. exact H.
  - right. exists q. split; [right; exact Hq|]. split; assumption.
Qed.

(** The last point stored is found under its day. *)
Lemma store_points_last (stats : list StatisticData) (p : StatisticData)
    (rows : gmap Z StatisticsRow) :
  foldl (fun m p =>
           <[ sd_start p := {| row_state := Some (sd_state p);
                               row_sum := Some (sd_sum p) |} ]> m)
        rows (stats ++ [p]) !! sd_start p = Some {| row_state := Some (sd_state p); row_sum := Some (sd_sum p) |}.
Proof. rewrite foldl_app. cbn [foldl]. apply lookup_insert_eq. Qed.

(** The run of the backfill loop ends on the day [stats_start + n]. *)
Lemma range_stats_last (stats_start : date) (per_day : Q) (n : nat)
    (sum_value : Q) :
  (0 < n)%nat ->
  exists stats p,
    range_stats stats_start per_day 1 n sum_value = (stats ++ [p])%list
    /\ sd_start p = stats_start + Z.of_nat n.
Proof.
  intros Hn.
  set (l := range_stats stats_start per_day 1 n sum_value).
  pose proof (range_stats_length stats_start per_day n 1 sum_value) as Hlen.
  fold l in Hlen.
  destruct (exists_last (l:=l)) as (stats & p & Hl).
  { intros ->. cbn in Hlen. lia. }
  exists stats, p. split; [exact Hl|].
  assert (l !! length stats = Some p) as Hp.
  { rewrite Hl. rewrite lookup_app_r by lia.
    now replace (length stats - length stats)%nat with 0%nat by lia. }
  apply range_stats_lookup in Hp as (_ & Hs & _).
  rewrite Hl, length_app in Hlen. cbn in Hlen. lia.
Qed.

(** The last row of a series is determined by a row that no other row
    starts after. *)
Lemma last_row_unique (rows : gmap Z StatisticsRow) (d : date)
    (r : StatisticsRow) :
  rows !! d = Some r ->
  (forall d' r', rows !! d' = Some r' -> d' <= d) ->
  last_row rows = Some (d, r).
Proof.
  intros Hd Hmax. pose proof (last_row_spec rows) as H.
  destruct (last_row rows) as [[d0 r0]|].
  - destruct H as [H0 Hmax0].
    assert (d0 = d) as -> by (specialize (Hmax _ _ H0); specialize (Hmax0 _ _ Hd); lia).
    congruence.
  - subst rows. rewrite lookup_empty in Hd. discriminate.
Qed.

(** After a backfill that pushed points, the last row of the series is the
    row of the last point pushed, on the end date. *)
Lemma _update_statistics_range_last (self : Entry) (rec : Recorder)
    (key : string) (unit : option string) (start_date end_date : date)
    (per_day : Q) :
  let out :=
    _update_statistics_range self rec key unit start_date end_date per_day in
  out = ([], rec)
  \/ ((0 <= per_day)%Q
      /\ exists p,
        last (fst out) = Some p
        /\ sd_start p = end_date
        /\ _get_last_stat (snd out) (stat_id_of self key)
           = Some (end_date,
                   {| row_state := Some (sd_state p);
                      row_sum := Some (sd_sum p) |})).
Proof.
  cbv zeta.
  destruct (_update_statistics_range_cases self rec key unit start_date
              end_date per_day)
    as [->|(Hpos & Hspan & metadata & Hsid & ->)]; [left; reflexivity|].
  right. split; [exact Hpos|]. cbn [fst snd].
  set (lst := _get_last_stat rec (stat_id_of self key)) in *.
  set (base := backfill_base lst start_date) in *.
  destruct (range_stats_last base per_day (Z.to_nat (end_date - base))
              (backfill_seed lst)) as (stats & p & Hl & Hp); [lia|].
  rewrite Z2Nat.id in Hp by lia.
  exists p. rewrite Hl. split; [apply last_snoc|]. split; [lia|].
  unfold _get_last_stat, async_add_external_statistics.
  rewrite Hsid, lookup_insert_eq.
  apply last_row_unique.
  - replace end_date with (sd_start p) by lia. apply store_points_last.
  - intros d' r' H'. apply store_points_inv in H' as [H'|(q & Hq & Hd & _)].
    + destruct (rec !! stat_id_of self key) as [rows|] eqn:Hrows;
        [|cbn in H'; rewrite lookup_empty in H'; discriminate].
      cbn [default] in H'.
      destruct (_get_last_stat_latest rec _ rows d' r' Hrows H')
        as (d0 & r0 & Hl0 & Hle).
      fold lst in Hl0. unfold base, backfill_base in Hspan.
      rewrite Hl0 in Hspan. lia.
    + rewrite <- Hl in Hq. apply list_elem_of_In, list_elem_of_lookup in Hq
        as (i & Hi).
      apply range_stats_lookup in Hi as (Hlt & Hs & _). lia.
Qed.

(** X7. After a backfill that pushed points, the last point the recorder
    holds for the fluid is the last point of the batch: it is dated the end
    date of the backfill and carries the per-day value as state and the
    final running sum. *)
Theorem backfill_then_last_stat (self : Entry) (rec : Recorder) (key : string)
    (unit : option string) (start_date end_date : date) (per_day : Q) :
  let out :=
    _update_statistics_range self rec key unit start_date end_date per_day in
  fst out <> [] ->
  exists p,
    last (fst out) = Some p
    /\ sd_start p = end_date
    /\ _get_last_stat (snd out) (stat_id_of self key)
       = Some (end_date,
               {| row_state := Some (sd_state p);
                  row_sum := Some (sd_sum p) |}).
Proof.
  cbv zeta. intros Hne.
  destruct (_update_statistics_range_last self rec key unit start_date end_date
              per_day) as [Hnone|[_ H]]; [|exact H].
  rewrite Hnone in Hne. now contradiction Hne.
Qed.

Lemma backfill_then_last_stat_witness :
  exists p,
    last (fst (_update_statistics_range Examples.self0
                 (Examples.one_row (mk 2024 3 10) 3 10) "eau_froide"
                 (Some "L") (mk 2024 3 10) (mk 2024 3 13) 10)) = Some p
    /\ sd_start p = mk 2024 3 13
    /\ _get_last_stat
         (snd (_update_statistics_range Examples.self0
                 (Examples.one_row (mk 2024 3 10) 3 10) "eau_froide"
                 (Some "L") (mk 2024 3 10) (mk 2024 3 13) 10))
         (stat_id_of Examples.self0 "eau_froide")
       = Some (mk 2024 3 13,
               {| row_state := Some (sd_state p);
                  row_sum := Some (sd_sum p) |}).
Proof.
  refine (backfill_then_last_stat Examples.self0
            (Examples.one_row (mk 2024 3 10) 3 10) "eau_froide" (Some "L")
            (mk 2024 3 10) (mk 2024 3 13) 10 _).
  vm_compute. discriminate.
Defined.



(** Two fluids of one entry never share a statistic id. *)
Lemma stat_id_of_inj (self : Entry) (key key' : string) :
  stat_id_of self key = stat_id_of self key' -> key = key'.
Proof.
  unfold stat_id_of.
  assert (forall a b c : string,
            String.append a b = String.append a c -> b = c) as Happ.
  { induction a as [|ch a IH]; intros b c H; [exact H|].
    cbn in H. injection H as H. now apply IH. }
  intros H. now do 4 apply Happ in H.
Qed.

(** The recorder the daily derivation leaves differs from the one it found
    at most in the series of its fluid. *)
Lemma derive_daily_frame (self : Entry) (rec : Recorder) (key : string)
    (unit : option string) (value_status : ValueStatus)
    (value_used current_total : option Q) (current_date : date)
    (last_total : option Q) (last_total_at : option date) (sid : string) :
  sid <> stat_id_of self key ->
  dl_rec (derive_daily self rec key unit value_status value_used current_total
            current_date last_total last_total_at) !! sid = rec !! sid.
Proof.
  intros Hsid.
  assert (forall metadata stats,
            statistic_id metadata = stat_id_of self key ->
            async_add_external_statistics rec metadata stats !! sid
            = rec !! sid) as Hadd.
  { intros metadata stats Hm. unfold async_add_external_statistics.
    apply lookup_insert_ne. congruence. }
  unfold derive_daily.
  destruct (ValueStatus_eqb value_status v_stale); [reflexivity|].
  destruct (negb _); [destruct value_used; reflexivity|].
  destruct last_total as [lt|]; [|reflexivity].
  destruct last_total_at as [lat|]; [|reflexivity].
  destruct current_total as [ct|]; [|reflexivity].
  destruct (current_date =? lat).
  - destruct (Qltb (ct - lt) 0); [reflexivity|].
    destruct (Qeq_bool (ct - lt) 0); [reflexivity|].
    destruct (_update_statistics_correction_cases self rec key unit
                current_date (ct - lt)%Q)
      as [->|(row & metadata & _ & _ & Hm & _ & ->)]; cbn [dl_rec];
      [reflexivity | now apply Hadd].
  - destruct (reset_window ct lt current_date lat) as [[delta src] start].
    destruct (_ && Qeq_bool delta 0); [reflexivity|].
    destruct (_ && Qle_bool 0 delta); [|destruct (_ && _); reflexivity].
    destruct (_update_statistics_range_cases self rec key unit start
                current_date
                (round3 (delta / inject_Z (days_between current_date start))))
      as [->|(_ & _ & metadata & Hm & ->)]; cbn [dl_rec];
      [reflexivity | now apply Hadd].
Qed.

(** X10. The poll of one fluid touches no statistics but its own: the
    series stored under any other statistic id, in particular that of any
    other fluid of the entry, is afterwards what it was, and so is the last
    point [_get_last_stat] finds there. *)
Theorem poll_keeps_other_series (self : Entry) (key : string)
    (meta : FluidMeta) (raw_entry : RawEntry) (now_date : date)
    (fluid_store : FluidStore) (rec : Recorder) :
  let rec' :=
    snd (update_fluid self key meta raw_entry now_date fluid_store rec) in
  (forall sid, sid <> stat_id_of self key -> rec' !! sid = rec !! sid)
  /\ (forall key', key' <> key ->
        _get_last_stat rec' (stat_id_of self key')
        = _get_last_stat rec (stat_id_of self key')).
Proof.
  cbv zeta.
  destruct (update_fluid_unfold self key meta raw_entry now_date fluid_store rec)
    as (_ & _ & _ & _ & _ & _ & ->).
  split.
  - intros sid Hsid. now apply derive_daily_frame.
  - intros key' Hkey. unfold _get_last_stat.
    rewrite derive_daily_frame; [reflexivity|].
    intros H. apply stat_id_of_inj in H. contradiction.
Qed.

End RecorderAfter.
(** ** The fluids of a poll are reconciled independently *)

Section Independence.
Import PyDate Num Coordinator.

(** Storing the same points in two recorders that agree on the series of
    the metadata makes them agree on it afterwards. *)
Lemma async_add_local (rec1 rec2 : Recorder) (metadata : StatisticMetaData)
    (stats : list StatisticData) :
  rec1 !! statistic_id metadata = rec2 !! statistic_id metadata ->
  async_add_external_statistics rec1 metadata stats !! statistic_id metadata
  = async_add_external_statistics rec2 metadata stats !! statistic_id metadata.
Proof.
  intros H. unfold async_add_external_statistics.
  now rewrite !lookup_insert_eq, H.
Qed.

(** The backfill reads and writes the recorder only in the series of its
    fluid. *)
Lemma _update_statistics_range_local (self : Entry) (rec1 rec2 : Recorder)
    (key : string) (unit : option string) (start_date end_date : date)
    (per_day : Q) :
  rec1 !! stat_id_of self key = rec2 !! stat_id_of self key ->
  let out1 :=
    _update_statistics_range self rec1 key unit start_date end_date per_day in
  let out2 :=
    _update_statistics_range self rec2 key unit start_date end_date per_day in
  fst out1 = fst out2
  /\ snd out1 !! stat_id_of self key = snd out2 !! stat_id_of self key.
Proof.
  intros H. cbv zeta. unfold _update_statistics_range, _get_last_stat.
  rewrite H.
  destruct (Qltb per_day 0); [split; [reflexivity | exact H]|].
  destruct (_ <=? 0); [split; [reflexivity | exact H]|].
  destruct (range_stats _ _ _ _ _) as [|p stats];
    [split; [reflexivity | exact H]|].
  destruct (_get_statistics_metadata self (stat_id_of self key) _ unit)
    as [metadata|] eqn:Hm; [|split; [reflexivity | exact H]].
  apply metadata_statistic_id in Hm. cbn [fst snd].
  split; [reflexivity|]. rewrite <- Hm in *. now apply async_add_local.
Qed.

(** So does the same-day correction. *)
Lemma _update_statistics_correction_local (self : Entry) (rec1 rec2 : Recorder)
    (key : string) (unit : option string) (day : date) (delta : Q) :
  rec1 !! stat_id_of self key = rec2 !! stat_id_of self key ->
  let out1 := _update_statistics_correction self rec1 key unit day delta in
  let out2 := _update_statistics_correction self rec2 key unit day delta in
  fst out1 = fst out2
  /\ snd out1 !! stat_id_of self key = snd out2 !! stat_id_of self key.
Proof.
  intros H. cbv zeta. unfold _update_statistics_correction, _get_last_stat.
  rewrite H.
  destruct (Qle_bool delta 0); [split; [reflexivity | exact H]|].
  destruct (match rec2 !! stat_id_of self key with
            | Some rows => last_row rows
            | None => None
            end) as [[d row]|]; [|split; [reflexivity | exact H]].
  destruct (negb _); [split; [reflexivity | exact H]|].
  destruct (Qltb _ 0); [split; [reflexivity | exact H]|].
  destruct (_get_statistics_metadata self (stat_id_of self key) _ unit)
    as [metadata|] eqn:Hm; [|split; [reflexivity | exact H]].
  apply metadata_statistic_id in Hm. cbn [fst snd].
  split; [reflexivity|]. rewrite <- Hm in *. now apply async_add_local.
Qed.

(** What a poll of a fluid reports, stores and pushes depends on the
    recorder only through the series of that fluid. *)
Lemma update_fluid_local (self : Entry) (key : string) (meta : FluidMeta)
    (raw_entry : RawEntry) (now_date : date) (fluid_store : FluidStore)
    (rec1 rec2 : Recorder) :
  rec1 !! stat_id_of self key = rec2 !! stat_id_of self key ->
  let out1 := update_fluid self key meta raw_entry now_date fluid_store rec1 in
  let out2 := update_fluid self key meta raw_entry now_date fluid_store rec2 in
  fst out1 = fst out2
  /\ snd out1 !! stat_id_of self key = snd out2 !! stat_id_of self key.
Proof.
  intros H. cbv zeta. unfold update_fluid.
  destruct (value_status_of raw_entry now_date fluid_store) as [vu vs].
  set (cd := effective_date (latest_date raw_entry) now_date).
  set (d1 := derive_daily self rec1 key (unit meta) vs vu
               (latest_value raw_entry) cd (st_last_total fluid_store)
               (st_last_total_at fluid_store)).
  set (d2 := derive_daily self rec2 key (unit meta) vs vu
               (latest_value raw_entry) cd (st_last_total fluid_store)
               (st_last_total_at fluid_store)).
  assert (dl_value d1 = dl_value d2 /\ dl_status d1 = dl_status d2
          /\ dl_source d1 = dl_source d2 /\ dl_pushed d1 = dl_pushed d2
          /\ dl_rec d1 !! stat_id_of self key = dl_rec d2 !! stat_id_of self key)
    as (Hv & Hst & Hsrc & Hp & Hr).
  { subst d1 d2. unfold derive_daily.
    destruct (ValueStatus_eqb vs v_stale); [repeat split; exact H|].
    destruct (negb _); [destruct vu; repeat split; exact H|].
    destruct (st_last_total fluid_store) as [lt|]; [|repeat split; exact H].
    destruct (st_last_total_at fluid_store) as [lat|]; [|repeat split; exact H].
    destruct (latest_value raw_entry) as [ct|]; [|repeat split; exact H].
    destruct (cd =? lat).
    - destruct (Qltb (ct - lt) 0); [repeat split; exact H|].
      destruct (Qeq_bool (ct - lt) 0); [repeat split; exact H|].
      pose proof (_update_statistics_correction_local self rec1 rec2 key
                    (unit meta) cd (ct - lt)%Q H) as [Hf Hs].
      cbv zeta in Hf, Hs.
      destruct (_update_statistics_correction self rec1 key (unit meta) cd _)
        as [[c1 p1] r1].
      destruct (_update_statistics_correction self rec2 key (unit meta) cd _)
        as [[c2 p2] r2].
      cbn [fst snd] in Hf, Hs. injection Hf as -> ->.
      repeat split. exact Hs.
    - destruct (reset_window ct lt cd lat) as [[delta src] start].
      destruct (_ && Qeq_bool delta 0); [repeat split; exact H|].
      destruct (_ && Qle_bool 0 delta);
        [|destruct (_ && _); repeat split; exact H].
      pose proof (_update_statistics_range_local self rec1 rec2 key (unit meta)
                    start cd
                    (round3 (delta / inject_Z (days_between cd start))) H)
        as [Hf Hs].
      cbv zeta in Hf, Hs.
      destruct (_update_statistics_range self rec1 key (unit meta) start cd _)
        as [p1 r1].
      destruct (_update_statistics_range self rec2 key (unit meta) start cd _)
        as [p2 r2].
      cbn [fst snd] in Hf, Hs. subst p2.
      repeat split. exact Hs. }
  rewrite Hv, Hsrc, Hst, Hp.
  destruct (estimate_today _ _ _ _). cbn [fst snd]. split; [reflexivity|exact Hr].
Qed.

(** A poll of a fluid leaves the series of the other statistic ids as
    they were. *)
Lemma update_fluid_frame (self : Entry) (key : string) (meta : FluidMeta)
    (raw_entry : RawEntry) (now_date : date) (fluid_store : FluidStore)
    (rec : Recorder) (sid : string) :
  sid <> stat_id_of self key ->
  snd (update_fluid self key meta raw_entry now_date fluid_store rec) !! sid
  = rec !! sid.
Proof.
  intros Hsid.
  destruct (update_fluid_unfold self key meta raw_entry now_date fluid_store rec)
    as (_ & _ & _ & _ & _ & _ & ->).
  now apply derive_daily_frame.
Qed.

(** The loop of [_async_update_data] over any fluids with distinct keys,
    started from an accumulator that agrees with [store_fluids] and [rec]
    on those fluids. *)
Lemma poll_loop_independent (self : Entry) (raw : gmap string RawEntry)
    (now_date : date) (store_fluids : gmap string FluidStore) (rec : Recorder)
    (l : list (string * FluidMeta)) :
  let one km :=
    update_fluid self (fst km) (snd km) (default empty_entry (raw !! fst km))
      now_date (default empty_store (store_fluids !! fst km)) rec in
  NoDup (fst <$> l) ->
  forall (fluids0 : gmap string FluidData) (store0 : gmap string FluidStore)
         (pushed0 : list StatisticData) (rec0 : Recorder),
  (forall km, km ∈ l ->
     store0 !! fst km = store_fluids !! fst km
     /\ rec0 !! stat_id_of self (fst km) = rec !! stat_id_of self (fst km)) ->
  let out :=
    foldl
      (fun (acc : gmap string FluidData * gmap string FluidStore
                   * list StatisticData * Recorder) km =>
         let '(fluids, store_fluids, pushed, rec) := acc in
         let key := fst km in
         let meta := snd km in
         let raw_entry := default empty_entry (raw !! key) in
         let fluid_store := default empty_store (store_fluids !! key) in
         let '(data, fluid_store', batch, rec') :=
           update_fluid self key meta raw_entry now_date fluid_store rec in
         (<[ key := data ]> fluids, <[ key := fluid_store' ]> store_fluids,
          (pushed ++ batch)%list, rec'))
      (fluids0, store0, pushed0, rec0) l in
  (forall km, km ∈ l ->
     fst (fst (fst out)) !! fst km = Some (fst (fst (fst (one km))))
     /\ snd (fst (fst out)) !! fst km = Some (snd (fst (fst (one km))))
     /\ snd out !! stat_id_of self (fst km)
        = snd (one km) !! stat_id_of self (fst km))
  /\ (forall key, key ∉ fst <$> l ->
        fst (fst (fst out)) !! key = fluids0 !! key
        /\ snd (fst (fst out)) !! key = store0 !! key
        /\ snd out !! stat_id_of self key = rec0 !! stat_id_of self key)
  /\ snd (fst out) = (pushed0 ++ mjoin ((fun km => snd (fst (one km))) <$> l))%list
  /\ (forall sid, (forall km, km ∈ l -> sid <> stat_id_of self (fst km)) ->
        snd out !! sid = rec0 !! sid).
Proof.
  cbv zeta.
  induction l as [|[k m] l IH]; intros Hnd fluids0 store0 pushed0 rec0 Hagree.
  { cbn [foldl fst snd fmap list_fmap mjoin list_join].
    rewrite app_nil_r.
    split; [intros km Hin; inversion Hin|].
    split; [intros key _; repeat split|].
    split; [reflexivity|]. intros sid _. reflexivity. }
  cbn [fmap list_fmap] in Hnd. apply NoDup_cons in Hnd as [Hk Hnd].
  cbn [foldl fst snd].
  destruct (Hagree (k, m) (list_elem_of_here _ _)) as [Hs0 Hr0].
  cbn [fst] in Hs0, Hr0. rewrite Hs0.
  pose proof (update_fluid_local self k m (default empty_entry (raw !! k))
                now_date (default empty_store (store_fluids !! k)) rec0 rec Hr0)
    as [Hfst Hrec].
  cbv zeta in Hfst, Hrec.
  pose proof (fun sid => update_fluid_frame self k m
                (default empty_entry (raw !! k)) now_date
                (default empty_store (store_fluids !! k)) rec0 sid) as Hframe.
  destruct (update_fluid self k m (default empty_entry (raw !! k)) now_date
              (default empty_store (store_fluids !! k)) rec0)
    as [[[data store1] batch] rec1].
  cbn [fst snd] in Hfst, Hrec, Hframe.
  assert (forall km, km ∈ l -> fst km <> k) as Hdiff.
  { intros km Hin Heq. apply Hk. rewrite <- Heq.
    apply list_elem_of_fmap. exists km. split; [reflexivity | exact Hin]. }
  assert (forall key, key <> k ->
            stat_id_of self key <> stat_id_of self k) as Hsid
    by (intros key Hne H; apply Hne; exact (stat_id_of_inj _ _ _ H)).
  specialize (IH Hnd (<[k:=data]> fluids0) (<[k:=store1]> store0)
                (pushed0 ++ batch)%list rec1).
  destruct IH as (Hin & Hout & Hpushed & Hother).
  { intros km Hkm. specialize (Hdiff km Hkm).
    destruct (Hagree km (list_elem_of_further _ _ _ Hkm)) as [Hs Hr].
    split.
    - rewrite lookup_insert_ne by congruence. exact Hs.
    - rewrite Hframe by (apply Hsid; exact Hdiff). exact Hr. }
  split; [|split; [|split]].
  - intros km Hkm. apply elem_of_cons in Hkm as [->|Hkm];
      [|exact (Hin km Hkm)].
    cbn [fst snd].
    destruct (Hout k Hk) as (Hf & Hs & Hr).
    rewrite Hf, Hs, Hr, !lookup_insert_eq, <- Hfst, Hrec. repeat split.
  - intros key Hkey. cbn [fmap list_fmap fst] in Hkey.
    apply not_elem_of_cons in Hkey as [Hne Hkey].
    destruct (Hout key Hkey) as (Hf & Hs & Hr).
    rewrite Hf, Hs, Hr, !lookup_insert_ne by congruence.
    repeat split. apply Hframe. apply Hsid. exact Hne.
  - rewrite Hpushed. cbn [fmap list_fmap mjoin list_join fst snd].
    rewrite <- Hfst. cbn [fst snd]. now rewrite app_assoc.
  - intros sid Hsidne. rewrite Hother.
    + apply Hframe. exact (Hsidne (k, m) (list_elem_of_here _ _)).
    + intros km Hkm. apply Hsidne. now apply list_elem_of_further.
Qed.

(** X11. The fluids of a poll are reconciled independently of each other
    and of their order: for each fluid of [FLUIDS], what the poll reports,
    what it stores as baseline and what it leaves in the fluid's series of
    the recorder is what reconciling that fluid alone, against the store and
    the recorder as they were before the poll, gives.  The points pushed
    are those of the fluids, in the order of [FLUIDS]; no other key is
    reported; the store entries of other keys and the series of other
    statistic ids are left as they were. *)
Theorem whole_poll_per_fluid (self : Entry) (raw : gmap string RawEntry)
    (now_date : date) (store_fluids : gmap string FluidStore) (rec : Recorder) :
  let out := _async_update_data self raw now_date store_fluids rec in
  let one km :=
    update_fluid self (fst km) (snd km) (default empty_entry (raw !! fst km))
      now_date (default empty_store (store_fluids !! fst km)) rec in
  (forall key meta, In (key, meta) FLUIDS ->
     fst (fst (fst out)) !! key = Some (fst (fst (fst (one (key, meta)))))
     /\ snd (fst (fst out)) !! key = Some (snd (fst (fst (one (key, meta)))))
     /\ snd out !! stat_id_of self key
        = snd (one (key, meta)) !! stat_id_of self key)
  /\ (forall key, (forall meta, ~ In (key, meta) FLUIDS) ->
        fst (fst (fst out)) !! key = None
        /\ snd (fst (fst out)) !! key = store_fluids !! key)
  /\ snd (fst out) = mjoin ((fun km => snd (fst (one km))) <$> FLUIDS)
  /\ (forall sid,
        (forall key meta, In (key, meta) FLUIDS -> sid <> stat_id_of self key) ->
        snd out !! sid = rec !! sid).
Proof.
  cbv zeta. unfold _async_update_data.
  destruct (poll_loop_independent self raw now_date store_fluids rec FLUIDS)
    with (fluids0 := (∅ : gmap string FluidData)) (store0 := store_fluids)
         (pushed0 := @nil StatisticData) (rec0 := rec)
    as (Hin & Hout & Hpushed & Hother).
  { unfold FLUIDS. cbn [fmap list_fmap fst].
    repeat (apply NoDup_cons; split;
            [rewrite ?elem_of_cons, elem_of_nil; intros H;
             repeat (destruct H as [H|H]; try discriminate); exact H|]).
    apply NoDup_nil_2. }
  { intros km _. split; reflexivity. }
  split; [|split; [|split]].
  - intros key meta Hkm. apply list_elem_of_In in Hkm.
    exact (Hin (key, meta) Hkm).
  - intros key Hkey.
    assert (key ∉ fst <$> FLUIDS) as Hnot.
    { intros H. apply list_elem_of_fmap in H as ([k m] & -> & Hkm).
      apply list_elem_of_In in Hkm. exact (Hkey m Hkm). }
    destruct (Hout key Hnot) as (Hf & Hs & _).
    split; [etransitivity; [exact Hf | apply lookup_empty] | exact Hs].
  - exact Hpushed.
  - intros sid Hsid. apply Hother. intros [k m] Hkm.
    apply list_elem_of_In in Hkm. exact (Hsid k m Hkm).
Qed.

End Independence.
(** ** The fetch errors of a poll and the retry counter *)

Section AuthRetry.
Import PyDate Num Coordinator Update.

Variables AUTH_RETRY_MAX AUTH_RETRY_DELAY_SECONDS : Z.

(** A poll schedules a retry only on an HTTP 401 met below the limit, and
    then counts it; the counter never leaves the range it is in. *)
Lemma _async_update_data_count (self : Entry) (st : CoordinatorState)
    (fetched : FetchOutcome) (now_date : date) :
  let out :=
    Update._async_update_data AUTH_RETRY_MAX AUTH_RETRY_DELAY_SECONDS self st
      fetched now_date in
  let count := _auth_retry_count st in
  let count' := _auth_retry_count (snd (fst out)) in
  is_retry (fst (fst out)) = is_401 fetched && (count <? AUTH_RETRY_MAX)
  /\ (is_retry (fst (fst out)) = true -> count' = count + 1)
  /\ (is_retry (fst (fst out)) = false ->
      (count' = 0 /\ is_401 fetched = false)
      \/ (count' = count
          /\ (is_401 fetched = true /\ AUTH_RETRY_MAX <= count
              \/ fetched = OtherError))).
Proof.
  cbv zeta. unfold Update._async_update_data.
  destruct fetched as [raw|message|]; cbn [is_401].
  - destruct (Coordinator._async_update_data self raw now_date _ _)
      as [[[fluids store'] pushed] rec'].
    cbn. repeat split; auto. discriminate.
  - destruct (Client.contains "HTTP 401" message); cbn [andb].
    + destruct (Z.ltb_spec (_auth_retry_count st) AUTH_RETRY_MAX);
        cbn; repeat split; auto; discriminate.
    + cbn. repeat split; auto. discriminate.
  - cbn. repeat split; auto. discriminate.
Qed.

(** A poll whose fetch failed reports no data, pushes nothing, and leaves
    the store and the recorder as they were. *)
Lemma _async_update_data_failed (self : Entry) (st : CoordinatorState)
    (fetched : FetchOutcome) (now_date : date) :
  let out :=
    Update._async_update_data AUTH_RETRY_MAX AUTH_RETRY_DELAY_SECONDS self st
      fetched now_date in
  (forall raw, fetched <> Fetched raw) ->
  (exists failure, fst (fst out) = inl failure)
  /\ snd out = []
  /\ _store_data (snd (fst out)) = _store_data st
  /\ recorder (snd (fst out)) = recorder st.
Proof.
  cbv zeta. intros Hfail. unfold Update._async_update_data.
  destruct fetched as [raw|message|].
  - now contradiction (Hfail raw).
  - destruct (Client.contains "HTTP 401" message);
      [destruct (_ <? _)|]; cbn; eauto.
  - cbn. eauto.
Qed.

(** X12. Over any sequence of polls, the retry counter stays between 0
    and [AUTH_RETRY_MAX] once it is there, every poll has its outcome, and
    a retry is scheduled only by a poll whose fetch failed with HTTP 401. *)
Theorem auth_retry_count_bounded (self : Entry)
    (fetches : list (FetchOutcome * date)) (st : CoordinatorState) :
  let out :=
    run_updates AUTH_RETRY_MAX AUTH_RETRY_DELAY_SECONDS self st fetches in
  0 <= _auth_retry_count st <= AUTH_RETRY_MAX ->
  0 <= _auth_retry_count (snd out) <= AUTH_RETRY_MAX
  /\ length (fst out) = length fetches
  /\ (forall (i : nat) outcome,
        fst out !! i = Some outcome -> is_retry outcome = true ->
        exists fetched now_date,
          fetches !! i = Some (fetched, now_date) /\ is_401 fetched = true).
Proof.
  cbv zeta. revert st.
  induction fetches as [|[fetched now_date] fetches IH]; intros st Hc.
  { cbn. split; [exact Hc|]. split; [reflexivity|]. intros i o H. discriminate. }
  cbn [run_updates].
  pose proof (_async_update_data_count self st fetched now_date)
    as (Hr & Hinc & Hkeep).
  cbv zeta in Hr, Hinc, Hkeep.
  destruct (Update._async_update_data AUTH_RETRY_MAX AUTH_RETRY_DELAY_SECONDS
              self st fetched now_date) as [[outcome st'] pushed].
  cbn [fst snd] in Hr, Hinc, Hkeep.
  assert (0 <= _auth_retry_count st' <= AUTH_RETRY_MAX) as Hc'.
  { destruct (is_retry outcome) eqn:Ho.
    - rewrite (Hinc eq_refl). symmetry in Hr.
      apply andb_true_iff in Hr as [_ Hlt]. apply Z.ltb_lt in Hlt. lia.
    - destruct (Hkeep eq_refl) as [[-> _]|[-> _]]; lia. }
  specialize (IH st' Hc').
  destruct (run_updates AUTH_RETRY_MAX AUTH_RETRY_DELAY_SECONDS self st' fetches)
    as [outcomes st''].
  cbn [fst snd] in IH |- *. destruct IH as (Hb & Hlen & Hret).
  split; [exact Hb|]. split; [cbn [length]; now rewrite Hlen|].
  intros [|i] o Ho Hretry.
  - injection Ho as <-. exists fetched, now_date. split; [reflexivity|].
    rewrite Hretry in Hr. symmetry in Hr. now apply andb_true_iff in Hr.
  - exact (Hret i o Ho Hretry).
Qed.

(** X13. When every fetch of a run of polls fails with HTTP 401, the
    polls schedule a retry until the counter reaches [AUTH_RETRY_MAX] and
    none after that: poll number [i] of the run (from 0), started with the
    counter at [c], schedules one exactly when [c + i < AUTH_RETRY_MAX].
    The counter ends at [AUTH_RETRY_MAX], or at [c] plus the number of
    polls when that is less; store and recorder are left as they were. *)
Theorem auth_retry_run_of_401 (self : Entry)
    (fetches : list (FetchOutcome * date)) (st : CoordinatorState) :
  let out :=
    run_updates AUTH_RETRY_MAX AUTH_RETRY_DELAY_SECONDS self st fetches in
  Forall (fun f => is_401 (fst f) = true) fetches ->
  _auth_retry_count st <= AUTH_RETRY_MAX ->
  (forall (i : nat) outcome,
     fst out !! i = Some outcome ->
     is_retry outcome = (_auth_retry_count st + Z.of_nat i <? AUTH_RETRY_MAX))
  /\ _auth_retry_count (snd out)
     = Z.min AUTH_RETRY_MAX (_auth_retry_count st + Z.of_nat (length fetches))
  /\ _store_data (snd out) = _store_data st
  /\ recorder (snd out) = recorder st.
Proof.
  cbv zeta. revert st.
  induction fetches as [|[fetched now_date] fetches IH]; intros st Hall Hc.
  { cbn [run_updates fst snd length]. split; [intros i o H; discriminate|].
    split; [lia|]. split; reflexivity. }
  inversion Hall as [|? ? H401 Hrest]; subst. cbn [fst] in H401.
  cbn [run_updates].
  pose proof (_async_update_data_count self st fetched now_date)
    as (Hr & Hinc & Hkeep).
  pose proof (_async_update_data_failed self st fetched now_date)
    as Hfailed.
  cbv zeta in Hr, Hinc, Hkeep, Hfailed.
  destruct Hfailed as (_ & _ & Hstore & Hrec).
  { intros raw ->. discriminate. }
  destruct (Update._async_update_data AUTH_RETRY_MAX AUTH_RETRY_DELAY_SECONDS
              self st fetched now_date) as [[outcome st'] pushed].
  cbn [fst snd] in Hr, Hinc, Hkeep, Hstore, Hrec.
  rewrite H401 in Hr. cbn [andb] in Hr.
  assert (_auth_retry_count st'
          = Z.min AUTH_RETRY_MAX (_auth_retry_count st + 1)) as Hc'.
  { destruct (Z.ltb_spec (_auth_retry_count st) AUTH_RETRY_MAX) as [Hlt|Hge].
    - rewrite (Hinc Hr). lia.
    - destruct (Hkeep Hr) as [[_ H0]|[Hsame [[_ _]|Hother]]];
        [congruence | lia | subst fetched; discriminate]. }
  specialize (IH st' Hrest ltac:(lia)).
  destruct (run_updates AUTH_RETRY_MAX AUTH_RETRY_DELAY_SECONDS self st' fetches)
    as [outcomes st''].
  cbn [fst snd] in IH |- *. destruct IH as (Hret & Hcount & Hs & Hre).
  split; [|split; [|split; congruence]].
  - intros [|i] o Ho.
    + injection Ho as <-. rewrite Hr. now rewrite Z.add_0_r.
    + rewrite (Hret i o Ho), Hc'.
      destruct (Z.ltb_spec (_auth_retry_count st) AUTH_RETRY_MAX);
        destruct (Z.ltb_spec (Z.min AUTH_RETRY_MAX (_auth_retry_count st + 1)
                                + Z.of_nat i) AUTH_RETRY_MAX);
        destruct (Z.ltb_spec (_auth_retry_count st + Z.of_nat (S i))
                    AUTH_RETRY_MAX); try reflexivity; lia.
  - rewrite Hcount, Hc'. cbn [length]. lia.
Qed.

End AuthRetry.

Lemma auth_retry_count_bounded_witness :
  0 <= Update._auth_retry_count
         (snd (Update.run_updates 3 60 Examples.self0
                 {| Update._auth_retry_count := 0; Update._store_data := ∅;
                    Update.recorder := ∅ |}
                 [ (Update.AuthError "HTTP 401 for /api", PyDate.mk 2024 3 10);
                   (Update.OtherError, PyDate.mk 2024 3 10);
                   (Update.AuthError "HTTP 500 for /api", PyDate.mk 2024 3 11) ]))
  <= 3.
Proof.
  refine (proj1 (auth_retry_count_bounded 3 60 Examples.self0 _
                   {| Update._auth_retry_count := 0; Update._store_data := ∅;
                      Update.recorder := ∅ |} _)).
  cbn. lia.
Defined.

Lemma auth_retry_run_of_401_witness :
  Update._auth_retry_count
    (snd (Update.run_updates 3 60 Examples.self0
            {| Update._auth_retry_count := 0; Update._store_data := ∅;
               Update.recorder := ∅ |}
            (repeat (Update.AuthError "HTTP 401 for /api", PyDate.mk 2024 3 10)
               5)))
  = Z.min 3 (0 + 5).
Proof.
  refine (proj1 (proj2
            (auth_retry_run_of_401 3 60 Examples.self0
               (repeat (Update.AuthError "HTTP 401 for /api",
                        PyDate.mk 2024 3 10) 5)
               {| Update._auth_retry_count := 0; Update._store_data := ∅;
                  Update.recorder := ∅ |} _ _))).
  - repeat (constructor; [reflexivity|]). constructor.
  - cbn. lia.
Defined.
(** ** More on the payload of a consumption query *)

Section PayloadOrder.
Import Num Client.

Variable float_of_str : string -> option Q.
Variable repr : pyval -> string.

Lemma leb_cases (a b : string) :
  String.leb a b = true <-> a = b \/ OrderedTypeEx.String_as_OT.lt a b.
Proof.
  unfold String.leb.
  pose proof (OrderedTypeEx.String_as_OT.cmp_eq a b) as He.
  pose proof (OrderedTypeEx.String_as_OT.cmp_lt a b) as Hl.
  pose proof (OrderedTypeEx.String_as_OT.cmp_lt b a) as Hg.
  pose proof (String.compare_antisym b a) as Ha.
  unfold OrderedTypeEx.String_as_OT.cmp in *.
  destruct (String.compare a b) eqn:E; split; intros H; try tauto;
    try discriminate.
  exfalso. cbn in Ha. apply Hg in Ha.
  destruct H as [->|H].
  - exact (OrderedTypeEx.String_as_OT.lt_not_eq _ _ Ha eq_refl).
  - exact (OrderedTypeEx.String_as_OT.lt_not_eq _ _
             (OrderedTypeEx.String_as_OT.lt_trans _ _ _ H Ha) eq_refl).
Qed.

Lemma leb_trans (a b c : string) :
  String.leb a b = true -> String.leb b c = true -> String.leb a c = true.
Proof.
  rewrite !leb_cases. intros [->|H1] [->|H2]; auto.
  right. exact (OrderedTypeEx.String_as_OT.lt_trans _ _ _ H1 H2).
Qed.

Lemma ltb_leb (a b : string) : String.ltb a b = true -> String.leb a b = true.
Proof. unfold String.ltb, String.leb. now destruct (String.compare a b). Qed.

Lemma not_ltb_leb (a b : string) :
  String.ltb a b = false -> String.leb b a = true.
Proof.
  unfold String.ltb, String.leb. rewrite (String.compare_antisym a b).
  now destruct (String.compare b a).
Qed.

(** Insertion keeps a list sorted by date: no record is followed by one
    with a smaller date. *)
Lemma insert_by_date_sorted (x : Conso) (l : list Conso) :
  Sorted.StronglySorted
    (fun x y => String.leb (date_key x) (date_key y) = true) l -> Sorted.StronglySorted
    (fun x y => String.leb (date_key x) (date_key y) = true) (insert_by_date x l).
Proof.
  induction 1 as [|y l Hs IH Hall]; cbn [insert_by_date].
  - repeat constructor.
  - destruct (String.ltb (date_key y) (date_key x)) eqn:E.
    + constructor; [exact IH|].
      apply List.Forall_forall. intros z Hz.
      apply insert_by_date_In in Hz as [->|Hz].
      * now apply ltb_leb.
      * exact (proj1 (List.Forall_forall _ _) Hall z Hz).
    + apply not_ltb_leb in E.
      constructor; [constructor; assumption|].
      constructor; [exact E|].
      eapply List.Forall_impl; [|exact Hall].
      intros z Hz. exact (leb_trans _ _ _ E Hz).
Qed.

Lemma sorted_by_date_sorted (consos : list Conso) :
  Sorted.StronglySorted
    (fun x y => String.leb (date_key x) (date_key y) = true) (sorted_by_date consos).
Proof.
  unfold sorted_by_date. induction consos as [|x l IH]; cbn [foldr].
  - constructor.
  - now apply insert_by_date_sorted.
Qed.

Lemma last_of_sorted (l : list Conso) (y : Conso) :
  Sorted.StronglySorted
    (fun x y => String.leb (date_key x) (date_key y) = true) l -> In y l ->
  String.leb (date_key y) (date_key (List.last l empty_conso)) = true.
Proof.
  induction 1 as [|x l Hs IH Hall]; intros Hy; [destruct Hy|].
  destruct l as [|z l].
  - destruct Hy as [->|[]]. cbn [List.last]. unfold String.leb.
    pose proof (OrderedTypeEx.String_as_OT.cmp_eq (date_key y) (date_key y)) as H.
    unfold OrderedTypeEx.String_as_OT.cmp in H.
    now rewrite (proj2 H eq_refl).
  - change (List.last (x :: z :: l) empty_conso)
      with (List.last (z :: l) empty_conso).
    destruct Hy as [->|Hy]; [|exact (IH Hy)].
    apply (proj1 (List.Forall_forall _ _) Hall).
    clear. revert z. induction l as [|w l IH]; intros z; [left; reflexivity|].
    right. change (List.last (z :: w :: l) empty_conso)
             with (List.last (w :: l) empty_conso). apply IH.
Qed.

Lemma insert_by_date_length (x : Conso) (l : list Conso) :
  length (insert_by_date x l) = S (length l).
Proof.
  induction l as [|y l IH]; cbn [insert_by_date]; [reflexivity|].
  destruct (String.ltb _ _); cbn [length]; [now rewrite IH | reflexivity].
Qed.

Lemma sorted_by_date_length (consos : list Conso) :
  length (sorted_by_date consos) = length consos.
Proof.
  unfold sorted_by_date. induction consos as [|x l IH]; cbn [foldr length];
    [reflexivity|].
  now rewrite insert_by_date_length, IH.
Qed.

(** X14. The record [_parse_conso] reads the latest date, value and leak
    indicator from is a record of the payload whose date is not smaller
    than that of any other record (an absent date counting as the empty
    string).  The value is the one [_to_float] reads, times 1000 when the
    unit is m3. *)
Theorem _parse_conso_latest (payload : Payload) :
  let out := _parse_conso float_of_str repr payload in
  let factor :=
    match unite payload with
    | Some u => if String.eqb u "m3" then 1000%Q else 1%Q
    | None => 1%Q
    end in
  consommations payload <> [] ->
  exists latest,
    In latest (consommations payload)
    /\ (forall y, In y (consommations payload) ->
          String.leb (date_key y) (date_key latest) = true)
    /\ sn_latest_date out = c_date latest
    /\ sn_latest_value out
       = (fun v => v * factor)%Q <$> _to_float float_of_str (valeur latest)
    /\ sn_leak_estimate out
       = match fuiteEstimee latest with
         | PNone => None
         | _ => Some (py_str repr (fuiteEstimee latest))
         end.
Proof.
  cbv zeta. intros Hne.
  exists (List.last (sorted_by_date (consommations payload)) empty_conso).
  split; [now apply latest_In|].
  split.
  { intros y Hy. apply last_of_sorted; [apply sorted_by_date_sorted|].
    now apply sorted_by_date_In. }
  unfold _parse_conso. cbn [sn_latest_date sn_latest_value sn_leak_estimate].
  split; [reflexivity|]. split; [|reflexivity].
  destruct (unite payload) as [u|]; [destruct (String.eqb u "m3")|];
    reflexivity.
Qed.

(** X15. [_parse_conso] yields a daily value only from a payload of at
    least two records, and never a negative one.  A payload without
    records yields no latest value, date or leak indicator, and no daily
    value.  The unit it reports is never m3: m3 is reported as L, any other
    unit as it is. *)
Theorem _parse_conso_edges (payload : Payload) :
  let out := _parse_conso float_of_str repr payload in
  (forall d, sn_daily out = Some d ->
     (0 <= d)%Q /\ (2 <= length (consommations payload))%nat)
  /\ (consommations payload = [] ->
      sn_latest_value out = None /\ sn_latest_date out = None
      /\ sn_leak_estimate out = None /\ sn_daily out = None)
  /\ (sn_unit out = Some "m3" -> False)
  /\ (unite payload = Some "m3" -> sn_unit out = Some "L")
  /\ (unite payload <> Some "m3" -> sn_unit out = unite payload).
Proof.
  cbv zeta. unfold _parse_conso.
  cbn [sn_latest_date sn_latest_value sn_leak_estimate sn_daily sn_unit].
  split; [|split; [|split; [|split]]].
  - intros d.
    pose proof (sorted_by_date_length (consommations payload)) as Hlen.
    rewrite <- (length_rev (sorted_by_date (consommations payload))) in Hlen.
    destruct (rev (sorted_by_date (consommations payload))) as [|a [|b l]];
      try discriminate.
    destruct (_to_float float_of_str (valeur a)) as [va|]; [|discriminate].
    destruct (_to_float float_of_str (valeur b)) as [vb|]; [|discriminate].
    destruct (Qltb _ 0) eqn:Hneg; [discriminate|].
    intros [= <-]. apply Qltb_ge in Hneg. split; [exact Hneg|].
    rewrite <- Hlen. cbn [length]. lia.
  - intros ->. cbn. repeat split.
  - destruct (unite payload) as [u|]; [|discriminate].
    destruct (String.eqb_spec u "m3"); [discriminate|congruence].
  - intros ->. reflexivity.
  - intros Hu. destruct (unite payload) as [u|]; [|reflexivity].
    destruct (String.eqb_spec u "m3"); [congruence | reflexivity].
Qed.

End PayloadOrder.

Lemma _parse_conso_latest_witness :
  exists latest,
    In latest (Client.consommations Examples.leaking)
    /\ (forall y, In y (Client.consommations Examples.leaking) ->
          String.leb (Client.date_key y) (Client.date_key latest) = true)
    /\ Client.sn_latest_date
         (Client._parse_conso (fun _ => None) (fun _ => "") Examples.leaking)
       = Client.c_date latest
    /\ Client.sn_latest_value
         (Client._parse_conso (fun _ => None) (fun _ => "") Examples.leaking)
       = (fun v => v * 1000)%Q
           <$> Client._to_float (fun _ => None) (Client.valeur latest)
    /\ Client.sn_leak_estimate
         (Client._parse_conso (fun _ => None) (fun _ => "") Examples.leaking)
       = match Client.fuiteEstimee latest with
         | Client.PNone => None
         | _ => Some (Client.py_str (fun _ => "") (Client.fuiteEstimee latest))
         end.
Proof.
  refine (_parse_conso_latest (fun _ => None) (fun _ => "") Examples.leaking _).
  discriminate.
Defined.
(** ** Tokens: what the authentication steps keep and what they change *)

Section Tokens.
Import Client.

Variable query_code : string -> option string.

Ltac step_client :=
  cbv beta iota zeta
      delta [bind ret raise send log set_access set_refresh get_access
             get_refresh get_credentials try_except _parse_settings];
  cbn [_access_token _refresh_token answers n_sent trace _username
       _password fst snd negb].

Ltac run_client :=
  step_client;
  repeat
    (match goal with
     | |- context [match page_settings ?r with _ => _ end] =>
         destruct (page_settings r)
     | |- context [if ?b then _ else _] => destruct b
     end; step_client).



(** [_try_ropc] never raises; it sends the password grant and nothing
    else, and answers [true] only with an access token in hand. *)
Lemma _try_ropc_trace (c : OceaClient) :
  exists b c' rest,
    _try_ropc c = (Ok b, c')
    /\ trace c'
       = (trace c
          ++ Sent (TokenPassword (_username c) (_password c))
               (_access_token c) (_refresh_token c) :: rest)%list
    /\ Forall grant_event rest
    /\ (b = true -> truthy (_access_token c') = true).
Proof.
  unfold _try_ropc. step_client.
  destruct (negb _); step_client;
    do 3 eexists; (split; [reflexivity|]);
    rewrite <- ?app_assoc; cbn [app _access_token trace];
    (split; [reflexivity|]);
    (split; [repeat constructor; cbn; auto; discriminate|]);
    intros H; first [discriminate H | exact H].
Qed.

(** What [_ensure_token] does, step by step: nothing with a token in
    hand; otherwise the grants at the token endpoint, and the interactive
    flow only once the password grant was sent without success. *)
Lemma _ensure_token_trace (c : OceaClient) :
  let out := _ensure_token query_code c in
  (truthy (_access_token c) = true -> out = (Ok tt, c))
  /\ exists grants flow,
       trace (snd out) = (trace c ++ grants ++ flow)%list
       /\ Forall grant_event grants
       /\ Forall (fun e => is_api_event e = false) (grants ++ flow)
       /\ (truthy (_access_token c) = false ->
           truthy (_refresh_token c) = true ->
           exists rest,
             grants = Sent (TokenRefresh (default "" (_refresh_token c)))
                        (_access_token c) (_refresh_token c) :: rest)
       /\ (flow = []
           \/ exists a f pkce,
                flow = Logged DEBUG
                         "ROPC failed or not supported, trying PKCE flow."
                       :: pkce
                /\ Forall (pkce_event a f) pkce
                /\ exists a' f',
                     In (Sent (TokenPassword (_username c) (_password c))
                           a' f') grants)
       /\ (forall e, fst out = Raise e -> flow <> []).
Proof.
  cbv zeta. unfold _ensure_token. step_client.
  destruct (truthy (_access_token c)) eqn:Hacc; step_client.
  { split; [reflexivity|]. exists [], []. rewrite app_nil_r.
    split; [reflexivity|]. split; [constructor|]. split; [constructor|].
    split; [discriminate|]. split; [left; reflexivity | discriminate]. }
  split; [discriminate|].
  destruct (_try_refresh_trace c)
    as (b & c1 & evs1 & Hrun & Ht1 & Hg1 & Hfirst & _).
  assert (forall l, Forall grant_event l ->
            Forall (fun e => is_api_event e = false) l) as Hnoapi.
  { intros l Hl. eapply Forall_impl; [exact Hl|].
    intros [r a f|l' m]; cbn; tauto. }
  assert (_username c1 = _username c /\ _password c1 = _password c
          /\ (evs1 = [] -> _access_token c1 = _access_token c
                           /\ _refresh_token c1 = _refresh_token c))
    as (Hu & Hp & Hsame).
  { revert Hrun Ht1. unfold _try_refresh. step_client.
    destruct (truthy (_refresh_token c)); step_client;
      [destruct (negb _); step_client|]; intros [= _ <-];
      cbn [trace _access_token _refresh_token]; intros Ht;
      (split; [reflexivity|]); (split; [reflexivity|]); intros He; subst;
      try (split; reflexivity);
      rewrite <- ?app_assoc in Ht; apply app_inv_head in Ht; discriminate. }
  rewrite Hrun. step_client. destruct b; step_client.
  { exists evs1, []. rewrite app_nil_r.
    split; [exact Ht1|]. split; [exact Hg1|]. split; [now apply Hnoapi|].
    split; [intros _; exact Hfirst|]. split; [left; reflexivity|].
    discriminate. }
  destruct (_try_ropc_trace c1) as (b2 & c2 & rest & Hrun2 & Ht2 & Hg2 & _).
  rewrite Hrun2. step_client.
  assert (Forall grant_event
            (evs1 ++ Sent (TokenPassword (_username c1) (_password c1))
                       (_access_token c1) (_refresh_token c1) :: rest)) as Hg.
  { apply Forall_app. split; [exact Hg1|].
    constructor; [cbn; auto | exact Hg2]. }
  destruct b2; step_client.
  { exists (evs1 ++ Sent (TokenPassword (_username c1) (_password c1))
                    (_access_token c1) (_refresh_token c1) :: rest)%list, [].
    rewrite app_nil_r.
    split; [rewrite Ht2, Ht1, <- app_assoc; reflexivity|].
    split; [exact Hg|]. split; [now apply Hnoapi|].
    split; [|split; [left; reflexivity | discriminate]].
    intros _ Hrt. destruct (Hfirst Hrt) as (r & ->). eexists. reflexivity. }
  match goal with
  | |- context [_auth_pkce query_code ?st] =>
      destruct (_auth_pkce_trace query_code st) as (evs3 & Ht3 & Hp3)
  end.
  cbn [_access_token _refresh_token trace] in Ht3, Hp3.
  exists (evs1 ++ Sent (TokenPassword (_username c1) (_password c1))
                    (_access_token c1) (_refresh_token c1) :: rest)%list,
    (Logged DEBUG "ROPC failed or not supported, trying PKCE flow." :: evs3).
  split.
  { rewrite Ht3, Ht2, Ht1. repeat (rewrite <- ?app_assoc; cbn [app]).
    reflexivity. }
  split; [exact Hg|].
  split.
  { apply Forall_app. split; [now apply Hnoapi|].
    constructor; [reflexivity|].
    eapply Forall_impl; [exact Hp3|]. intros [r a f|l m]; cbn; [|auto].
    intros (Hq & _). destruct r; cbn in *; congruence. }
  split.
  { intros _ Hrt. destruct (Hfirst Hrt) as (r & ->). eexists. reflexivity. }
  split; [|discriminate].
  right. exists (_access_token c2), (_refresh_token c2), evs3.
  split; [reflexivity|]. split; [exact Hp3|].
  exists (_access_token c1), (_refresh_token c1).
  rewrite in_app_iff. right. left. now rewrite Hu, Hp.
Qed.


(** The errors of the interactive flow are its own: none is the error of
    an API call. *)
Lemma _auth_pkce_no_http (c c' : OceaClient) (s : Z) (u : string) :
  _auth_pkce query_code c <> (Raise (OceaAuthError (HttpStatus s u)), c').
Proof.
  unfold _auth_pkce. run_client; discriminate.
Qed.

Lemma _ensure_token_no_http (c c' : OceaClient) (s : Z) (u : string) :
  _ensure_token query_code c <> (Raise (OceaAuthError (HttpStatus s u)), c').
Proof.
  unfold _ensure_token. step_client.
  destruct (truthy (_access_token c)); step_client; [discriminate|].
  destruct (_try_refresh_trace c) as (b & c1 & evs1 & Hrun & _).
  rewrite Hrun. step_client. destruct b; step_client; [discriminate|].
  destruct (_try_ropc_trace c1) as (b2 & c2 & rest & Hrun2 & _).
  rewrite Hrun2. step_client. destruct b2; step_client; [discriminate|].
  apply _auth_pkce_no_http.
Qed.

Lemma calls_only_app (call : option string -> Request) (l1 l2 : list Event) :
  calls_only call l1 -> calls_only call l2 -> calls_only call (l1 ++ l2).
Proof.
  intros H1 H2 r a f Hin. apply in_app_iff in Hin as [Hin|Hin]; eauto.
Qed.

Lemma calls_only_none (call : option string -> Request) (l : list Event) :
  Forall (fun e => is_api_event e = false) l -> calls_only call l.
Proof.
  intros Hl r a f Hin Hapi.
  apply (proj1 (List.Forall_forall _ _) Hl) in Hin. cbn in Hin. congruence.
Qed.

Lemma calls_only_one (call : option string -> Request) (a f : option string) :
  calls_only call [Sent (call a) a f].
Proof. intros r a' f' [[= <- <- <-]|[]] _. reflexivity. Qed.

Lemma api_calls_one (r : Request) (a f : option string) :
  is_api r = true -> api_calls [Sent r a f] = 1%nat.
Proof. intros H. unfold api_calls. cbn. now rewrite H. Qed.

Lemma api_calls_log (l : Level) (m : string) (evs : list Event) :
  api_calls (Logged l m :: evs) = api_calls evs.
Proof. reflexivity. Qed.

Ltac solve_calls_only :=
  repeat first
    [ apply calls_only_one
    | apply calls_only_none;
      first [assumption | constructor; [reflexivity | assumption]]
    | apply calls_only_app ].

(** Closes an [api_outcome] once the events are given. *)
Ltac close_outcome Hapi0 Ht0 Hnohttp :=
  rewrite ?(api_calls_app (_ ++ _)), (api_calls_none _ Hapi0);
  rewrite ?api_calls_app, ?api_calls_log;
  repeat match goal with
    | H : Forall (fun e => is_api_event e = false) ?l |- context [api_calls ?l] =>
        rewrite (api_calls_none _ H)
    end;
  rewrite ?api_calls_one by reflexivity;
  (split; [try match goal with H : trace _ = _ |- _ => rewrite H end;
           rewrite ?Ht0; repeat (rewrite <- ?app_assoc; cbn [app]);
           rewrite ?app_nil_r; reflexivity|]);
  (split; [cbn; lia|]);
  (split; [solve_calls_only|]);
  (split; [let r := fresh in let Hr := fresh in
           intros r Hr;
           first [discriminate Hr
                 | injection Hr as <-; split; [lia | cbn; lia]]|]);
  (split; [let s := fresh in let u := fresh in let Hr := fresh in
           intros s u Hr;
           first [discriminate Hr
                 | exfalso; injection Hr as ->; exact (Hnohttp _ _ _ eq_refl)
                 | injection Hr as <- <-; repeat split; [lia | cbn; lia]]|]);
  let H0 := fresh in
  intros H0; cbn in H0;
  first [discriminate H0 | lia | eexists; split; reflexivity].

(** The body shared by [_get] and [_post]. *)
Ltac api_call_outcome c call :=
  let grants := fresh "grants" in
  let flow := fresh "flow" in
  let Ht0 := fresh "Ht0" in
  let Hapi0 := fresh "Hapi0" in
  let Hnohttp := fresh "Hnohttp" in
  let c1 := fresh "c1" in
  let e := fresh "e" in
  let resp := fresh "resp" in
  let resp2 := fresh "resp2" in
  let H401 := fresh "H401" in
  let b := fresh "b" in
  let c2 := fresh "c2" in
  let evs := fresh "evs" in
  let Hrun := fresh "Hrun" in
  let Ht := fresh "Ht" in
  let Hapi := fresh "Hapi" in
  destruct (_ensure_token_trace c)
    as (_ & grants & flow & Ht0 & _ & Hapi0 & _);
  cbv zeta in Ht0;
  pose proof (_ensure_token_no_http c) as Hnohttp;
  cbv beta delta [bind];
  destruct (_ensure_token query_code c) as [[[]|e] c1]; cbv beta iota;
  cbn [fst snd] in Ht0 |- *;
  [ step_client;
    match goal with
    | |- context [status_code ?r =? 401] =>
        set (resp := r); destruct (Z.eqb_spec (status_code resp) 401)
          as [H401|H401]; [|step_client]
    end;
    [ match goal with
      | |- context [_handle_unauthorized query_code ?st] =>
          destruct (_handle_unauthorized_trace query_code st)
            as (b & c2 & evs & Hrun & Ht & _ & _ & Hapi & _)
      end;
      rewrite Hrun; cbn [trace] in Ht; destruct b; step_client;
      [ match goal with
        | |- context [status_code ?r2 >=? 400] =>
            set (resp2 := r2); destruct (Z.geb_spec (status_code resp2) 400)
        end; step_client;
        exists ((grants ++ flow)
                ++ [Sent (call (_access_token c1)) (_access_token c1)
                      (_refresh_token c1)]
                ++ (Logged WARNING
                      "HTTP 401 received; attempting token refresh." :: evs)
                ++ [Sent (call (_access_token c2)) (_access_token c2)
                      (_refresh_token c2)])%list
      | rewrite H401; change (401 >=? 400) with true; step_client;
        exists ((grants ++ flow)
                ++ [Sent (call (_access_token c1)) (_access_token c1)
                      (_refresh_token c1)]
                ++ (Logged WARNING
                      "HTTP 401 received; attempting token refresh."
                    :: evs))%list ]
    | destruct (Z.geb_spec (status_code resp) 400); step_client;
      exists ((grants ++ flow)
              ++ [Sent (call (_access_token c1)) (_access_token c1)
                    (_refresh_token c1)])%list ]
  | exists (grants ++ flow)%list ];
  close_outcome Hapi0 Ht0 Hnohttp.

Lemma _get_outcome (path : string) (c : OceaClient) :
  api_outcome query_code (String.append API_BASE path)
    (ApiGet (String.append API_BASE path)) c (_get query_code path c).
Proof.
  unfold api_outcome, _get. set (url := String.append API_BASE path).
  api_call_outcome c (ApiGet url).
Qed.

Lemma _post_outcome (path : string) (c : OceaClient) :
  api_outcome query_code (String.append API_BASE path)
    (ApiPost (String.append API_BASE path)) c (_post query_code path c).
Proof.
  unfold api_outcome, _post. set (url := String.append API_BASE path).
  api_call_outcome c (ApiPost url).
Qed.

(** X18. An API call, [_get] or [_post], sends at most two API requests,
    each one the call itself with the access token held when it is sent.
    It returns a response only with a status below 400, and raises the
    error "HTTP <status>" only with a status of 400 or more and with its
    own URL, in both cases after at least one API request.  When it sends
    no API request at all, it raised the error of [_ensure_token]. *)
Theorem _get_post_outcome (path : string) (c : OceaClient) :
  let url := String.append API_BASE path in
  api_outcome query_code url (ApiGet url) c (_get query_code path c)
  /\ api_outcome query_code url (ApiPost url) c (_post query_code path c).
Proof.
  split; [apply _get_outcome | apply _post_outcome].
Qed.

End Tokens.
(** ** A whole fetch *)

Section FetchRun.
Import Num Coordinator Client Fetch.

Variable query_code : string -> option string.
Variable float_of_str : string -> option Q.
Variable repr : pyval -> string.
Variable json : Type.
Variable is_true : json -> bool.
Variable format : json -> string.
Variable occupations : Response -> list json.
Variable conso_json : Response -> Payload.

(** The loop over the fluids still to query: at most two API requests per
    fluid, all consumption queries of these fluids; it returns only when
    every query was answered below status 400, with one entry per fluid
    queried added to the results. *)
Lemma fetch_fluids_outcome (local_id : string) (fluids : list (string * FluidMeta)) :
  forall (results : gmap string Snapshot) (c : OceaClient),
  (forall km, In km fluids -> In km FLUIDS) ->
  let out :=
    fetch_fluids query_code float_of_str repr conso_json local_id fluids
      results c in
  exists evs,
    trace (snd out) = (trace c ++ evs)%list
    /\ (api_calls evs <= 2 * length fluids)%nat
    /\ (forall r a f, In (Sent r a f) evs -> is_api r = true ->
          fetch_request local_id r)
    /\ ((exists res, fst out = Returned res) \/ (exists e, fst out = Raised e))
    /\ (forall res, fst out = Returned res ->
          (length fluids <= api_calls evs)%nat
          /\ (forall key meta, In (key, meta) fluids -> is_Some (res !! key))
          /\ (forall key, is_Some (results !! key) -> is_Some (res !! key))
          /\ (forall key s, res !! key = Some s ->
                results !! key = Some s
                \/ exists meta resp,
                     In (key, meta) fluids /\ status_code resp < 400
                     /\ s = _parse_conso float_of_str repr (conso_json resp))).
Proof.
  induction fluids as [|[key meta] fluids IH]; intros results c Hsub; cbv zeta.
  { cbn [fetch_fluids fst snd length]. exists []. rewrite app_nil_r.
    split; [reflexivity|]. split; [cbn; lia|].
    split; [intros r a f []|]. split; [left; eauto|].
    intros res [= <-]. split; [cbn; lia|]. split; [intros k m []|].
    split; [auto|]. intros k s Hk. left. exact Hk. }
  cbn [fetch_fluids].
  destruct (_post_outcome query_code (conso_path local_id (api_name meta)) c)
    as (evs1 & Ht1 & Hle1 & Hcalls1 & Hok1 & _ & _).
  assert (forall r a f, In (Sent r a f) evs1 -> is_api r = true ->
            fetch_request local_id r) as Hreq1.
  { intros r a f Hin Hapi. right. exists key, meta, a.
    split; [apply Hsub; left; reflexivity|]. exact (Hcalls1 r a f Hin Hapi). }
  destruct (_post query_code (conso_path local_id (api_name meta)) c)
    as [[conso|e] c1]; cbn [fst snd] in Ht1, Hok1.
  2: { exists evs1. cbn [fst snd length].
       split; [exact Ht1|]. split; [lia|]. split; [exact Hreq1|].
       split; [right; eauto|]. discriminate. }
  destruct (Hok1 conso eq_refl) as [Hstatus Hge1].
  specialize (IH (<[key := _parse_conso float_of_str repr (conso_json conso)]>
                    results) c1
                (fun km Hkm => Hsub km (or_intror Hkm))).
  cbv zeta in IH.
  destruct IH as (evs2 & Ht2 & Hle2 & Hreq2 & Hcases & Hret).
  exists (evs1 ++ evs2)%list.
  split; [rewrite Ht2, Ht1, app_assoc; reflexivity|].
  rewrite api_calls_app. cbn [length].
  split; [lia|].
  split.
  { intros r a f Hin Hapi. apply in_app_iff in Hin as [Hin|Hin]; eauto. }
  split; [exact Hcases|].
  intros res Hres. destruct (Hret res Hres) as (Hge2 & Hkeys & Hkeep & Hfrom).
  split; [lia|]. split; [|split].
  - intros k m [[= <- <-]|Hin]; [|exact (Hkeys k m Hin)].
    apply Hkeep. rewrite lookup_insert_eq. eauto.
  - intros k Hk. apply Hkeep.
    destruct (decide (key = k)) as [->|Hne];
      [rewrite lookup_insert_eq; eauto | now rewrite lookup_insert_ne].
  - intros k s Hk. destruct (Hfrom k s Hk) as [Hacc|(m & resp & Hin & Hst & ->)].
    + destruct (decide (key = k)) as [->|Hne].
      * rewrite lookup_insert_eq in Hacc. injection Hacc as <-.
        right. exists meta, conso. repeat split; [left; reflexivity | exact Hstatus].
      * rewrite lookup_insert_ne in Hacc by exact Hne. left. exact Hacc.
    + right. exists m, resp. repeat split; [right; exact Hin | exact Hst].
Qed.

(** What [fetch] adds to the trace, whatever its outcome. *)
Lemma fetch_trace (c : OceaClient) :
  let out :=
    fetch query_code float_of_str repr json is_true format occupations
      conso_json c in
  exists evs,
    trace (snd out) = (trace c ++ evs)%list
    /\ (api_calls evs <= 8)%nat
    /\ (exists local_id,
          forall r a f, In (Sent r a f) evs -> is_api r = true ->
            fetch_request local_id r)
    /\ (fst out = NoOccupations \/ fst out = NoLocalId ->
        calls_only (ApiGet (String.append API_BASE "/resident")) evs
        /\ (1 <= api_calls evs <= 2)%nat)
    /\ (forall results, fst out = Returned results ->
          (4 <= api_calls evs)%nat
          /\ (forall key,
                is_Some (results !! key) <-> exists meta, In (key, meta) FLUIDS)
          /\ (forall key s, results !! key = Some s ->
                exists resp,
                  status_code resp < 400
                  /\ s = _parse_conso float_of_str repr (conso_json resp))).
Proof.
  cbv zeta. unfold fetch.
  destruct (_get_outcome query_code "/resident" c)
    as (evs1 & Ht1 & Hle1 & Hcalls1 & Hok1 & _ & _).
  assert (forall local_id r a f, In (Sent r a f) evs1 -> is_api r = true ->
            fetch_request local_id r) as Hreq1.
  { intros local_id r a f Hin Hapi. left. exists a.
    exact (Hcalls1 r a f Hin Hapi). }
  destruct (_get query_code "/resident" c) as [[resident|e] c1];
    cbn [fst snd] in Ht1, Hok1.
  2: { exists evs1. cbn [fst snd]. split; [exact Ht1|]. split; [lia|].
       split; [exists ""; apply Hreq1|].
       split; [intros [H|H]; discriminate | discriminate]. }
  destruct (Hok1 resident eq_refl) as [_ Hge1].
  destruct (occupations resident) as [|local_id others].
  { exists evs1. cbn [fst snd]. split; [exact Ht1|]. split; [lia|].
    split; [exists ""; apply Hreq1|].
    split; [intros _; split; [exact Hcalls1 | lia] | discriminate]. }
  destruct (is_true local_id); cbn [negb].
  2: { exists evs1. cbn [fst snd]. split; [exact Ht1|]. split; [lia|].
       split; [exists ""; apply Hreq1|].
       split; [intros _; split; [exact Hcalls1 | lia] | discriminate]. }
  destruct (fetch_fluids_outcome (format local_id) FLUIDS ∅ c1 (fun _ H => H))
    as (evs2 & Ht2 & Hle2 & Hreq2 & Hcases & Hret).
  exists (evs1 ++ evs2)%list.
  split; [rewrite Ht2, Ht1, app_assoc; reflexivity|].
  rewrite api_calls_app. change (length FLUIDS) with 3%nat in *.
  split; [lia|].
  split.
  { exists (format local_id). intros r a f Hin Hapi.
    apply in_app_iff in Hin as [Hin|Hin]; eauto. }
  split.
  { intros [H|H]; destruct Hcases as [[res Hr]|[e Hr]]; congruence. }
  intros results Hres.
  destruct (Hret results Hres) as (Hge2 & Hkeys & _ & Hfrom).
  split; [lia|]. split.
  - intros key. split.
    + intros [s Hs]. destruct (Hfrom key s Hs) as [H|(m & _ & Hin & _)];
        [rewrite lookup_empty in H; discriminate | eauto].
    + intros [m Hin]. exact (Hkeys key m Hin).
  - intros key s Hs. destruct (Hfrom key s Hs) as [H|(m & resp & _ & Hst & ->)];
      [rewrite lookup_empty in H; discriminate | eauto].
Qed.

(** X19. When [fetch] returns, its result has an entry for each fluid of
    [FLUIDS] and for nothing else; every entry is what [_parse_conso]
    reads from a response of status below 400; and between 4 and 8 API
    requests were sent. *)
Theorem fetch_returned (c : OceaClient) (results : gmap string Snapshot) :
  let out :=
    fetch query_code float_of_str repr json is_true format occupations
      conso_json c in
  fst out = Returned results ->
  (forall key, is_Some (results !! key) <-> exists meta, In (key, meta) FLUIDS)
  /\ (forall key s, results !! key = Some s ->
        exists resp,
          status_code resp < 400
          /\ s = _parse_conso float_of_str repr (conso_json resp))
  /\ exists evs,
       trace (snd out) = (trace c ++ evs)%list
       /\ (4 <= api_calls evs <= 8)%nat.
Proof.
  cbv zeta. intros Hres.
  destruct (fetch_trace c) as (evs & Ht & Hle & _ & _ & Hret).
  destruct (Hret results Hres) as (Hge & Hkeys & Hfrom).
  split; [exact Hkeys|]. split; [exact Hfrom|].
  exists evs. split; [exact Ht | lia].
Qed.

(** X20. Whatever its outcome, [fetch] sends at most 8 API requests, each
    of them the GET of the resident or the consumption query of a fluid
    of [FLUIDS], all for one and the same local.  When it fails for want
    of an occupation or of a local id, it has sent the GET of the
    resident, once or twice, and no consumption query. *)
Theorem fetch_requests (c : OceaClient) :
  let out :=
    fetch query_code float_of_str repr json is_true format occupations
      conso_json c in
  exists evs,
    trace (snd out) = (trace c ++ evs)%list
    /\ (api_calls evs <= 8)%nat
    /\ (exists local_id,
          forall r a f, In (Sent r a f) evs -> is_api r = true ->
            fetch_request local_id r)
    /\ (fst out = NoOccupations \/ fst out = NoLocalId ->
        calls_only (ApiGet (String.append API_BASE "/resident")) evs
        /\ (1 <= api_calls evs <= 2)%nat).
Proof.
  cbv zeta.
  destruct (fetch_trace c) as (evs & Ht & Hle & Hreq & Hfail & _).
  exists evs. auto.
Qed.

End FetchRun.

Lemma fetch_returned_witness :
  exists evs,
    Client.trace
      (snd (Fetch.fetch (fun _ => None) (fun _ => None) (fun _ => "") unit
              (fun _ => true) (fun _ => "42") (fun _ => [tt])
              (fun _ => Examples.leaking)
              {| Client._username := "u"; Client._password := "p";
                 Client._access_token := Some "tok";
                 Client._refresh_token := None;
                 Client.answers := fun _ _ => Examples.bare 200;
                 Client.n_sent := 0; Client.trace := [] |}))
    = ([] ++ evs)%list
    /\ (4 <= Client.api_calls evs <= 8)%nat.
Proof.
  refine (proj2 (proj2
            (fetch_returned (fun _ => None) (fun _ => None) (fun _ => "") unit
               (fun _ => true) (fun _ => "42") (fun _ => [tt])
               (fun _ => Examples.leaking)
               {| Client._username := "u"; Client._password := "p";
                  Client._access_token := Some "tok";
                  Client._refresh_token := None;
                  Client.answers := fun _ _ => Examples.bare 200;
                  Client.n_sent := 0; Client.trace := [] |}
               _ _))).
  vm_compute. reflexivity.
Defined.
(** ** A daily value tracks the change of the total *)

Section DailyTracks.
Import PyDate Num Coordinator.





End DailyTracks.
(** ** Polling again *)

Section PollAgain.
Import PyDate Num Coordinator.

(** The daily derivation pushes nothing and leaves the recorder alone
    unless the reading is ok and differs from a baseline that is there. *)
Lemma derive_daily_quiet (self : Entry) (rec : Recorder) (key : string)
    (unit : option string) (value_status : ValueStatus)
    (value_used current_total : option Q) (current_date : date)
    (last_total : option Q) (last_total_at : option date) :
  let dl :=
    derive_daily self rec key unit value_status value_used current_total
      current_date last_total last_total_at in
  (dl_pushed dl = [] /\ dl_rec dl = rec)
  \/ (value_status = v_ok
      /\ exists ct lt lat,
           current_total = Some ct /\ last_total = Some lt
           /\ last_total_at = Some lat /\ ~ (ct == lt)%Q).
Proof.
  cbv zeta. unfold derive_daily.
  destruct (ValueStatus_eqb value_status v_stale); [left; split; reflexivity|].
  destruct (ValueStatus_eqb value_status v_ok) eqn:Hok; cbn [negb];
    [|destruct value_used; left; split; reflexivity].
  apply ValueStatus_eqb_eq in Hok.
  destruct last_total as [lt|]; [|left; split; reflexivity].
  destruct last_total_at as [lat|]; [|left; split; reflexivity].
  destruct current_total as [ct|]; [|left; split; reflexivity].
  destruct (Qeq_bool ct lt) eqn:Heq.
  - left. apply Qeq_bool_iff in Heq.
    assert (Qeq_bool (ct - lt) 0 = true) as H0 by (apply Qeq_bool_iff; lra).
    assert (Qltb (ct - lt) 0 = false) as Hn by (apply Qltb_ge; lra).
    destruct (current_date =? lat).
    + rewrite Hn, H0. split; reflexivity.
    + unfold reset_window. rewrite Hn. cbn [andb]. rewrite H0.
      destruct (_ >=? 1); cbn [andb]; [split; reflexivity|].
      split; reflexivity.
  - right. split; [exact Hok|]. exists ct, lt, lat.
    repeat split. now apply Qeq_bool_false.
Qed.

(** A poll either pushes nothing and leaves the recorder alone, or it
    replaces the baseline by an ok reading that differs from it. *)
Lemma update_fluid_push_or_quiet (self : Entry) (key : string)
    (meta : FluidMeta) (raw_entry : RawEntry) (now_date : date)
    (fluid_store : FluidStore) (rec : Recorder) :
  let out := update_fluid self key meta raw_entry now_date fluid_store rec in
  let current_date := effective_date (latest_date raw_entry) now_date in
  (snd (fst out) = [] /\ snd out = rec)
  \/ exists ct lt,
       latest_value raw_entry = Some ct
       /\ st_last_total fluid_store = Some lt
       /\ ~ (ct == lt)%Q
       /\ (0 <= ct)%Q
       /\ fd_value_status (fst (fst (fst out))) = v_ok
       /\ snd (fst (fst out))
          = {| st_last_total := Some ct;
               st_last_total_at := Some current_date |}.
Proof.
  cbv zeta.
  destruct (update_fluid_unfold self key meta raw_entry now_date fluid_store rec)
    as (-> & _ & _ & _ & -> & -> & ->).
  destruct (derive_daily_quiet self rec key (unit meta)
              (snd (value_status_of raw_entry now_date fluid_store))
              (fst (value_status_of raw_entry now_date fluid_store))
              (latest_value raw_entry)
              (effective_date (latest_date raw_entry) now_date)
              (st_last_total fluid_store) (st_last_total_at fluid_store))
    as [Hq|(Hok & ct & lt & lat & Hct & Hlt & Hlat & Hne)]; [left; exact Hq|].
  right. exists ct, lt. rewrite Hok.
  split; [exact Hct|]. split; [exact Hlt|]. split; [exact Hne|].
  split.
  { destruct (value_status_of_cases raw_entry now_date fluid_store)
      as [(_ & c0 & Hc0 & _ & Hpos)|[(Hs & _)|[(Hs & _)|(Hs & _)]]];
      congruence. }
  split; [reflexivity|].
  destruct (update_baseline_cases v_ok (latest_value raw_entry)
              (effective_date (latest_date raw_entry) now_date) fluid_store)
    as [(c0 & _ & Hc0 & _ & ->)|[[Hno|[Hno|(c0 & Hc0 & Hno)]] _]].
  - congruence.
  - now contradiction Hno.
  - congruence.
  - exfalso. apply Hno. unfold baseline_changes. rewrite Hlt, Hlat.
    congruence.
Qed.

(** X22. A poll that pushes points to the recorder, or changes it in any
    way, has an ok reading that differs from the stored baseline total,
    and replaces the baseline by that reading: a change of the total is
    never recorded while the baseline stays behind. *)
Theorem poll_pushes_with_new_baseline (self : Entry) (key : string)
    (meta : FluidMeta) (raw_entry : RawEntry) (now_date : date)
    (fluid_store : FluidStore) (rec : Recorder) :
  let out := update_fluid self key meta raw_entry now_date fluid_store rec in
  let current_date := effective_date (latest_date raw_entry) now_date in
  (snd (fst out) = [] /\ snd out = rec)
  \/ exists ct lt,
       latest_value raw_entry = Some ct
       /\ st_last_total fluid_store = Some lt
       /\ ~ (ct == lt)%Q
       /\ (0 <= ct)%Q
       /\ fd_value_status (fst (fst (fst out))) = v_ok
       /\ snd (fst (fst out))
          = {| st_last_total := Some ct;
               st_last_total_at := Some current_date |}.
Proof.
  exact (update_fluid_push_or_quiet self key meta raw_entry now_date
           fluid_store rec).
Qed.

(** A reading equal to the baseline and dated as the baseline: the poll is
    ok, has no daily value, pushes nothing and keeps the store. *)
Lemma update_fluid_at_baseline (self : Entry) (key : string)
    (meta : FluidMeta) (raw_entry : RawEntry) (now_date : date)
    (rec : Recorder) (ct : Q) :
  let current_date := effective_date (latest_date raw_entry) now_date in
  let fluid_store :=
    {| st_last_total := Some ct; st_last_total_at := Some current_date |} in
  let out := update_fluid self key meta raw_entry now_date fluid_store rec in
  latest_value raw_entry = Some ct -> (0 <= ct)%Q ->
  fd_value_status (fst (fst (fst out))) = v_ok
  /\ fd_total (fst (fst (fst out))) = Some ct
  /\ snd (fst (fst out)) = fluid_store
  /\ snd (fst out) = [] /\ snd out = rec.
Proof.
  cbv zeta. intros Hct Hpos.
  set (cd := effective_date (latest_date raw_entry) now_date).
  set (store := {| st_last_total := Some ct; st_last_total_at := Some cd |}).
  destruct (update_fluid_unfold self key meta raw_entry now_date store rec)
    as (-> & _ & _ & _ & -> & -> & ->).
  destruct (update_fluid_fields self key meta raw_entry now_date store rec)
    as (-> & _).
  assert (Qeq_bool ct ct = true) as Hrefl by (apply Qeq_bool_iff; reflexivity).
  assert (value_status_of raw_entry now_date store = (Some ct, v_ok)) as Hvs.
  { unfold value_status_of, fallback, downgrade_stale, classify_value.
    fold cd. rewrite Hct. cbn [store st_last_total st_last_total_at].
    assert (Qltb ct 0 = false) as -> by (apply Qltb_ge; exact Hpos).
    rewrite Z.ltb_irrefl, Z.eqb_refl, Hrefl.
    assert (Qltb (ct + eps) ct = false) as ->
      by (apply Qltb_ge; unfold eps; lra).
    assert (Qeq_bool ct 0 && Qltb 0 ct = false) as ->.
    { destruct (Qeq_bool ct 0) eqn:E; [|reflexivity]. cbn [andb].
      apply Qeq_bool_iff in E. apply Qltb_ge. lra. }
    assert ((cd >? cd) = false) as ->
      by (rewrite Z.gtb_ltb; apply Z.ltb_irrefl).
    reflexivity. }
  fold cd. rewrite Hvs. cbn [fst snd].
  split; [reflexivity|]. split; [reflexivity|].
  split.
  { unfold update_baseline. rewrite Hct.
    cbn [ValueStatus_eqb store st_last_total st_last_total_at].
    rewrite Hrefl. reflexivity. }
  destruct (derive_daily_quiet self rec key (unit meta) v_ok (Some ct)
              (latest_value raw_entry) cd (st_last_total store)
              (st_last_total_at store))
    as [Hq|(_ & c0 & l0 & a0 & Hc0 & Hl0 & _ & Hne)]; [exact Hq|].
  exfalso. apply Hne. cbn in Hl0. assert (c0 = ct) as -> by congruence.
  injection Hl0 as <-. reflexivity.
Qed.

(** X23. Polling a fluid again with the same fetched reading on the
    same day changes nothing: the second poll pushes no point, leaves the
    recorder and the store entry as the first poll left them, and reports
    the same total with the same value status. *)
Theorem poll_again_changes_nothing (self : Entry) (key : string)
    (meta : FluidMeta) (raw_entry : RawEntry) (now_date : date)
    (fluid_store : FluidStore) (rec : Recorder) :
  let out1 := update_fluid self key meta raw_entry now_date fluid_store rec in
  let out2 :=
    update_fluid self key meta raw_entry now_date (snd (fst (fst out1)))
      (snd out1) in
  snd (fst out2) = []
  /\ snd out2 = snd out1
  /\ snd (fst (fst out2)) = snd (fst (fst out1))
  /\ fd_total (fst (fst (fst out2))) = fd_total (fst (fst (fst out1)))
  /\ fd_value_status (fst (fst (fst out2)))
     = fd_value_status (fst (fst (fst out1))).
Proof.
  cbv zeta.
  set (out1 := update_fluid self key meta raw_entry now_date fluid_store rec).
  set (cd := effective_date (latest_date raw_entry) now_date).
  assert ((exists ct,
             latest_value raw_entry = Some ct /\ (0 <= ct)%Q
             /\ fd_value_status (fst (fst (fst out1))) = v_ok
             /\ fd_total (fst (fst (fst out1))) = Some ct
             /\ snd (fst (fst out1))
                = {| st_last_total := Some ct; st_last_total_at := Some cd |})
          \/ (snd (fst (fst out1)) = fluid_store
              /\ snd out1 = rec /\ snd (fst out1) = [])) as Hcase.
  { pose proof (update_fluid_unfold self key meta raw_entry now_date
                  fluid_store rec) as (Hs1 & _ & _ & _ & Hst1 & _).
    pose proof (update_fluid_fields self key meta raw_entry now_date
                  fluid_store rec) as (Ht1 & _).
    pose proof (update_fluid_push_or_quiet self key meta raw_entry now_date
                  fluid_store rec) as Hpush.
    cbv zeta in Hs1, Hst1, Ht1, Hpush. fold out1 cd in Hs1, Hst1, Ht1, Hpush.
    destruct (value_status_of_cases raw_entry now_date fluid_store)
      as [(Hok & ct & Hct & Hu & Hpos)|Hnot].
    - destruct (update_baseline_cases
                  (snd (value_status_of raw_entry now_date fluid_store))
                  (latest_value raw_entry) cd fluid_store)
        as [(c0 & _ & Hc0 & _ & Hnew)|[_ Hsame]].
      + left. exists ct. repeat split; try congruence.
      + destruct Hpush as [[Hp Hr]|(c0 & l0 & Hc0 & _ & _ & _ & _ & Hnew)].
        * right. repeat split; congruence.
        * left. exists ct. repeat split; congruence.
    - assert (snd (value_status_of raw_entry now_date fluid_store) <> v_ok)
        as Hno by (destruct Hnot as [(H & _)|[(H & _)|(H & _)]]; congruence).
      destruct (update_baseline_cases
                  (snd (value_status_of raw_entry now_date fluid_store))
                  (latest_value raw_entry) cd fluid_store)
        as [(c0 & Hok & _)|[_ Hsame]]; [contradiction|].
      destruct Hpush as [[Hp Hr]|(c0 & l0 & _ & _ & _ & _ & Hok & _)];
        [|congruence].
      right. repeat split; congruence. }
  destruct Hcase as [(ct & Hct & Hpos & Hok & Htot & Hst)|(Hst & Hr & Hp)].
  - rewrite Hst, Hok, Htot.
    destruct (update_fluid_at_baseline self key meta raw_entry now_date
                (snd out1) ct Hct Hpos) as (Hs & Ht & Hstore & Hp & Hr).
    cbv zeta in Hs, Ht, Hstore, Hp, Hr. fold cd in Hs, Ht, Hstore, Hp, Hr.
    rewrite Hs, Ht, Hstore, Hp, Hr. repeat split.
  - rewrite Hst, Hr. fold out1. rewrite Hp, Hr, Hst. repeat split.
Qed.

End PollAgain.
(** ** Readings that are not trusted *)

Section Rejected.
Import PyDate Num Coordinator.



(** X25. For a unit other than m3, L and kWh (or no unit) the recorder
    is given no metadata, and then nothing is ever written: the backfill
    and the same-day correction push nothing and leave the recorder as it
    is, and so does a whole poll of the fluid. *)
Theorem unknown_unit_records_nothing (self : Entry) (key : string)
    (meta : FluidMeta) (rec : Recorder) :
  (forall u, unit meta = Some u -> u <> "m3" /\ u <> "L" /\ u <> "kWh") ->
  (forall stat_id name,
     _get_statistics_metadata self stat_id name (unit meta) = None)
  /\ (forall start_date end_date per_day,
        _update_statistics_range self rec key (unit meta) start_date end_date
          per_day = ([], rec))
  /\ (forall day delta,
        _update_statistics_correction self rec key (unit meta) day delta
        = (None, [], rec))
  /\ (forall raw_entry now_date fluid_store,
        let out :=
          update_fluid self key meta raw_entry now_date fluid_store rec in
        snd (fst out) = [] /\ snd out = rec).
Proof.
  intros Hunit.
  assert (forall stat_id name,
            _get_statistics_metadata self stat_id name (unit meta) = None)
    as Hmeta.
  { intros stat_id name. unfold _get_statistics_metadata.
    destruct (unit meta) as [u|]; [|reflexivity].
    destruct (Hunit u eq_refl) as (Hm3 & HL & Hk).
    apply String.eqb_neq in Hm3, HL, Hk. now rewrite Hm3, HL, Hk. }
  assert (forall start_date end_date per_day,
            _update_statistics_range self rec key (unit meta) start_date
              end_date per_day = ([], rec)) as Hrange.
  { intros start_date end_date per_day. unfold _update_statistics_range.
    rewrite Hmeta.
    destruct (Qltb per_day 0); [reflexivity|].
    destruct (_ <=? 0); [reflexivity|].
    now destruct (range_stats _ _ _ _ _). }
  assert (forall day delta,
            _update_statistics_correction self rec key (unit meta) day delta
            = (None, [], rec)) as Hcorr.
  { intros day delta. unfold _update_statistics_correction. rewrite Hmeta.
    destruct (Qle_bool delta 0); [reflexivity|].
    destruct (_get_last_stat rec (stat_id_of self key)) as [[d row]|];
      [|reflexivity].
    destruct (negb _); [reflexivity|]. now destruct (Qltb _ 0). }
  split; [exact Hmeta|]. split; [exact Hrange|]. split; [exact Hcorr|].
  intros raw_entry now_date fluid_store. cbv zeta.
  destruct (update_fluid_unfold self key meta raw_entry now_date fluid_store rec)
    as (_ & _ & _ & _ & _ & -> & ->).
  unfold derive_daily.
  destruct (ValueStatus_eqb _ v_stale); [split; reflexivity|].
  destruct (negb _);
    [destruct (fst (value_status_of raw_entry now_date fluid_store));
     split; reflexivity|].
  destruct (st_last_total fluid_store) as [lt|]; [|split; reflexivity].
  destruct (st_last_total_at fluid_store) as [lat|]; [|split; reflexivity].
  destruct (latest_value raw_entry) as [ct|]; [|split; reflexivity].
  destruct (_ =? lat).
  - destruct (Qltb (ct - lt) 0); [split; reflexivity|].
    destruct (Qeq_bool (ct - lt) 0); [split; reflexivity|].
    rewrite Hcorr. split; reflexivity.
  - destruct (reset_window ct lt _ lat) as [[delta src] start].
    destruct (_ && Qeq_bool delta 0); [split; reflexivity|].
    destruct (_ && Qle_bool 0 delta);
      [rewrite Hrange; split; reflexivity|].
    destruct (_ && _); split; reflexivity.
Qed.

Lemma unknown_unit_records_nothing_witness :
  _update_statistics_range Examples.self0
    (Examples.one_row (mk 2024 3 10) 3 10) "eau_froide" (Some "gal")
    (mk 2024 3 10) (mk 2024 3 13) 10
  = ([], Examples.one_row (mk 2024 3 10) 3 10).
Proof.
  refine (proj1 (proj2
            (unknown_unit_records_nothing Examples.self0 "eau_froide"
               {| api_name := "EauFroide"; unit := Some "gal";
                  label := "Eau froide" |}
               (Examples.one_row (mk 2024 3 10) 3 10) _))
            (mk 2024 3 10) (mk 2024 3 13) 10%Q).
  intros u [= <-]. repeat split; discriminate.
Defined.

End Rejected.
(** ** The requests of the interactive flow *)

Section Interactive.
Import Client.

Variable query_code : string -> option string.

Ltac step_client :=
  cbv beta iota zeta
      delta [bind ret raise send log set_access set_refresh get_access
             get_refresh get_credentials try_except _parse_settings];
  cbn [_access_token _refresh_token answers n_sent trace _username
       _password fst snd negb].

(** Runs a method to its ends, keeping what each test found. *)
Ltac run_client_eqn :=
  step_client;
  repeat
    (match goal with
     | |- context [match page_settings ?r with _ => _ end] =>
         destruct (page_settings r)
     | |- context [if ?b then _ else _] => destruct b eqn:?
     end; step_client).

(** X26. The interactive flow starts with the authorize request and sends
    at most five requests, all with the tokens it started with.  When it
    raises, both tokens are what they were.  When it completes, its last
    request was the exchange of a code at the token endpoint, answered
    with status 200, and the tokens held are those of that answer (no
    refresh token when the answer carries none). *)
Theorem _auth_pkce_requests (c : OceaClient) :
  let out := _auth_pkce query_code c in
  exists evs,
    trace (snd out) = (trace c ++ evs)%list
    /\ (exists rest,
          evs = Sent Authorize (_access_token c) (_refresh_token c) :: rest)
    /\ (length (List.filter
                  (fun e => match e with Sent _ _ _ => true | _ => false end)
                  evs) <= 5)%nat
    /\ Forall (pkce_event (_access_token c) (_refresh_token c)) evs
    /\ (forall e, fst out = Raise e ->
          _access_token (snd out) = _access_token c
          /\ _refresh_token (snd out) = _refresh_token c)
    /\ (fst out = Ok tt ->
        exists code n before,
          let resp := answers c n (TokenCode code) in
          evs = (before
                 ++ [Sent (TokenCode code) (_access_token c) (_refresh_token c);
                     Logged DEBUG "Authenticated with PKCE flow."])%list
          /\ status_code resp = 200
          /\ _access_token (snd out) = json_access_token resp
          /\ _refresh_token (snd out) = mjoin (json_refresh_token resp)).
Proof.
  cbv zeta. unfold _auth_pkce. run_client_eqn;
    cbn [fst snd trace _access_token _refresh_token];
    repeat (rewrite <- ?app_assoc; cbn [app]);
    (eexists; split; [reflexivity|]);
    (split; [eexists; reflexivity|]);
    (split; [cbn; lia|]);
    (split; [repeat constructor; cbn; auto; discriminate|]);
    (split; [intros e He; first [discriminate He | split; reflexivity]|]);
    intros Hok; try discriminate Hok;
    match goal with
    | |- context [json_access_token (answers c ?n (TokenCode ?code))] =>
        exists code, n
    end;
    match goal with
    | |- exists before, ?l = _ /\ _ =>
        let pre := eval cbn [removelast] in (removelast (removelast l)) in
        exists pre
    end;
    (split; [reflexivity|]);
    (split; [|split; reflexivity]);
    match goal with
    | H : negb (status_code ?r =? 200) = false |- status_code ?r = 200 =>
        apply negb_false_iff, Z.eqb_eq in H; exact H
    end.
Qed.

End Interactive.
